(** * TelebotUrEdu: a shallow embedding of the Telegram/Blogger bridge

    The program (src/TelebotUrEdu.py) is a Flask webhook that takes a chat
    message, looks the keyword up in a Blogger blog (exact label query first,
    fuzzy label match second) and pushes the hits back through the Telegram
    send-message call.

    The embedding keeps the program's dynamic data: decoded JSON values,
    Python exceptions as an explicit result type, and the two remote services
    as a world that answers each HTTP call.  Every effect (HTTP GET, HTTP POST,
    print) is recorded in an event list, so that what was sent, and in which
    order, can be read off a run.

    One line of the source is repaired before it is read: line 50 leaves a
    parenthesis open, and the file as shipped is rejected by the Python
    parser.  Everything below is about the program with that parenthesis
    closed (see [label_match]); no other line is touched. *)

From Stdlib Require Import String Ascii List ZArith QArith Bool Lia.
From Stdlib Require Import DecimalString.
Import ListNotations.

Local Close Scope Q_scope.
Local Open Scope string_scope.
Local Open Scope list_scope.

(** ** Decoded JSON values

    What request.get_json() and Response.json() hand to the program.
    Numbers are the integers; an object keeps its members in order, and
    looking a key up finds its first member of that name. *)

#[local] Set Warnings "-register-all".

Inductive json : Type :=
| JNull
| JBool (b : bool)
| JNum (n : Z)
| JStr (s : string)
| JArr (items : list json)
| JObj (fields : list (string * json)).

(** ** Python exceptions *)

(** Faults the interpreter raises when an operation meets a value of the
    wrong type.  [NoAttribute] is an AttributeError, the others are
    TypeErrors. *)
Inductive py_fault : Type :=
| NoAttribute (v : json) (attr : string)
| NotIterable (v : json)
| NotContainer (v : json)
| BadSubscript (v : json)
| NoLen (v : json)
| Unhashable (v : json).

Inductive exn : Type :=
| RequestException (msg : string)   (* requests.exceptions.RequestException and its subclasses *)
| HTTPException (msg : string)      (* werkzeug, raised by request.get_json() *)
| ValueError (arg : json)
| KeyError (key : json)
| Fault (f : py_fault)
| UnicodeEncodeError (msg : string).  (* raised by print on a str that standard output cannot encode *)

Inductive result (A : Type) : Type :=
| Return (a : A)
| Raise (e : exn).
Arguments Return {A} a.
Arguments Raise {A} e.

(** [except requests.exceptions.RequestException] *)
Definition is_RequestException (e : exn) : bool :=
  match e with
  | RequestException _ => true
  | _ => false
  end.

(** [except Exception] *)
Definition is_Exception (e : exn) : bool := true.

(** ** The parts of the Python library the program calls

    Unicode-aware string methods, repr, the wording of interpreter faults and
    difflib's similarity score are library behaviour; the program's logic
    is stated over any implementation of them.  [ascii_lib] below is an
    executable one. *)
Class PyLib : Type := {
  str_lower : string -> string;           (* str.lower *)
  str_strip : string -> string;           (* str.strip *)
  str_chars : string -> list string;      (* the characters of a str, as iteration yields them *)
  py_repr : json -> string;               (* repr(v) *)
  fault_str : py_fault -> string;         (* str(e) of an interpreter fault *)
  seq_ratio : string -> string -> Q;      (* difflib.SequenceMatcher(None, a, b).ratio() *)
  stdout_error : string -> option string  (* the message of the UnicodeEncodeError that print
                                             raises on the str (it holds a lone surrogate),
                                             [None] when the str can be written *)
}.

Definition nl : string := String "010" EmptyString.

Definition str_of_nat (n : nat) : string :=
  NilZero.string_of_uint (Nat.to_uint n).

Definition str_of_Z (z : Z) : string :=
  NilZero.string_of_int (Z.to_int z).

(** [needle in hay] on two strs *)
Fixpoint contains (needle hay : string) : bool :=
  prefix needle hay ||
  match hay with
  | EmptyString => false
  | String _ rest => contains needle rest
  end.

Fixpoint assoc_get (k : string) (fields : list (string * json)) : option json :=
  match fields with
  | [] => None
  | (k', v) :: rest => if String.eqb k' k then Some v else assoc_get k rest
  end.

(** Python truth value of a decoded JSON value *)
Definition truthy (v : json) : bool :=
  match v with
  | JNull => false
  | JBool b => b
  | JNum n => negb (n =? 0)%Z
  | JStr s => negb (String.eqb s EmptyString)
  | JArr items => match items with [] => false | _ => true end
  | JObj fields => match fields with [] => false | _ => true end
  end.

(** Equality of two hashable values as dict keys: True == 1, False == 0. *)
Definition key_eqb (a b : json) : bool :=
  match a, b with
  | JNull, JNull => true
  | JBool x, JBool y => Bool.eqb x y
  | JNum x, JNum y => (x =? y)%Z
  | JBool x, JNum y => ((if x then 1 else 0) =? y)%Z
  | JNum x, JBool y => (x =? (if y then 1 else 0))%Z
  | JStr x, JStr y => String.eqb x y
  | _, _ => false
  end.

Definition hashable (v : json) : bool :=
  match v with
  | JArr _ | JObj _ => false
  | _ => true
  end.

Section Python.
Context {L : PyLib}.

(** str(v), as an f-string renders a value *)
Definition py_str (v : json) : string :=
  match v with
  | JStr s => s
  | _ => py_repr v
  end.

(** str(e) *)
Definition exn_str (e : exn) : string :=
  match e with
  | RequestException msg => msg
  | HTTPException msg => msg
  | ValueError arg => py_str arg
  | KeyError key => py_repr key
  | Fault f => fault_str f
  | UnicodeEncodeError msg => msg
  end.

(** [v.get(k, default)]: only a dict has the method *)
Definition py_get (v : json) (k : string) (default : json) : result json :=
  match v with
  | JObj fields =>
      match assoc_get k fields with
      | Some x => Return x
      | None => Return default
      end
  | _ => Raise (Fault (NoAttribute v "get"))
  end.

(** [v[k]] with a str key *)
Definition py_getitem (v : json) (k : string) : result json :=
  match v with
  | JObj fields =>
      match assoc_get k fields with
      | Some x => Return x
      | None => Raise (KeyError (JStr k))
      end
  | _ => Raise (Fault (BadSubscript v))
  end.

(** [k in v] with a str on the left *)
Definition py_in (k : string) (v : json) : result bool :=
  match v with
  | JObj fields =>
      Return (match assoc_get k fields with Some _ => true | None => false end)
  | JArr items => Return (existsb (key_eqb (JStr k)) items)
  | JStr s => Return (contains k s)
  | _ => Raise (Fault (NotContainer v))
  end.

(** the values a [for] loop over [v] binds *)
Definition py_iter (v : json) : result (list json) :=
  match v with
  | JArr items => Return items
  | JObj fields => Return (map (fun kv => JStr (fst kv)) fields)
  | JStr s => Return (map JStr (str_chars s))
  | _ => Raise (Fault (NotIterable v))
  end.

(** [len(v)] *)
Definition py_len (v : json) : result nat :=
  match v with
  | JArr items => Return (length items)
  | JObj fields => Return (length fields)
  | JStr s => Return (length (str_chars s))
  | _ => Raise (Fault (NoLen v))
  end.

(** [v[:n]] *)
Definition py_slice_to (v : json) (n : nat) : result json :=
  match v with
  | JArr items => Return (JArr (firstn n items))
  | JStr s => Return (JStr (String.concat EmptyString (firstn n (str_chars s))))
  | _ => Raise (Fault (BadSubscript v))
  end.

End Python.

(** ** The outside world

    [requests.get] and [requests.post] either fail in transport (a
    RequestException: connection error, timeout, ...) or deliver a response.
    A response body either decodes to a JSON value or makes [Response.json]
    raise requests' JSONDecodeError, a RequestException, with the given
    message. *)

Record response : Type := {
  status_code : Z;
  reason : string;
  resp_url : string;
  body : string + json
}.

Inductive net : Type :=
| NetError (msg : string)
| NetResponse (r : response).

Inductive event : Type :=
| EvGet (url : string)
| EvPost (url : string) (payload : json)
| EvPrint (line : string).

(** The answer to a call may depend on everything that happened before it. *)
Record World : Type := {
  http_get : list event -> string -> net;
  http_post : list event -> string -> json -> net
}.

(** os.getenv: a str, or None when the variable is unset *)
Record Config : Type := {
  BLOG_ID : option string;
  API_KEY : option string;
  TELEGRAM_TOKEN : option string
}.

(** how an f-string renders a configuration value *)
Definition env_str (o : option string) : string :=
  match o with
  | Some s => s
  | None => "None"
  end.

(** ** Computations

    A computation reads the events so far, returns a value or raises, and
    reports the events it caused. *)

Definition M (A : Type) : Type := list event -> result A * list event.

Definition ret {A} (a : A) : M A := fun _ => (Return a, []).

Definition raise {A} (e : exn) : M A := fun _ => (Raise e, []).

Definition lift {A} (r : result A) : M A := fun _ => (r, []).

Definition bind {A B} (m : M A) (k : A -> M B) : M B :=
  fun h =>
    match m h with
    | (Return a, evs) => let (r, evs') := k a (h ++ evs) in (r, evs ++ evs')
    | (Raise e, evs) => (Raise e, evs)
    end.

(** [try: m except C as e: handler(e)], [catches] deciding membership in C *)
Definition try_except {A} (m : M A) (catches : exn -> bool) (handler : exn -> M A) : M A :=
  fun h =>
    match m h with
    | (Return a, evs) => (Return a, evs)
    | (Raise e, evs) =>
        if catches e
        then let (r, evs') := handler e (h ++ evs) in (r, evs ++ evs')
        else (Raise e, evs)
    end.

(** print of a line that standard output takes: a text worded by the
    program, the interpreter or a library.  The one print of a str that
    comes from the remote answer (line 99) is [print_error] below, which
    may raise. *)
Definition py_print (line : string) : M unit := fun _ => (Return tt, [EvPrint line]).

Declare Scope py_scope.
Delimit Scope py_scope with py.
Notation "x <- m ;; k" := (bind m (fun x => k))
  (at level 61, m at next level, right associativity) : py_scope.
Notation "m ;;; k" := (bind m (fun _ => k))
  (at level 61, right associativity) : py_scope.

(** the same sequencing for pure code that may raise *)
Definition rbind {A B} (r : result A) (k : A -> result B) : result B :=
  match r with
  | Return a => k a
  | Raise e => Raise e
  end.

Declare Scope res_scope.
Delimit Scope res_scope with res.
Notation "x <- r ;; k" := (rbind r (fun x => k))
  (at level 61, r at next level, right associativity) : res_scope.

(** ** difflib.get_close_matches

    The possibilities whose similarity to [word] reaches [cutoff], best
    first, at most [n] of them; the similarity of a possibility [x] is
    SequenceMatcher(a=x, b=word).ratio().  difflib asks two cheaper upper
    bounds of the ratio first; they change nothing in the outcome and are
    left out.  A ratio is the fraction 2*M/T of matched characters, compared
    here as an exact rational: the float comparison against 0.6 gives the
    same answer on any pair of strings shorter than 10^15 characters.
    Candidates are ranked as the (score, string) tuples that difflib hands to
    heapq.nlargest.  The call site passes n=1 and cutoff=0.6, which pass the
    argument checks. *)

Definition score_leb (x y : Q * string) : bool :=
  match Qcompare (fst x) (fst y) with
  | Lt => true
  | Gt => false
  | Eq => String.leb (snd x) (snd y)
  end.

Fixpoint insert_desc (x : Q * string) (l : list (Q * string)) : list (Q * string) :=
  match l with
  | [] => [x]
  | y :: rest => if score_leb y x then x :: y :: rest else y :: insert_desc x rest
  end.

Definition nlargest (n : nat) (l : list (Q * string)) : list (Q * string) :=
  firstn n (fold_right insert_desc [] l).

Definition cutoff_06 : Q := 6 # 10.

Section Difflib.
Context {L : PyLib}.

Definition close_enough (cutoff : Q) (word x : string) : bool :=
  Qle_bool cutoff (seq_ratio x word).

Definition get_close_matches (word : string) (possibilities : list string)
           (n : nat) (cutoff : Q) : list string :=
  let result :=
    map (fun x => (seq_ratio x word, x))
        (filter (close_enough cutoff word) possibilities) in
  map snd (nlargest n result).

End Difflib.

(** ** The program *)

(** The body of an inbound webhook call: request.get_json() either raises
    (the body is not JSON) or yields the decoded update. *)
Inductive request : Type :=
| Malformed (msg : string)
| Payload (update : json).

Definition success_body : json := JObj [("status", JStr "success")].

Definition error_body (message : string) : json :=
  JObj [("status", JStr "error"); ("message", JStr message)].

Section Program.
Context {L : PyLib}.
Variable cfg : Config.
Variable w : World.

Local Open Scope py_scope.

Definition requests_get (url : string) : M response :=
  fun h =>
    match http_get w h url with
    | NetError msg => (Raise (RequestException msg), [EvGet url])
    | NetResponse r => (Return r, [EvGet url])
    end.

Definition requests_post (url : string) (payload : json) : M response :=
  fun h =>
    match http_post w h url payload with
    | NetError msg => (Raise (RequestException msg), [EvPost url payload])
    | NetResponse r => (Return r, [EvPost url payload])
    end.

(** Response.json() *)
Definition response_json (r : response) : result json :=
  match body r with
  | inl msg => Raise (RequestException msg)
  | inr v => Return v
  end.

(** Response.raise_for_status(): HTTPError is a RequestException *)
Definition raise_for_status (r : response) : result unit :=
  let code := status_code r in
  if (400 <=? code)%Z && (code <? 500)%Z then
    Raise (RequestException
             (str_of_Z code ++ " Client Error: " ++ reason r ++ " for url: " ++ resp_url r))
  else if (500 <=? code)%Z && (code <? 600)%Z then
    Raise (RequestException
             (str_of_Z code ++ " Server Error: " ++ reason r ++ " for url: " ++ resp_url r))
  else Return tt.

(** *** send_to_telegram (lines 14-31) *)

Definition send_message_url : string :=
  "https://api.telegram.org/bot" ++ env_str (TELEGRAM_TOKEN cfg) ++ "/sendMessage".

Definition send_message_payload (chat_id : json) (text : string) : json :=
  JObj [("chat_id", chat_id);
        ("text", JStr text);
        ("parse_mode", JStr "Markdown");
        ("disable_web_page_preview", JBool true)].

Definition send_to_telegram (chat_id : json) (text : string) : M bool :=
  try_except
    (response <- requests_post send_message_url (send_message_payload chat_id text) ;;
     lift (raise_for_status response) ;;;
     ret true)
    is_RequestException
    (fun e =>
       py_print ("Telegram API Error: " ++ exn_str e) ;;;
       ret false).

(** *** search_blogger_posts (lines 33-58) *)

Definition exact_url (keyword : string) : string :=
  "https://www.googleapis.com/blogger/v3/blogs/" ++ env_str (BLOG_ID cfg)
    ++ "/posts?labels=" ++ keyword ++ "&key=" ++ env_str (API_KEY cfg).

Definition all_posts_url : string :=
  "https://www.googleapis.com/blogger/v3/blogs/" ++ env_str (BLOG_ID cfg)
    ++ "/posts?key=" ++ env_str (API_KEY cfg).

(** [label.lower().strip()] *)
Definition normalize_label (label : json) : result string :=
  match label with
  | JStr s => Return (str_strip (str_lower s))
  | _ => Raise (Fault (NoAttribute label "lower"))
  end.

Fixpoint normalize_labels (labels : list json) : result (list string) :=
  match labels with
  | [] => Return []
  | label :: rest =>
      (s <- normalize_label label ;;
       ss <- normalize_labels rest ;;
       Return (s :: ss))%res
  end.

(** line 49: the list comprehension over post.get("labels", []) *)
Definition post_labels (post : json) : result (list string) :=
  (labels <- py_get post "labels" (JArr []) ;;
   items <- py_iter labels ;;
   normalize_labels items)%res.

(** line 50: the condition, as a truth value.  The line as shipped opens
    three parentheses and closes two, so that the module does not parse.  It
    is read here with the missing parenthesis closed before the colon (or,
    to the same effect, with the first one dropped): the test is
    [keyword in joined or get_close_matches(...)], the reading that the
    indented body on line 51 goes with. *)
Definition label_match (keyword : string) (labels : list string) : bool :=
  contains keyword (String.concat " " labels)
  || match get_close_matches keyword labels 1 cutoff_06 with
     | [] => false
     | _ => true
     end.

(** lines 47-51: the loop that fills matched_posts *)
Fixpoint match_posts (keyword : string) (all_posts : list json) : result (list json) :=
  match all_posts with
  | [] => Return []
  | post :: rest =>
      (labels <- post_labels post ;;
       matched <- match_posts keyword rest ;;
       Return (if label_match keyword labels then post :: matched else matched))%res
  end.

(** A dict with insertion order: assigning to a present key keeps the
    key's position and replaces the value; a new key goes last. *)
Fixpoint dict_set (d : list (json * json)) (k v : json) : list (json * json) :=
  match d with
  | [] => [(k, v)]
  | (k', v') :: rest =>
      if key_eqb k' k then (k', v) :: rest else (k', v') :: dict_set rest k v
  end.

(** line 54: {post['url']: post for post in matched_posts} *)
Fixpoint dict_by_url (d : list (json * json)) (posts : list json)
  : result (list (json * json)) :=
  match posts with
  | [] => Return d
  | post :: rest =>
      (url <- py_getitem post "url" ;;
       if hashable url then dict_by_url (dict_set d url post) rest
       else Raise (Fault (Unhashable url)))%res
  end.

Definition dict_values (d : list (json * json)) : list json := map snd d.

(** lines 39-41, on the decoded response *)
Definition exact_items (response : json) : result json :=
  (has_error <- py_in "error" response ;;
   if has_error : bool then
     err <- py_getitem response "error" ;;
     msg <- py_get err "message" (JStr "Blogger API Error") ;;
     Raise (ValueError msg)
   else
     py_get response "items" (JArr []))%res.

(** lines 45-54, on the decoded response *)
Definition fuzzy_items (keyword : string) (response : json) : result json :=
  (items <- py_get response "items" (JArr []) ;;
   all_posts <- py_iter items ;;
   matched_posts <- match_posts keyword all_posts ;;
   d <- dict_by_url [] matched_posts ;;
   Return (JArr (dict_values d)))%res.

Definition search_blogger_posts (keyword : string) (exact_match : bool) : M json :=
  try_except
    (if exact_match then
       response <- requests_get (exact_url keyword) ;;
       lift (response <- response_json response ;;
             exact_items response)%res
     else
       response <- requests_get all_posts_url ;;
       lift (response <- response_json response ;;
             fuzzy_items keyword response)%res)
    is_RequestException
    (fun e =>
       py_print ("Blogger API Request Failed: " ++ exn_str e) ;;;
       ret (JArr [])).

(** *** webhook_handler (lines 60-102) *)

Definition request_get_json (req : request) : result json :=
  match req with
  | Malformed msg => Raise (HTTPException msg)
  | Payload update => Return update
  end.

(** lines 64-70, up to the assignment of chat_id.  [None] is the early
    return of line 68. *)
Definition resolve_chat (req : request) : result (option (json * json)) :=
  (update <- request_get_json req ;;
   message <- py_get update "message" update ;;
   invalid <- (if negb (truthy message) then Return true
               else (present <- py_in "chat" message ;; Return (negb present))) ;;
   if invalid : bool then Return None
   else
     chat <- py_getitem message "chat" ;;
     chat_id <- py_getitem chat "id" ;;
     Return (Some (chat_id, message)))%res.

(** line 71: the text of the message (the empty str when it has none),
    stripped and then lower-cased *)
Definition keyword_of (message : json) : result string :=
  (text <- py_get message "text" (JStr EmptyString) ;;
   match text with
   | JStr s => Return (str_lower (str_strip s))
   | _ => Raise (Fault (NoAttribute text "strip"))
   end)%res.

Definition prompt_text : string := "ℹ️ Please send a search keyword".
Definition no_matches_text : string := "❌ No matches found. Try different keywords.".
Definition related_header (n : nat) : string :=
  "🎯 Found " ++ str_of_nat n ++ " related matches:".
Definition exact_header (n : nat) : string :=
  "🔍 Found " ++ str_of_nat n ++ " exact matches:".
Definition item_text (title url : json) : string :=
  "📖 *" ++ py_str title ++ "*" ++ nl ++ py_str url.
Definition error_text (e : exn) : string := "⚠️ Error: " ++ exn_str e.

(** line 93: the f-string, post['title'] looked up before post['url'] *)
Definition item_message (post : json) : result string :=
  (title <- py_getitem post "title" ;;
   url <- py_getitem post "url" ;;
   Return (item_text title url))%res.

(** line 93, once per post *)
Fixpoint send_each (chat_id : json) (posts : list json) : M unit :=
  match posts with
  | [] => ret tt
  | post :: rest =>
      text <- lift (item_message post) ;;
      send_to_telegram chat_id text ;;;
      send_each chat_id rest
  end.

(** lines 91-95: the delivery loop over posts[:5] and the final return *)
Definition deliver (chat_id posts : json) : M (json * Z) :=
  first <- lift (py_slice_to posts 5) ;;
  items <- lift (py_iter first) ;;
  send_each chat_id items ;;;
  ret (success_body, 200%Z).

(** lines 82-87, then the delivery: the fuzzy fallback *)
Definition fallback (chat_id : json) (keyword : string) : M (json * Z) :=
  posts <- search_blogger_posts keyword false ;;
  if truthy posts then
    n <- lift (py_len posts) ;;
    send_to_telegram chat_id (related_header n) ;;;
    deliver chat_id posts
  else
    send_to_telegram chat_id no_matches_text ;;;
    ret (success_body, 200%Z).

(** lines 77-95 *)
Definition search_and_reply (chat_id : json) (keyword : string) : M (json * Z) :=
  posts <- search_blogger_posts keyword true ;;
  if negb (truthy posts) then
    fallback chat_id keyword
  else
    n <- lift (py_len posts) ;;
    send_to_telegram chat_id (exact_header n) ;;;
    deliver chat_id posts.

(** lines 71-95, run with chat_id bound *)
Definition answer (chat_id message : json) : M (json * Z) :=
  keyword <- lift (keyword_of message) ;;
  if String.eqb keyword EmptyString then
    send_to_telegram chat_id prompt_text ;;;
    ret (success_body, 200%Z)
  else
    search_and_reply chat_id keyword.

(** The one text the handler prints that is not worded by the interpreter
    or by a library: the str that line 40 puts into its ValueError, which
    comes from the remote answer. *)
Definition remote_text (e : exn) : option string :=
  match e with
  | ValueError (JStr s) => Some s
  | _ => None
  end.

(** line 99: print(error_msg).  A message worded by the interpreter or by
    a library can be written; a str taken from the remote answer may hold a
    lone surrogate, and then print raises UnicodeEncodeError inside the
    except clause. *)
Definition print_failure (e : exn) : option string :=
  match remote_text e with
  | Some _ => stdout_error (error_text e)
  | None => None
  end.

Definition print_error (e : exn) : M unit :=
  match print_failure e with
  | Some msg => raise (UnicodeEncodeError msg)
  | None => py_print (error_text e)
  end.

(** lines 97-102: the except clause; [chat_id] is [Some] exactly when
    'chat_id' is in locals() *)
Definition on_error (chat_id : option json) (e : exn) : M (json * Z) :=
  print_error e ;;;
  match chat_id with
  | Some c => send_to_telegram c (error_text e) ;;; ret tt
  | None => ret tt
  end ;;;
  ret (error_body (exn_str e), 500%Z).

(** The try block is split where chat_id is assigned: an exception raised
    before line 70 completes finds no chat_id among the locals, one raised
    after it does. *)
Definition webhook_handler (req : request) : M (json * Z) :=
  match resolve_chat req with
  | Raise e => on_error None e
  | Return None => ret (error_body "Invalid message format", 400%Z)
  | Return (Some (chat_id, message)) =>
      try_except (answer chat_id message) is_Exception (on_error (Some chat_id))
  end.

(** *** set_telegram_webhook (lines 104-114)

    [host] is os.getenv('RAILWAY_STATIC_URL').  The call has no timeout and
    its response is not looked at. *)




(** *** Reading a run *)

(** line 65 on a JSON object: its "message" member, or the object itself *)
Definition message_of (fields : list (string * json)) : json :=
  match assoc_get "message" fields with
  | Some m => m
  | None => JObj fields
  end.

(** the event of one notification *)
Definition notification (chat_id : json) (text : string) : event :=
  EvPost send_message_url (send_message_payload chat_id text).

(** lines 78-82 on their own: the search the handler settles on, and
    whether it was the exact one *)
Definition find_posts (keyword : string) : M (bool * json) :=
  posts <- search_blogger_posts keyword true ;;
  if negb (truthy posts) then
    posts <- search_blogger_posts keyword false ;;
    ret (false, posts)
  else ret (true, posts).

(** the keys of a dict are pairwise different, as keys *)
Fixpoint keys_distinct (d : list (json * json)) : Prop :=
  match d with
  | [] => True
  | (k, _) :: rest =>
      Forall (fun kv => key_eqb k (fst kv) = false) rest /\ keys_distinct rest
  end.

(** every value of the dict is a post filed under its own url *)
Definition filed_by_url (d : list (json * json)) : Prop :=
  Forall (fun kv =>
            hashable (fst kv) = true
            /\ exists url, py_getitem (snd kv) "url" = Return url
                           /\ key_eqb (fst kv) url = true) d.

(** the URL a search queries and what it makes of the decoded answer *)
Definition search_url (keyword : string) (exact_match : bool) : string :=
  if exact_match then exact_url keyword else all_posts_url.

Definition search_items (keyword : string) (exact_match : bool) (response : json)
  : result json :=
  if exact_match then exact_items response else fuzzy_items keyword response.

Definition request_failed (msg : string) : event :=
  EvPrint ("Blogger API Request Failed: " ++ msg).

Definition count_header (exact : bool) (n : nat) : string :=
  if exact then exact_header n else related_header n.

(** the item texts the loop of line 92 gets to send, and the exception
    that stops it, if any *)
Fixpoint item_messages (posts : list json) : list string * option exn :=
  match posts with
  | [] => ([], None)
  | post :: rest =>
      match item_message post with
      | Raise e => ([], Some e)
      | Return text =>
          let (texts, stop) := item_messages rest in (text :: texts, stop)
      end
  end.

End Program.

(** the outbound calls of a run, in order *)
Definition is_post (ev : event) : bool :=
  match ev with
  | EvPost _ _ => true
  | _ => false
  end.

Definition outbound (evs : list event) : list event := filter is_post evs.

(** the log lines of a run *)
Definition is_print (ev : event) : bool :=
  match ev with
  | EvPrint _ => true
  | _ => false
  end.

Definition logged (evs : list event) : list event := filter is_print evs.

(** the content queries of a run *)
Definition is_get (ev : event) : bool :=
  match ev with
  | EvGet _ => true
  | _ => false
  end.

Definition queries (evs : list event) : list event := filter is_get evs.

(** The remote content set is unchanged between two runs: a content query
    has one answer, whatever happened before it and in whichever run. *)
Definition same_content (w1 w2 : World) : Prop :=
  forall h1 h2 url, http_get w1 h1 url = http_get w2 h2 url.

(** Two computations that end the same way and make the same outbound
    calls, whatever happened before each. *)
Definition agree {A} (m1 m2 : M A) : Prop :=
  forall h1 h2,
    fst (m1 h1) = fst (m2 h2)
    /\ outbound (snd (m1 h1)) = outbound (snd (m2 h2)).

(** ** An executable library: ASCII strings

    [ascii_lib] implements [PyLib] on strings of one-byte characters.  It
    agrees with CPython where the strings are printable ASCII without quotes
    or backslashes (for repr) and shorter than 200 characters (where difflib
    starts to discard popular characters). *)

Module AsciiLib.

Definition lower_char (c : ascii) : ascii :=
  let n := nat_of_ascii c in
  if (65 <=? n)%nat && (n <=? 90)%nat then ascii_of_nat (n + 32) else c.

Fixpoint lower (s : string) : string :=
  match s with
  | EmptyString => EmptyString
  | String c rest => String (lower_char c) (lower rest)
  end.

(** str.isspace on one-byte characters *)
Definition is_space (c : ascii) : bool :=
  let n := nat_of_ascii c in
  ((9 <=? n)%nat && (n <=? 13)%nat) || ((28 <=? n)%nat && (n <=? 32)%nat).

Fixpoint lstrip (s : string) : string :=
  match s with
  | EmptyString => EmptyString
  | String c rest => if is_space c then lstrip rest else s
  end.

Fixpoint rstrip (s : string) : string :=
  match s with
  | EmptyString => EmptyString
  | String c rest =>
      match rstrip rest with
      | EmptyString => if is_space c then EmptyString else String c EmptyString
      | rest' => String c rest'
      end
  end.

Definition strip (s : string) : string := rstrip (lstrip s).

Fixpoint chars (s : string) : list string :=
  match s with
  | EmptyString => []
  | String c rest => String c EmptyString :: chars rest
  end.

Definition quote (s : string) : string := "'" ++ s ++ "'".

Fixpoint repr (v : json) : string :=
  match v with
  | JNull => "None"
  | JBool true => "True"
  | JBool false => "False"
  | JNum n => str_of_Z n
  | JStr s => quote s
  | JArr items => "[" ++ String.concat ", " (map repr items) ++ "]"
  | JObj fields =>
      "{" ++ String.concat ", "
               (map (fun kv => (quote (fst kv) ++ ": " ++ repr (snd kv))%string) fields)
          ++ "}"
  end.

Definition type_name (v : json) : string :=
  match v with
  | JNull => "NoneType"
  | JBool _ => "bool"
  | JNum _ => "int"
  | JStr _ => "str"
  | JArr _ => "list"
  | JObj _ => "dict"
  end.

Definition fault_message (f : py_fault) : string :=
  match f with
  | NoAttribute v attr =>
      quote (type_name v) ++ " object has no attribute " ++ quote attr
  | NotIterable v => quote (type_name v) ++ " object is not iterable"
  | NotContainer v => "argument of type " ++ quote (type_name v) ++ " is not iterable"
  | BadSubscript v =>
      match v with
      | JArr _ => "list indices must be integers or slices, not str"
      | JStr _ => "string indices must be integers, not 'str'"
      | JObj _ => "unhashable type: 'slice'"
      | _ => quote (type_name v) ++ " object is not subscriptable"
      end
  | NoLen v => "object of type " ++ quote (type_name v) ++ " has no len()"
  | Unhashable v => "unhashable type: " ++ quote (type_name v)
  end.

(** *** SequenceMatcher.ratio, without junk *)

Fixpoint common_prefix (a b : list ascii) : nat :=
  match a, b with
  | x :: a', y :: b' => if Ascii.eqb x y then S (common_prefix a' b') else 0
  | _, _ => 0
  end.

(** the longest block of [b] that starts [a], earliest in [b] on ties *)
Fixpoint longest_from (a b : list ascii) (j : nat) : nat * nat :=
  match b with
  | [] => (j, 0)
  | _ :: b' =>
      let k := common_prefix a b in
      let (j', k') := longest_from a b' (S j) in
      if (k' <=? k)%nat then (j, k) else (j', k')
  end.

(** find_longest_match: longest block, earliest in [a], then in [b] *)
Fixpoint find_longest_match (a b : list ascii) (i : nat) : nat * nat * nat :=
  match a with
  | [] => (i, 0, 0)
  | _ :: a' =>
      let (j, k) := longest_from a b 0 in
      let '(i', j', k') := find_longest_match a' b (S i) in
      if (k' <=? k)%nat then (i, j, k) else (i', j', k')
  end.

(** the total size of get_matching_blocks *)
Fixpoint matches (fuel : nat) (a b : list ascii) : nat :=
  match fuel with
  | O => 0
  | S fuel' =>
      let '(i, j, k) := find_longest_match a b 0 in
      if (k =? 0)%nat then 0
      else matches fuel' (firstn i a) (firstn j b) + k
           + matches fuel' (skipn (i + k) a) (skipn (j + k) b)
  end.

(** print on a UTF-8 standard output refuses the surrogates, which this
    scheme writes as the byte 237 followed by a byte of 160 or more *)
Fixpoint has_surrogate (s : string) : bool :=
  match s with
  | EmptyString => false
  | String c rest =>
      match rest with
      | EmptyString => false
      | String d _ =>
          ((nat_of_ascii c =? 237)%nat && (160 <=? nat_of_ascii d)%nat)
          || has_surrogate rest
      end
  end.

Definition encode_error (s : string) : option string :=
  if has_surrogate s
  then Some "'utf-8' codec can't encode character: surrogates not allowed"
  else None.

Definition ratio (a b : string) : Q :=
  let la := list_ascii_of_string a in
  let lb := list_ascii_of_string b in
  let total := (length la + length lb)%nat in
  match total with
  | O => 1%Q
  | S _ => Qmake (2 * Z.of_nat (matches (S (length la)) la lb)) (Pos.of_nat total)
  end.

End AsciiLib.

Definition ascii_lib : PyLib := {|
  str_lower := AsciiLib.lower;
  str_strip := AsciiLib.strip;
  str_chars := AsciiLib.chars;
  py_repr := AsciiLib.repr;
  fault_str := AsciiLib.fault_message;
  seq_ratio := AsciiLib.ratio;
  stdout_error := AsciiLib.encode_error
|}.

(** ** A small blog to run the program on *)

Module Demo.

Definition cfg : Config :=
  {| BLOG_ID := Some "42"; API_KEY := Some "key"; TELEGRAM_TOKEN := Some "tok" |}.

Definition answer_with (code : Z) (v : json) : net :=
  NetResponse {| status_code := code; reason := "OK"; resp_url := EmptyString; body := inr v |}.

Definition post (title url : string) (labels : list string) : json :=
  JObj [("title", JStr title); ("url", JStr url); ("labels", JArr (map JStr labels))].

Definition items (posts : list json) : json := JObj [("items", JArr posts)].

Definition p1 : json := post "Intro to Python" "https://b.example/1" ["Python"; "Basics"].
Definition p2 : json := post "Python tricks" "https://b.example/2" [" python "].
Definition p3 : json := post "Pythons as pets" "https://b.example/1" ["Python"].
Definition p4 : json := post "Rust" "https://b.example/4" ["rust"].
Definition p5 : json := post "Go" "https://b.example/5" ["golang"].
Definition p6 : json := post "C" "https://b.example/6" ["c"].
Definition p7 : json := post "Coq" "https://b.example/7" ["rocq"].

(** a server that knows the given URLs and times out on any other *)
Fixpoint lookup (table : list (string * net)) (url : string) : net :=
  match table with
  | [] => NetError "Read timed out."
  | (u, n) :: rest => if String.eqb u url then n else lookup rest url
  end.

Definition world (table : list (string * net)) (telegram : net) : World :=
  {| http_get := fun _ url => lookup table url;
     http_post := fun _ _ _ => telegram |}.

Definition message (chat_id : Z) (text : string) : json :=
  JObj [("chat", JObj [("id", JNum chat_id)]); ("text", JStr text)].

Definition update (chat_id : Z) (text : string) : request :=
  Payload (JObj [("message", message chat_id text)]).

Definition telegram_ok : net := answer_with 200 (JObj [("ok", JBool true)]).

(** Telegram rejects the bot token *)
Definition telegram_forbidden : net :=
  NetResponse {| status_code := 403; reason := "Forbidden";
                 resp_url := "https://api.telegram.org/"; body := inl "no JSON" |}.

(** the label query for python finds seven posts *)
Definition big_blog : World :=
  world [(exact_url cfg "python", answer_with 200 (items [p1; p2; p3; p4; p5; p6; p7]))]
        telegram_ok.

(** no post carries the label pythn; the whole blog is p1 ... p7 *)
Definition typo_blog : World :=
  world [(exact_url cfg "pythn", answer_with 200 (JObj []));
         (all_posts_url cfg, answer_with 200 (items [p1; p2; p3; p4; p5; p6; p7]))]
        telegram_ok.

(** nothing resembles haskell *)
Definition quiet_blog : World :=
  world [(exact_url cfg "haskell", answer_with 200 (JObj []));
         (all_posts_url cfg, answer_with 200 (items [p4; p5; p6; p7]))]
        telegram_ok.

(** the content API refuses the key *)
Definition refusing_blog : World :=
  world [(exact_url cfg "python",
          answer_with 200
            (JObj [("error", JObj [("code", JNum 403);
                                   ("message", JStr "API key not valid")])]))]
        telegram_ok.

(** the lone surrogate U+D83D, as the JSON escape \ud83d decodes *)
Definition lone_surrogate : string := String "237" (String "160" (String "189" EmptyString)).

(** the content API reports an error whose message holds a lone surrogate *)
Definition garbled_blog : World :=
  world [(exact_url cfg "python",
          answer_with 200 (JObj [("error", JObj [("message", JStr lone_surrogate)])]))]
        telegram_ok.


(** the label query finds nothing and the listing is refused *)
Definition refused_listing : World :=
  world [(exact_url cfg "python", answer_with 200 (JObj []));
         (all_posts_url cfg,
          answer_with 403 (JObj [("error", JObj [("message", JStr "API key not valid")])]))]
        telegram_ok.

(** the exact query times out, the listing answers, Telegram is down *)
Definition slow_blog : World :=
  world [(all_posts_url cfg, answer_with 200 (items [p1; p2; p4]))]
        (NetError "Connection refused").

End Demo.

(** * Properties *)

(** ** Running computations *)

Lemma bind_lift_Return {A B} (a : A) (k : A -> M B) (h : list event) :
  bind (lift (Return a)) k h = k a h.
Proof.
  unfold bind, lift. rewrite app_nil_r. destruct (k a h); reflexivity.
Qed.

Lemma bind_lift_Raise {A B} (e : exn) (k : A -> M B) (h : list event) :
  bind (lift (Raise e)) k h = (Raise e, []).
Proof. reflexivity. Qed.

Lemma bind_Return {A B} (m : M A) (k : A -> M B) h a evs :
  m h = (Return a, evs) ->
  bind m k h = (fst (k a (h ++ evs)), evs ++ snd (k a (h ++ evs))).
Proof.
  intros Hm. unfold bind. rewrite Hm. destruct (k a (h ++ evs)); reflexivity.
Qed.

Lemma bind_Raise {A B} (m : M A) (k : A -> M B) h e evs :
  m h = (Raise e, evs) -> bind m k h = (Raise e, evs).
Proof. intros Hm. unfold bind. rewrite Hm. reflexivity. Qed.

Lemma try_Return {A} (m : M A) catches handler h a evs :
  m h = (Return a, evs) -> try_except m catches handler h = (Return a, evs).
Proof. intros Hm. unfold try_except. rewrite Hm. reflexivity. Qed.

Lemma try_caught {A} (m : M A) catches handler h e evs :
  m h = (Raise e, evs) -> catches e = true ->
  try_except m catches handler h
  = (fst (handler e (h ++ evs)), evs ++ snd (handler e (h ++ evs))).
Proof.
  intros Hm Hc. unfold try_except. rewrite Hm, Hc.
  destruct (handler e (h ++ evs)); reflexivity.
Qed.

Lemma try_uncaught {A} (m : M A) catches handler h e evs :
  m h = (Raise e, evs) -> catches e = false ->
  try_except m catches handler h = (Raise e, evs).
Proof. intros Hm Hc. unfold try_except. rewrite Hm, Hc. reflexivity. Qed.

Lemma outbound_app (a b : list event) : outbound (a ++ b) = outbound a ++ outbound b.
Proof. apply filter_app. Qed.

Lemma logged_app (a b : list event) : logged (a ++ b) = logged a ++ logged b.
Proof. apply filter_app. Qed.

Lemma outbound_notification (cfg : Config) (chat_id : json) (text : string)
      (evs : list event) :
  outbound (notification cfg chat_id text :: evs)
  = notification cfg chat_id text :: outbound evs.
Proof. reflexivity. Qed.

(** ** The notifier *)

Section Notifier.
Context {L : PyLib}.
Variable cfg : Config.
Variable w : World.

Lemma raise_for_status_error (r : response) :
  (400 <= status_code r < 600)%Z ->
  exists msg, raise_for_status r = Raise (RequestException msg).
Proof.
  intros Hcode. unfold raise_for_status.
  destruct ((400 <=? status_code r)%Z && (status_code r <? 500)%Z) eqn:Hclient.
  - eexists; reflexivity.
  - destruct ((500 <=? status_code r)%Z && (status_code r <? 600)%Z) eqn:Hserver.
    + eexists; reflexivity.
    + exfalso.
      apply andb_false_iff in Hclient. apply andb_false_iff in Hserver.
      destruct Hclient as [H | H]; destruct Hserver as [H' | H'];
        try apply Z.leb_gt in H; try apply Z.ltb_ge in H;
        try apply Z.leb_gt in H'; try apply Z.ltb_ge in H'; lia.
Qed.

Lemma raise_for_status_fine (r : response) :
  ~ (400 <= status_code r < 600)%Z -> raise_for_status r = Return tt.
Proof.
  intros Hcode. unfold raise_for_status.
  destruct ((400 <=? status_code r)%Z && (status_code r <? 500)%Z) eqn:Hclient.
  - apply andb_true_iff in Hclient. destruct Hclient as [H H'].
    apply Z.leb_le in H. apply Z.ltb_lt in H'. lia.
  - destruct ((500 <=? status_code r)%Z && (status_code r <? 600)%Z) eqn:Hserver.
    + apply andb_true_iff in Hserver. destruct Hserver as [H H'].
      apply Z.leb_le in H. apply Z.ltb_lt in H'. lia.
    + reflexivity.
Qed.

Lemma raise_for_status_cases (r : response) :
  raise_for_status r = Return tt
  \/ exists msg, raise_for_status r = Raise (RequestException msg).
Proof.
  unfold raise_for_status.
  destruct (_ && _); [right; eexists; reflexivity |].
  destruct (_ && _); [right; eexists; reflexivity | left; reflexivity].
Qed.

(** Every call of the notifier returns a boolean after exactly one outbound
    call; whatever else it leaves in the run is log output. *)
Lemma send_run (chat_id : json) (text : string) (h : list event) :
  exists b log,
    send_to_telegram cfg w chat_id text h = (Return b, notification cfg chat_id text :: log)
    /\ outbound log = [].
Proof.
  unfold send_to_telegram, try_except, bind, requests_post, notification.
  destruct (http_post w h _ _) as [msg | r]; cbn.
  - exists false. eexists. split; reflexivity.
  - unfold lift. destruct (raise_for_status_cases r) as [Hok | [msg Hbad]].
    + rewrite Hok. cbn. exists true, []. split; reflexivity.
    + rewrite Hbad. cbn. exists false. eexists. split; reflexivity.
Qed.

(** C8: the notifier always returns a boolean and never raises.  A
    transport failure of the send-message call, or an error status (4xx or
    5xx, which is what raise_for_status rejects), is printed and answered
    with False; any other response is answered with True and nothing is
    printed. *)
Theorem send_to_telegram_returns_bool (chat_id : json) (text : string) (h : list event) :
  let call := http_post w h (send_message_url cfg) (send_message_payload chat_id text) in
  (exists b evs, send_to_telegram cfg w chat_id text h = (Return b, evs))
  /\ (forall msg, call = NetError msg ->
        send_to_telegram cfg w chat_id text h
        = (Return false,
           [notification cfg chat_id text; EvPrint ("Telegram API Error: " ++ msg)]))
  /\ (forall r, call = NetResponse r -> (400 <= status_code r < 600)%Z ->
        exists msg,
          send_to_telegram cfg w chat_id text h
          = (Return false,
             [notification cfg chat_id text; EvPrint ("Telegram API Error: " ++ msg)]))
  /\ (forall r, call = NetResponse r -> ~ (400 <= status_code r < 600)%Z ->
        send_to_telegram cfg w chat_id text h
        = (Return true, [notification cfg chat_id text])).
Proof.
  intros call. split; [| split; [| split]].
  - destruct (send_run chat_id text h) as (b & log & Hrun & _). eauto.
  - intros msg Hcall. subst call.
    unfold send_to_telegram, try_except, bind, requests_post, notification.
    rewrite Hcall. reflexivity.
  - intros r Hcall Hcode. subst call.
    destruct (raise_for_status_error r Hcode) as [msg Hmsg].
    exists msg.
    unfold send_to_telegram, try_except, bind, requests_post, notification, lift.
    rewrite Hcall. cbn. rewrite Hmsg. reflexivity.
  - intros r Hcall Hcode. subst call.
    unfold send_to_telegram, try_except, bind, requests_post, notification, lift.
    rewrite Hcall. cbn. rewrite (raise_for_status_fine r Hcode). reflexivity.
Qed.

End Notifier.

(** A refused connection, a 403 and a 200. *)
Lemma send_to_telegram_returns_bool_witness :
  @send_to_telegram ascii_lib Demo.cfg (Demo.world [] (NetError "Connection refused"))
    (JNum 7) "hi" []
  = (Return false,
     [notification Demo.cfg (JNum 7) "hi";
      EvPrint "Telegram API Error: Connection refused"])
  /\ (exists msg,
        @send_to_telegram ascii_lib Demo.cfg (Demo.world [] Demo.telegram_forbidden)
          (JNum 7) "hi" []
        = (Return false,
           [notification Demo.cfg (JNum 7) "hi";
            EvPrint ("Telegram API Error: " ++ msg)]))
  /\ @send_to_telegram ascii_lib Demo.cfg (Demo.world [] Demo.telegram_ok)
       (JNum 7) "hi" []
     = (Return true, [notification Demo.cfg (JNum 7) "hi"]).
Proof.
  split; [| split].
  - apply (proj1 (proj2 (@send_to_telegram_returns_bool ascii_lib Demo.cfg
                           (Demo.world [] (NetError "Connection refused"))
                           (JNum 7) "hi" []))).
    reflexivity.
  - apply (proj1 (proj2 (proj2 (@send_to_telegram_returns_bool ascii_lib Demo.cfg
                                  (Demo.world [] Demo.telegram_forbidden)
                                  (JNum 7) "hi" []))) _ eq_refl).
    cbn. lia.
  - apply (proj2 (proj2 (proj2 (@send_to_telegram_returns_bool ascii_lib Demo.cfg
                                  (Demo.world [] Demo.telegram_ok)
                                  (JNum 7) "hi" []))) _ eq_refl).
    cbn. lia.
Defined.

(** ** Content search *)

Section Search.
Context {L : PyLib}.
Variable cfg : Config.
Variable w : World.

(** What a search does, by the answer to its one query. *)
Lemma search_run (keyword : string) (exact_match : bool) (h : list event) :
  let url := search_url cfg keyword exact_match in
  search_blogger_posts cfg w keyword exact_match h =
  match http_get w h url with
  | NetError msg => (Return (JArr []), [EvGet url; request_failed msg])
  | NetResponse r =>
      match body r with
      | inl msg => (Return (JArr []), [EvGet url; request_failed msg])
      | inr v =>
          match search_items keyword exact_match v with
          | Return posts => (Return posts, [EvGet url])
          | Raise e =>
              if is_RequestException e
              then (Return (JArr []), [EvGet url; request_failed (exn_str e)])
              else (Raise e, [EvGet url])
          end
      end
  end.
Proof.
  unfold search_blogger_posts, search_url, search_items, try_except, bind, requests_get,
    response_json, lift, request_failed.
  destruct exact_match.
  - destruct (http_get w h (exact_url cfg keyword)) as [msg | r]; cbn; [reflexivity |].
    destruct (body r) as [msg | v]; cbn; [reflexivity |].
    destruct (exact_items v) as [posts | e]; cbn; [reflexivity |].
    destruct (is_RequestException e) eqn:He; [| reflexivity].
    destruct e; try discriminate He. reflexivity.
  - destruct (http_get w h (all_posts_url cfg)) as [msg | r]; cbn; [reflexivity |].
    destruct (body r) as [msg | v]; cbn; [reflexivity |].
    destruct (fuzzy_items keyword v) as [posts | e]; cbn; [reflexivity |].
    destruct (is_RequestException e) eqn:He; [| reflexivity].
    destruct e; try discriminate He. reflexivity.
Qed.

(** A search sends nothing to the chat, and its first event is its query. *)
Lemma search_events (keyword : string) (exact_match : bool) (h : list event) :
  exists log,
    snd (search_blogger_posts cfg w keyword exact_match h)
    = EvGet (search_url cfg keyword exact_match) :: log
    /\ outbound log = [].
Proof.
  rewrite search_run. cbv zeta.
  destruct (http_get w h _) as [msg | r]; [eexists; split; reflexivity |].
  destruct (body r) as [msg | v]; [eexists; split; reflexivity |].
  destruct (search_items keyword exact_match v) as [posts | e];
    [eexists; split; reflexivity |].
  destruct (is_RequestException e); eexists; split; reflexivity.
Qed.

Lemma search_outbound (keyword : string) (exact_match : bool) (h : list event) :
  outbound (snd (search_blogger_posts cfg w keyword exact_match h)) = [].
Proof.
  destruct (search_events keyword exact_match h) as (log & Hevs & Hlog).
  rewrite Hevs. exact Hlog.
Qed.

End Search.

(** ** The request handler *)

Section Handler.
Context {L : PyLib}.
Variable cfg : Config.
Variable w : World.

Lemma on_error_unresolved (e : exn) (h : list event) :
  print_failure e = None ->
  on_error cfg w None e h
  = (Return (error_body (exn_str e), 500%Z), [EvPrint (error_text e)]).
Proof. intros Hprint. unfold on_error, print_error. rewrite Hprint. reflexivity. Qed.

Lemma on_error_resolved (chat_id : json) (e : exn) (h : list event) :
  print_failure e = None ->
  exists evs,
    on_error cfg w (Some chat_id) e h = (Return (error_body (exn_str e), 500%Z), evs)
    /\ outbound evs = [notification cfg chat_id (error_text e)].
Proof.
  intros Hprint. unfold on_error, print_error. rewrite Hprint. unfold py_print.
  destruct (send_run cfg w chat_id (error_text e) (h ++ [EvPrint (error_text e)]))
    as (b & log & Hsend & Hlog).
  unfold bind at 1. cbn.
  unfold bind at 1.
  erewrite (bind_Return _ _ _ _ _ Hsend). cbn.
  eexists. split; [reflexivity |].
  rewrite app_nil_r. cbn. rewrite outbound_app, Hlog. reflexivity.
Qed.

(** *** Exceptions worded by the interpreter

    The pure steps of the handler raise KeyError or a fault, never the
    ValueError of line 40; their texts can be printed. *)

Lemma plain_prints (e : exn) : remote_text e = None -> print_failure e = None.
Proof. intros Hplain. unfold print_failure. rewrite Hplain. reflexivity. Qed.

Lemma py_getitem_plain (v : json) (k : string) (e : exn) :
  py_getitem v k = Raise e -> remote_text e = None.
Proof.
  unfold py_getitem. destruct v; try (intros Heq; injection Heq as <-; reflexivity).
  destruct (assoc_get k fields); [discriminate |].
  intros Heq. injection Heq as <-. reflexivity.
Qed.

Lemma py_get_plain (v : json) (k : string) (default : json) (e : exn) :
  py_get v k default = Raise e -> remote_text e = None.
Proof.
  unfold py_get. destruct v; try (intros Heq; injection Heq as <-; reflexivity).
  destruct (assoc_get k fields); discriminate.
Qed.

Lemma py_in_plain (k : string) (v : json) (e : exn) :
  py_in k v = Raise e -> remote_text e = None.
Proof.
  unfold py_in.
  destruct v; try discriminate; intros Heq; injection Heq as <-; reflexivity.
Qed.

Lemma py_iter_plain (v : json) (e : exn) : py_iter v = Raise e -> remote_text e = None.
Proof.
  unfold py_iter.
  destruct v; try discriminate; intros Heq; injection Heq as <-; reflexivity.
Qed.

Lemma py_len_plain (v : json) (e : exn) : py_len v = Raise e -> remote_text e = None.
Proof.
  unfold py_len.
  destruct v; try discriminate; intros Heq; injection Heq as <-; reflexivity.
Qed.

Lemma py_slice_plain (v : json) (n : nat) (e : exn) :
  py_slice_to v n = Raise e -> remote_text e = None.
Proof.
  unfold py_slice_to.
  destruct v; try discriminate; intros Heq; injection Heq as <-; reflexivity.
Qed.

Lemma item_message_plain (post : json) (e : exn) :
  item_message post = Raise e -> remote_text e = None.
Proof.
  unfold item_message, rbind.
  destruct (py_getitem post "title") as [title | e1] eqn:Htitle.
  - destruct (py_getitem post "url") as [url | e2] eqn:Hurl; [discriminate |].
    intros Heq. injection Heq as <-. eapply py_getitem_plain. exact Hurl.
  - intros Heq. injection Heq as <-. eapply py_getitem_plain. exact Htitle.
Qed.

Lemma item_messages_plain (posts : list json) (e : exn) :
  snd (item_messages posts) = Some e -> remote_text e = None.
Proof.
  induction posts as [| post rest IH]; cbn [item_messages]; [discriminate |].
  destruct (item_message post) as [text | e'] eqn:Htext.
  - destruct (item_messages rest) as [texts stop]. exact IH.
  - cbn [snd]. intros Heq. injection Heq as <-. eapply item_message_plain. exact Htext.
Qed.

(** The delivery loop: what is sent are the item texts up to the first post
    that lacks a title or a url. *)
Lemma send_each_run (chat_id : json) (posts : list json) :
  forall h, exists evs,
    send_each cfg w chat_id posts h
    = (match snd (item_messages posts) with
       | None => Return tt
       | Some e => Raise e
       end, evs)
    /\ outbound evs = map (notification cfg chat_id) (fst (item_messages posts)).
Proof.
  induction posts as [| post rest IH]; intros h.
  - exists []. split; reflexivity.
  - cbn [send_each item_messages].
    destruct (item_message post) as [text | e].
    + rewrite bind_lift_Return.
      destruct (send_run cfg w chat_id text h) as (b & log & Hsend & Hlog).
      rewrite (bind_Return _ _ _ _ _ Hsend).
      destruct (IH (h ++ notification cfg chat_id text :: log)) as (evs & Hrest & Hout).
      rewrite Hrest. cbn [fst snd].
      destruct (item_messages rest) as [texts stop]. cbn [fst snd] in *.
      eexists. split; [reflexivity |].
      change (notification cfg chat_id text :: log)
        with ([notification cfg chat_id text] ++ log).
      rewrite !outbound_app, Hlog, Hout. reflexivity.
    + rewrite bind_lift_Raise. exists []. split; reflexivity.
Qed.

Lemma deliver_run (chat_id : json) (posts : list json) (h : list event) :
  exists evs,
    deliver cfg w chat_id (JArr posts) h
    = (match snd (item_messages (firstn 5 posts)) with
       | None => Return (success_body, 200%Z)
       | Some e => Raise e
       end, evs)
    /\ outbound evs = map (notification cfg chat_id) (fst (item_messages (firstn 5 posts))).
Proof.
  unfold deliver. cbn [py_slice_to]. rewrite bind_lift_Return.
  cbn [py_iter]. rewrite bind_lift_Return.
  destruct (send_each_run chat_id (firstn 5 posts) h) as (evs & Hrun & Hout).
  destruct (snd (item_messages (firstn 5 posts))) as [e |].
  - rewrite (bind_Raise _ _ _ _ _ Hrun). eauto.
  - rewrite (bind_Return _ _ _ _ _ Hrun). cbn.
    eexists. split; [reflexivity |]. rewrite app_nil_r. exact Hout.
Qed.

(** The top-level catch turns a return into itself and an exception into
    one error notification and a 500. *)
Lemma caught_run (chat_id : json) (m : M (json * Z)) (h : list event) r evs :
  m h = (r, evs) ->
  (forall e, r = Raise e -> print_failure e = None) ->
  exists evs',
    try_except m is_Exception (on_error cfg w (Some chat_id)) h
    = (match r with
       | Return a => Return a
       | Raise e => Return (error_body (exn_str e), 500%Z)
       end, evs')
    /\ outbound evs'
       = outbound evs ++ match r with
                         | Return _ => []
                         | Raise e => [notification cfg chat_id (error_text e)]
                         end.
Proof.
  intros Hm Hprint. destruct r as [a | e].
  - rewrite (try_Return _ _ _ _ _ _ Hm). exists evs. split; [reflexivity |].
    now rewrite app_nil_r.
  - rewrite (try_caught _ _ _ _ _ _ Hm eq_refl).
    destruct (on_error_resolved chat_id e (h ++ evs) (Hprint e eq_refl))
      as (evs1 & Hrun & Hout).
    rewrite Hrun. cbn [fst snd]. eexists. split; [reflexivity |].
    now rewrite outbound_app, Hout.
Qed.

Lemma answer_keyword (chat_id message : json) (keyword : string) (h : list event) :
  keyword_of message = Return keyword -> keyword <> EmptyString ->
  answer cfg w chat_id message h = search_and_reply cfg w chat_id keyword h.
Proof.
  intros Hkw Hne. unfold answer. rewrite Hkw, bind_lift_Return.
  destruct (String.eqb_spec keyword EmptyString); [contradiction | reflexivity].
Qed.

(** Header, then delivery, once a non-empty list of posts is settled on. *)
Lemma announce_run (chat_id : json) (header : nat -> string) (posts : list json)
      (h : list event) :
  exists evs,
    bind (lift (py_len (JArr posts)))
         (fun n => bind (send_to_telegram cfg w chat_id (header n))
                        (fun _ => deliver cfg w chat_id (JArr posts))) h
    = (match snd (item_messages (firstn 5 posts)) with
       | None => Return (success_body, 200%Z)
       | Some e => Raise e
       end, evs)
    /\ outbound evs
       = notification cfg chat_id (header (length posts))
           :: map (notification cfg chat_id) (fst (item_messages (firstn 5 posts))).
Proof.
  cbn [py_len]. rewrite bind_lift_Return.
  destruct (send_run cfg w chat_id (header (length posts)) h) as (b & log & Hsend & Hlog).
  rewrite (bind_Return _ _ _ _ _ Hsend).
  destruct (deliver_run chat_id posts
              (h ++ notification cfg chat_id (header (length posts)) :: log))
    as (evs & Hrun & Hout).
  rewrite Hrun. cbn [fst snd]. eexists. split; [reflexivity |].
  change (notification cfg chat_id (header (length posts)) :: log)
    with ([notification cfg chat_id (header (length posts))] ++ log).
  rewrite !outbound_app, Hlog, Hout. reflexivity.
Qed.

(** What [find_posts] returning means for the two searches. *)
Lemma find_posts_inv (keyword : string) (h : list event) exact posts evs :
  find_posts cfg w keyword h = (Return (exact, posts), evs) ->
  (exact = true /\ truthy posts = true
   /\ search_blogger_posts cfg w keyword true h = (Return posts, evs))
  \/ (exact = false
      /\ exists first e1 e2,
          search_blogger_posts cfg w keyword true h = (Return first, e1)
          /\ truthy first = false
          /\ search_blogger_posts cfg w keyword false (h ++ e1) = (Return posts, e2)
          /\ evs = e1 ++ e2).
Proof.
  unfold find_posts. unfold bind at 1.
  destruct (search_blogger_posts cfg w keyword true h) as [[first | e] e1] eqn:Hfirst;
    [| discriminate].
  destruct (truthy first) eqn:Htruthy; cbn [negb].
  - cbn. intros Heq. injection Heq as <- <- <-. left. rewrite app_nil_r. auto.
  - unfold bind.
    destruct (search_blogger_posts cfg w keyword false (h ++ e1)) as [[second | e] e2]
      eqn:Hsecond; cbn.
    + intros Heq. injection Heq as <- <- <-. right. split; [reflexivity |].
      exists first, e1, e2. rewrite app_nil_r. auto.
    + discriminate.
Qed.

Lemma search_result_outbound (keyword : string) (exact_match : bool) (h : list event) r evs :
  search_blogger_posts cfg w keyword exact_match h = (r, evs) -> outbound evs = [].
Proof.
  intros Hrun. pose proof (search_outbound cfg w keyword exact_match h) as Hout.
  rewrite Hrun in Hout. exact Hout.
Qed.

Lemma truthy_JArr (posts : list json) : posts <> [] -> truthy (JArr posts) = true.
Proof. destruct posts; [contradiction | reflexivity]. Qed.

(** Lines 77-95 when the search settles on a non-empty list of posts. *)
Lemma reply_found (chat_id : json) (keyword : string) (h : list event)
      (exact : bool) (posts : list json) evs0 :
  find_posts cfg w keyword h = (Return (exact, JArr posts), evs0) ->
  posts <> [] ->
  exists evs,
    search_and_reply cfg w chat_id keyword h
    = (match snd (item_messages (firstn 5 posts)) with
       | None => Return (success_body, 200%Z)
       | Some e => Raise e
       end, evs)
    /\ outbound evs
       = notification cfg chat_id (count_header exact (length posts))
           :: map (notification cfg chat_id) (fst (item_messages (firstn 5 posts))).
Proof.
  intros Hfind Hne. pose proof (truthy_JArr posts Hne) as Htruthy.
  apply find_posts_inv in Hfind.
  destruct Hfind as [(-> & _ & Hexact) | (-> & first & e1 & e2 & Hfirst & Hfalsy & Hfuzzy & ->)].
  - unfold search_and_reply. rewrite (bind_Return _ _ _ _ _ Hexact).
    rewrite Htruthy. cbn [negb].
    destruct (announce_run chat_id exact_header posts (h ++ evs0)) as (evs & Hrun & Hout).
    rewrite Hrun. cbn [fst snd]. eexists. split; [reflexivity |].
    rewrite outbound_app, (search_result_outbound _ _ _ _ _ Hexact), Hout. reflexivity.
  - unfold search_and_reply. rewrite (bind_Return _ _ _ _ _ Hfirst).
    rewrite Hfalsy. cbn [negb].
    unfold fallback. rewrite (bind_Return _ _ _ _ _ Hfuzzy).
    rewrite Htruthy.
    destruct (announce_run chat_id related_header posts ((h ++ e1) ++ e2))
      as (evs & Hrun & Hout).
    rewrite Hrun. cbn [fst snd]. eexists. split; [reflexivity |].
    rewrite !outbound_app, (search_result_outbound _ _ _ _ _ Hfirst),
      (search_result_outbound _ _ _ _ _ Hfuzzy), Hout. reflexivity.
Qed.

(** The whole handler on an update that names a chat and a keyword, when
    the search settles on a non-empty list of posts. *)
Lemma handler_found (req : request) (chat_id message : json) (keyword : string)
      (h : list event) (exact : bool) (posts : list json) evs0 :
  resolve_chat req = Return (Some (chat_id, message)) ->
  keyword_of message = Return keyword ->
  keyword <> EmptyString ->
  find_posts cfg w keyword h = (Return (exact, JArr posts), evs0) ->
  posts <> [] ->
  exists evs,
    webhook_handler cfg w req h
    = (match snd (item_messages (firstn 5 posts)) with
       | None => Return (success_body, 200%Z)
       | Some e => Return (error_body (exn_str e), 500%Z)
       end, evs)
    /\ outbound evs
       = notification cfg chat_id (count_header exact (length posts))
           :: map (notification cfg chat_id) (fst (item_messages (firstn 5 posts)))
           ++ match snd (item_messages (firstn 5 posts)) with
              | None => []
              | Some e => [notification cfg chat_id (error_text e)]
              end.
Proof.
  intros Hchat Hkw Hne Hfind Hposts.
  destruct (reply_found chat_id keyword h exact posts evs0 Hfind Hposts)
    as (evs1 & Hrun & Hout).
  rewrite <- (answer_keyword chat_id message keyword h Hkw Hne) in Hrun.
  assert (Hplain : forall e,
             match snd (item_messages (firstn 5 posts)) with
             | None => Return (success_body, 200%Z)
             | Some e' => Raise e'
             end = Raise e -> print_failure e = None).
  { intros e. destruct (snd (item_messages (firstn 5 posts))) as [e' |] eqn:Hstop;
      [| discriminate].
    intros Heq. injection Heq as <-.
    apply plain_prints. eapply item_messages_plain. exact Hstop. }
  destruct (caught_run chat_id _ h _ _ Hrun Hplain) as (evs & Hcatch & Hout').
  unfold webhook_handler. rewrite Hchat. rewrite Hcatch.
  exists evs. split.
  - destruct (snd (item_messages (firstn 5 posts))); reflexivity.
  - rewrite Hout', Hout. destruct (snd (item_messages (firstn 5 posts))); reflexivity.
Qed.

(** *** The item texts *)

Lemma item_message_inv (post : json) (text : string) :
  item_message post = Return text ->
  exists title url,
    py_getitem post "title" = Return title
    /\ py_getitem post "url" = Return url
    /\ text = item_text title url.
Proof.
  unfold item_message, rbind.
  destruct (py_getitem post "title") as [title | e]; [| discriminate].
  destruct (py_getitem post "url") as [url | e]; [| discriminate].
  intros Heq. injection Heq as <-. eauto.
Qed.

(** The texts sent are those of the first [k] posts, in order, for the
    [k] at which the loop ends or stops. *)
Lemma item_messages_prefix (posts : list json) :
  Forall2 (fun post text => item_message post = Return text)
          (firstn (length (fst (item_messages posts))) posts)
          (fst (item_messages posts)).
Proof.
  induction posts as [| post rest IH]; cbn [item_messages].
  - constructor.
  - destruct (item_message post) as [text | e] eqn:Htext.
    + destruct (item_messages rest) as [texts stop]. cbn [fst length firstn] in *.
      constructor; assumption.
    + constructor.
Qed.

Lemma item_messages_length (posts : list json) :
  length (fst (item_messages posts)) <= length posts.
Proof.
  induction posts as [| post rest IH]; cbn [item_messages]; [reflexivity |].
  destruct (item_message post) as [text | e].
  - destruct (item_messages rest) as [texts stop]. cbn [fst length] in *. lia.
  - cbn. lia.
Qed.

Lemma item_messages_complete (posts : list json) :
  (forall post, In post posts -> exists text, item_message post = Return text) ->
  length (fst (item_messages posts)) = length posts
  /\ snd (item_messages posts) = None.
Proof.
  induction posts as [| post rest IH]; intros Hall; cbn [item_messages].
  - split; reflexivity.
  - destruct (Hall post (or_introl eq_refl)) as [text Htext]. rewrite Htext.
    destruct IH as [Hlen Hstop]; [intros p Hp; apply Hall; right; exact Hp |].
    destruct (item_messages rest) as [texts stop]. cbn [fst snd length] in *.
    split; [now rewrite Hlen | exact Hstop].
Qed.

Lemma firstn_firstn_le {A} (k n : nat) (l : list A) :
  k <= n -> firstn k (firstn n l) = firstn k l.
Proof. intros Hle. rewrite firstn_firstn. f_equal. lia. Qed.

(** *** Delivery *)

Lemma item_message_fields (post : json) (text : string) :
  item_message post = Return text ->
  exists fields title url,
    post = JObj fields
    /\ assoc_get "title" fields = Some title
    /\ assoc_get "url" fields = Some url
    /\ text = ("📖 *" ++ match title with JStr s => s | _ => py_repr title end
                 ++ "*" ++ String "010" EmptyString
                 ++ match url with JStr s => s | _ => py_repr url end)%string.
Proof.
  unfold item_message, rbind, py_getitem.
  destruct post as [| b | n | s | items | fields]; try discriminate.
  destruct (assoc_get "title" fields) as [title |] eqn:Htitle; [| discriminate].
  destruct (assoc_get "url" fields) as [url |] eqn:Hurl; [| discriminate].
  intros Heq. injection Heq as <-. exists fields, title, url.
  split; [reflexivity | split; [exact Htitle | split; [exact Hurl | reflexivity]]].
Qed.

(** C5: when the search settles on a list of posts, the handler's outbound
    calls are send-message calls to the chat of the update: first the count
    header, then the item messages, then nothing or one error text.  The item
    messages are at most 5, however many posts there are, and they are the
    texts of the first [k] posts of the search output in the order of that
    output, each the book sign, the title between asterisks, a line break
    and the url.  The error text follows only when one of the first five
    posts has no title or no url; with well-formed posts exactly min(5, N)
    items are sent and nothing else. *)
Theorem delivery_capped_and_ordered
        (req : request) (chat_id message : json) (keyword : string) (h : list event)
        (exact : bool) (posts : list json) (evs0 : list event) :
  resolve_chat req = Return (Some (chat_id, message)) ->
  keyword_of message = Return keyword ->
  keyword <> EmptyString ->
  find_posts cfg w keyword h = (Return (exact, JArr posts), evs0) ->
  posts <> [] ->
  let sent := fun text : string =>
    EvPost ("https://api.telegram.org/bot"
              ++ match TELEGRAM_TOKEN cfg with Some token => token | None => "None" end
              ++ "/sendMessage")
           (JObj [("chat_id", chat_id); ("text", JStr text);
                  ("parse_mode", JStr "Markdown");
                  ("disable_web_page_preview", JBool true)]) in
  let shown := fun v : json => match v with JStr s => s | _ => py_repr v end in
  let count := NilZero.string_of_uint (Nat.to_uint (length posts)) in
  let header := if exact
                then ("🔍 Found " ++ count ++ " exact matches:")%string
                else ("🎯 Found " ++ count ++ " related matches:")%string in
  exists texts tail,
    outbound (snd (webhook_handler cfg w req h)) = sent header :: map sent texts ++ tail
    /\ length texts <= 5
    /\ Forall2 (fun post text =>
                  exists fields title url,
                    post = JObj fields
                    /\ assoc_get "title" fields = Some title
                    /\ assoc_get "url" fields = Some url
                    /\ text = ("📖 *" ++ shown title ++ "*" ++ String "010" EmptyString
                                 ++ shown url)%string)
               (firstn (length texts) posts) texts
    /\ (tail = [] \/ exists e, tail = [sent ("⚠️ Error: " ++ exn_str e)%string])
    /\ ((forall post, In post (firstn 5 posts) ->
                      exists fields title url,
                        post = JObj fields
                        /\ assoc_get "title" fields = Some title
                        /\ assoc_get "url" fields = Some url) ->
        tail = [] /\ length texts = Nat.min 5 (length posts)).
Proof.
  intros Hchat Hkw Hne Hfind Hposts sent shown count header.
  destruct (handler_found req chat_id message keyword h exact posts evs0
              Hchat Hkw Hne Hfind Hposts) as (evs & Hrun & Hout).
  rewrite Hrun. cbn [snd].
  exists (fst (item_messages (firstn 5 posts))).
  exists (match snd (item_messages (firstn 5 posts)) with
          | None => []
          | Some e => [sent ("⚠️ Error: " ++ exn_str e)%string]
          end).
  split.
  { rewrite Hout. unfold count_header, exact_header, related_header.
    destruct exact; destruct (snd (item_messages (firstn 5 posts))); reflexivity. }
  assert (Hlen : length (fst (item_messages (firstn 5 posts))) <= 5).
  { etransitivity; [apply item_messages_length |]. apply firstn_le_length. }
  split; [exact Hlen |]. split; [| split].
  - rewrite <- (firstn_firstn_le _ 5 posts Hlen).
    eapply Forall2_impl; [| apply item_messages_prefix].
    intros post text. apply item_message_fields.
  - destruct (snd (item_messages (firstn 5 posts))) as [e |]; [right; eauto | left; reflexivity].
  - intros Hall.
    assert (Hall' : forall post, In post (firstn 5 posts) ->
                                 exists text, item_message post = Return text).
    { intros post Hin. destruct (Hall post Hin) as (fields & title & url & -> & Ht & Hu).
      unfold item_message. cbn [py_getitem]. rewrite Ht, Hu. cbn [rbind]. eauto. }
    destruct (item_messages_complete _ Hall') as [Hlen' Hstop].
    rewrite Hstop, Hlen', length_firstn. split; reflexivity.
Qed.


(** *** No matches *)

(** C7: when the exact search returns nothing (an empty or otherwise false
    value) and the fuzzy search then returns nothing either, the handler
    makes one outbound call, the send-message call that carries the
    no-matches text to the chat of the update, and answers 200 with a
    success status. *)
Theorem no_matches_one_notification
        (req : request) (chat_id message : json) (keyword : string) (h : list event)
        (first second : json) (e1 e2 : list event) :
  resolve_chat req = Return (Some (chat_id, message)) ->
  keyword_of message = Return keyword ->
  keyword <> EmptyString ->
  search_blogger_posts cfg w keyword true h = (Return first, e1) ->
  truthy first = false ->
  search_blogger_posts cfg w keyword false (h ++ e1) = (Return second, e2) ->
  truthy second = false ->
  exists evs,
    webhook_handler cfg w req h = (Return (JObj [("status", JStr "success")], 200%Z), evs)
    /\ outbound evs
       = [EvPost ("https://api.telegram.org/bot"
                    ++ match TELEGRAM_TOKEN cfg with Some token => token | None => "None" end
                    ++ "/sendMessage")
                 (JObj [("chat_id", chat_id);
                        ("text", JStr "❌ No matches found. Try different keywords.");
                        ("parse_mode", JStr "Markdown");
                        ("disable_web_page_preview", JBool true)])].
Proof.
  intros Hchat Hkw Hne Hfirst Hf1 Hsecond Hf2.
  assert (Hrun : exists evs,
             answer cfg w chat_id message h = (Return (success_body, 200%Z), evs)
             /\ outbound evs = [notification cfg chat_id no_matches_text]).
  { rewrite (answer_keyword chat_id message keyword h Hkw Hne).
    unfold search_and_reply. rewrite (bind_Return _ _ _ _ _ Hfirst).
    rewrite Hf1. cbn [negb].
    unfold fallback. rewrite (bind_Return _ _ _ _ _ Hsecond). rewrite Hf2.
    destruct (send_run cfg w chat_id no_matches_text ((h ++ e1) ++ e2))
      as (b & log & Hsend & Hlog).
    rewrite (bind_Return _ _ _ _ _ Hsend). cbn.
    eexists. split; [reflexivity |].
    rewrite !outbound_app, (search_result_outbound _ _ _ _ _ Hfirst),
      (search_result_outbound _ _ _ _ _ Hsecond).
    cbn. rewrite outbound_app, Hlog. reflexivity. }
  destruct Hrun as (evs & Hrun & Hout).
  assert (Hplain : forall e, @Return (json * Z) (success_body, 200%Z) = Raise e ->
                             print_failure e = None) by discriminate.
  destruct (caught_run chat_id _ h _ _ Hrun Hplain) as (evs' & Hcatch & Hout').
  unfold webhook_handler. rewrite Hchat, Hcatch.
  exists evs'. split; [reflexivity |]. rewrite Hout', Hout. reflexivity.
Qed.

End Handler.

(** The label query for python finds seven posts: the header says 7 and
    the first five follow, each with its title and url. *)
Lemma delivery_capped_and_ordered_witness :
  let sent := fun text : string =>
    EvPost "https://api.telegram.org/bottok/sendMessage"
           (JObj [("chat_id", JNum 7); ("text", JStr text);
                  ("parse_mode", JStr "Markdown");
                  ("disable_web_page_preview", JBool true)]) in
  outbound (snd (@webhook_handler ascii_lib Demo.cfg Demo.big_blog
                   (Demo.update 7 " Python ") []))
  = [sent "🔍 Found 7 exact matches:";
     sent ("📖 *Intro to Python*" ++ String "010" "https://b.example/1")%string;
     sent ("📖 *Python tricks*" ++ String "010" "https://b.example/2")%string;
     sent ("📖 *Pythons as pets*" ++ String "010" "https://b.example/1")%string;
     sent ("📖 *Rust*" ++ String "010" "https://b.example/4")%string;
     sent ("📖 *Go*" ++ String "010" "https://b.example/5")%string]
  /\ exists texts tail,
      outbound (snd (@webhook_handler ascii_lib Demo.cfg Demo.big_blog
                       (Demo.update 7 " Python ") []))
      = sent "🔍 Found 7 exact matches:" :: map sent texts ++ tail
      /\ length texts <= 5.
Proof.
  intros sent. split; [reflexivity |].
  destruct (@delivery_capped_and_ordered ascii_lib Demo.cfg Demo.big_blog
              (Demo.update 7 " Python ") (JNum 7) (Demo.message 7 " Python ") "python" []
              true [Demo.p1; Demo.p2; Demo.p3; Demo.p4; Demo.p5; Demo.p6; Demo.p7]
              [EvGet (exact_url Demo.cfg "python")])
    as (texts & tail & Hout & Hlen & _).
  - reflexivity.
  - reflexivity.
  - discriminate.
  - reflexivity.
  - discriminate.
  - exists texts, tail. split; [exact Hout | exact Hlen].
Defined.



Lemma no_matches_one_notification_witness :
  exists evs,
    @webhook_handler ascii_lib Demo.cfg Demo.quiet_blog (Demo.update 7 "Haskell") []
    = (Return (JObj [("status", JStr "success")], 200%Z), evs)
    /\ outbound evs
       = [EvPost "https://api.telegram.org/bottok/sendMessage"
                 (JObj [("chat_id", JNum 7);
                        ("text", JStr "❌ No matches found. Try different keywords.");
                        ("parse_mode", JStr "Markdown");
                        ("disable_web_page_preview", JBool true)])].
Proof.
  apply (@no_matches_one_notification ascii_lib Demo.cfg Demo.quiet_blog
           (Demo.update 7 "Haskell") (JNum 7) (Demo.message 7 "Haskell") "haskell" []
           (JArr []) (JArr [])
           [EvGet (exact_url Demo.cfg "haskell")] [EvGet (all_posts_url Demo.cfg)]).
  - reflexivity.
  - reflexivity.
  - discriminate.
  - reflexivity.
  - reflexivity.
  - reflexivity.
  - reflexivity.
Defined.

(** ** Failures of the content API *)

Section ContentFailures.
Context {L : PyLib}.
Variable cfg : Config.
Variable w : World.

Lemma on_error_resolved_events (chat_id : json) (e : exn) (h : list event) :
  print_failure e = None ->
  exists log,
    on_error cfg w (Some chat_id) e h
    = (Return (error_body (exn_str e), 500%Z),
       [EvPrint (error_text e); notification cfg chat_id (error_text e)] ++ log)
    /\ outbound log = [].
Proof.
  intros Hprint. unfold on_error, print_error. rewrite Hprint. unfold py_print.
  destruct (send_run cfg w chat_id (error_text e) (h ++ [EvPrint (error_text e)]))
    as (b & log & Hsend & Hlog).
  unfold bind at 1. cbn.
  unfold bind at 1.
  erewrite (bind_Return _ _ _ _ _ Hsend). cbn.
  exists log. split; [| exact Hlog].
  rewrite !app_nil_r. reflexivity.
Qed.

(** When the print of line 99 fails, the except clause ends there. *)
Lemma on_error_print_fails (chat_id : option json) (e : exn) (failure : string)
      (h : list event) :
  print_failure e = Some failure ->
  on_error cfg w chat_id e h = (Raise (UnicodeEncodeError failure), []).
Proof.
  intros Hprint. unfold on_error, print_error. rewrite Hprint. reflexivity.
Qed.

Lemma exact_items_error (fields err : list (string * json)) :
  assoc_get "error" fields = Some (JObj err) ->
  exact_items (JObj fields)
  = Raise (ValueError match assoc_get "message" err with
                      | Some m => m
                      | None => JStr "Blogger API Error"
                      end).
Proof.
  intros Herr. unfold exact_items. cbn [py_in rbind]. rewrite Herr.
  cbn [py_getitem rbind]. rewrite Herr. cbn [py_get rbind].
  destruct (assoc_get "message" err); reflexivity.
Qed.

(** C1, as the code has it: an answer to the exact query that is a JSON
    object with an "error" member (itself an object) makes the search raise
    ValueError with the error's message, or "Blogger API Error" when it has
    none.  The search neither catches nor logs it, whatever the HTTP status.
    In the handler the exception reaches the catch-all.  When the error text
    can be printed, the catch-all prints it, sends it to the chat of the
    update as the only notification, and answers 500 with an error status.
    When the message is a str that standard output cannot encode, the print
    raises UnicodeEncodeError inside the except clause: nothing is printed
    or sent and the exception leaves the handler. *)
Theorem error_payload_raises
        (keyword : string) (h : list event) (r : response)
        (fields err : list (string * json)) :
  http_get w h (exact_url cfg keyword) = NetResponse r ->
  body r = inr (JObj fields) ->
  assoc_get "error" fields = Some (JObj err) ->
  let msg := match assoc_get "message" err with
             | Some m => m
             | None => JStr "Blogger API Error"
             end in
  let text := ("⚠️ Error: " ++ match msg with JStr s => s | _ => py_repr msg end)%string in
  let printed := match msg with
                 | JStr _ => stdout_error text
                 | _ => None
                 end in
  search_blogger_posts cfg w keyword true h
  = (Raise (ValueError msg), [EvGet (exact_url cfg keyword)])
  /\ forall (req : request) (chat_id message : json),
      resolve_chat req = Return (Some (chat_id, message)) ->
      keyword_of message = Return keyword ->
      keyword <> EmptyString ->
      (printed = None ->
       exists log,
         webhook_handler cfg w req h
         = (Return (JObj [("status", JStr "error");
                          ("message", JStr match msg with
                                           | JStr s => s
                                           | _ => py_repr msg
                                           end)],
                    500%Z),
            [EvGet (exact_url cfg keyword);
             EvPrint text;
             EvPost ("https://api.telegram.org/bot"
                       ++ match TELEGRAM_TOKEN cfg with
                          | Some token => token
                          | None => "None"
                          end
                       ++ "/sendMessage")
                    (JObj [("chat_id", chat_id); ("text", JStr text);
                           ("parse_mode", JStr "Markdown");
                           ("disable_web_page_preview", JBool true)])] ++ log)
         /\ outbound log = [])
      /\ (forall failure,
            printed = Some failure ->
            webhook_handler cfg w req h
            = (Raise (UnicodeEncodeError failure), [EvGet (exact_url cfg keyword)])).
Proof.
  intros Hget Hbody Herr msg text printed.
  assert (Hsearch : search_blogger_posts cfg w keyword true h
                    = (Raise (ValueError msg), [EvGet (exact_url cfg keyword)])).
  { rewrite search_run. cbv zeta. unfold search_url, search_items.
    rewrite Hget, Hbody, (exact_items_error fields err Herr). reflexivity. }
  split; [exact Hsearch |].
  intros req chat_id message Hchat Hkw Hne.
  unfold webhook_handler. rewrite Hchat.
  assert (Hanswer : answer cfg w chat_id message h
                    = (Raise (ValueError msg), [EvGet (exact_url cfg keyword)])).
  { rewrite (answer_keyword cfg w chat_id message keyword h Hkw Hne).
    unfold search_and_reply. apply bind_Raise. exact Hsearch. }
  rewrite (try_caught _ _ _ _ _ _ Hanswer eq_refl).
  assert (Hprinted : print_failure (ValueError msg) = printed).
  { unfold print_failure, remote_text, printed, text. destruct msg; reflexivity. }
  split.
  - intros Hnone. rewrite <- Hprinted in Hnone.
    destruct (on_error_resolved_events chat_id (ValueError msg)
                (h ++ [EvGet (exact_url cfg keyword)]) Hnone) as (log & Hrun & Hlog).
    rewrite Hrun. cbn [fst snd]. exists log. split; [reflexivity | exact Hlog].
  - intros failure Hsome. rewrite <- Hprinted in Hsome.
    rewrite (on_error_print_fails (Some chat_id) (ValueError msg) failure _ Hsome).
    reflexivity.
Qed.

(** The fallback opens with the query for the whole collection. *)
Lemma fallback_starts (chat_id : json) (keyword : string) (h : list event) :
  exists rest, snd (fallback cfg w chat_id keyword h) = EvGet (all_posts_url cfg) :: rest.
Proof.
  unfold fallback, bind at 1.
  destruct (search_events cfg w keyword false h) as (log & Hevs & _).
  destruct (search_blogger_posts cfg w keyword false h) as [[posts | e] evs];
    cbn [snd] in *; subst evs.
  - match goal with |- context [let (_, _) := ?k in _] => destruct k as [r evs'] end.
    cbn. eauto.
  - cbn. eauto.
Qed.

(** C2: a transport failure of the content query, a timeout for one, makes
    either search print the failure and return the empty list.  When that
    happens to the exact search, the handler goes on as for no exact match:
    its next step is the query of the fuzzy search. *)
Theorem transport_failure_degrades :
  (forall (keyword : string) (exact_match : bool) (h : list event) (msg : string),
      http_get w h (search_url cfg keyword exact_match) = NetError msg ->
      search_blogger_posts cfg w keyword exact_match h
      = (Return (JArr []),
         [EvGet (search_url cfg keyword exact_match);
          EvPrint ("Blogger API Request Failed: " ++ msg)]))
  /\ (forall (req : request) (chat_id message : json) (keyword : string)
            (h : list event) (msg : string),
        resolve_chat req = Return (Some (chat_id, message)) ->
        keyword_of message = Return keyword ->
        keyword <> EmptyString ->
        http_get w h (exact_url cfg keyword) = NetError msg ->
        exists rest,
          snd (webhook_handler cfg w req h)
          = EvGet (exact_url cfg keyword)
              :: EvPrint ("Blogger API Request Failed: " ++ msg)
              :: EvGet (all_posts_url cfg)
              :: rest).
Proof.
  assert (Hsearch : forall keyword exact_match h msg,
             http_get w h (search_url cfg keyword exact_match) = NetError msg ->
             search_blogger_posts cfg w keyword exact_match h
             = (Return (JArr []),
                [EvGet (search_url cfg keyword exact_match);
                 EvPrint ("Blogger API Request Failed: " ++ msg)])).
  { intros keyword exact_match h msg Hget.
    rewrite search_run. cbv zeta. rewrite Hget. reflexivity. }
  split; [exact Hsearch |].
  intros req chat_id message keyword h msg Hchat Hkw Hne Hget.
  specialize (Hsearch keyword true h msg Hget). cbn [search_url] in Hsearch.
  unfold webhook_handler. rewrite Hchat.
  unfold try_except.
  rewrite (answer_keyword cfg w chat_id message keyword h Hkw Hne).
  unfold search_and_reply. rewrite (bind_Return _ _ _ _ _ Hsearch).
  cbn [truthy negb].
  destruct (fallback_starts chat_id keyword
              (h ++ [EvGet (exact_url cfg keyword);
                     EvPrint ("Blogger API Request Failed: " ++ msg)]))
    as (rest & Hrest).
  destruct (fallback cfg w chat_id keyword _) as [[resp | e] evs];
    cbn [fst snd] in *; subst evs.
  - cbn. eauto.
  - cbn [is_Exception].
    match goal with |- context [let (_, _) := ?k in _] => destruct k as [r evs'] end.
    cbn. eauto.
Qed.

End ContentFailures.

(** The content API answers 200 with an error object: the search raises,
    it does not return the empty list, and it prints nothing. *)
Lemma error_payload_counterexample :
  http_get Demo.refusing_blog [] (exact_url Demo.cfg "python")
  = Demo.answer_with 200
      (JObj [("error", JObj [("code", JNum 403); ("message", JStr "API key not valid")])])
  /\ @search_blogger_posts ascii_lib Demo.cfg Demo.refusing_blog "python" true []
     = (Raise (ValueError (JStr "API key not valid")),
        [EvGet (exact_url Demo.cfg "python")])
  /\ fst (@search_blogger_posts ascii_lib Demo.cfg Demo.refusing_blog "python" true [])
     <> Return (JArr [])
  /\ logged (snd (@search_blogger_posts ascii_lib Demo.cfg Demo.refusing_blog
                    "python" true [])) = []
  /\ fst (@webhook_handler ascii_lib Demo.cfg Demo.refusing_blog
            (Demo.update 7 "python") [])
     = Return (error_body "API key not valid", 500%Z).
Proof.
  split; [reflexivity |]. split; [reflexivity |].
  split; [discriminate |]. split; reflexivity.
Qed.

(** A message that can be printed is printed and sent; one that holds a
    lone surrogate makes the print raise, and nothing is sent. *)
Lemma error_payload_raises_witness :
  (exists log,
     @webhook_handler ascii_lib Demo.cfg Demo.refusing_blog (Demo.update 7 "python") []
     = (Return (JObj [("status", JStr "error"); ("message", JStr "API key not valid")],
                500%Z),
        [EvGet (exact_url Demo.cfg "python");
         EvPrint "⚠️ Error: API key not valid";
         EvPost "https://api.telegram.org/bottok/sendMessage"
                (JObj [("chat_id", JNum 7);
                       ("text", JStr "⚠️ Error: API key not valid");
                       ("parse_mode", JStr "Markdown");
                       ("disable_web_page_preview", JBool true)])] ++ log)
     /\ outbound log = [])
  /\ @webhook_handler ascii_lib Demo.cfg Demo.garbled_blog (Demo.update 7 "python") []
     = (Raise (UnicodeEncodeError
                 "'utf-8' codec can't encode character: surrogates not allowed"),
        [EvGet (exact_url Demo.cfg "python")]).
Proof.
  split.
  - refine (proj1 (proj2 (@error_payload_raises ascii_lib Demo.cfg Demo.refusing_blog
                            "python" [] _ _
                            [("code", JNum 403); ("message", JStr "API key not valid")]
                            eq_refl eq_refl eq_refl)
                         (Demo.update 7 "python") (JNum 7) (Demo.message 7 "python")
                         eq_refl eq_refl _) eq_refl).
    discriminate.
  - refine (proj2 (proj2 (@error_payload_raises ascii_lib Demo.cfg Demo.garbled_blog
                            "python" [] _ _
                            [("message", JStr Demo.lone_surrogate)]
                            eq_refl eq_refl eq_refl)
                         (Demo.update 7 "python") (JNum 7) (Demo.message 7 "python")
                         eq_refl eq_refl _) _ eq_refl).
    discriminate.
Defined.

(** The exact query times out; the listing is queried next. *)
Lemma transport_failure_degrades_witness :
  exists rest,
    snd (@webhook_handler ascii_lib Demo.cfg Demo.slow_blog (Demo.update 7 "python") [])
    = EvGet (exact_url Demo.cfg "python")
        :: EvPrint "Blogger API Request Failed: Read timed out."
        :: EvGet (all_posts_url Demo.cfg)
        :: rest.
Proof.
  refine (proj2 (@transport_failure_degrades ascii_lib Demo.cfg Demo.slow_blog)
                (Demo.update 7 "python") (JNum 7) (Demo.message 7 "python") "python" []
                "Read timed out." eq_refl eq_refl _ eq_refl).
  discriminate.
Defined.

(** ** Updates without a chat *)

Section NoChat.
Context {L : PyLib}.
Variable cfg : Config.
Variable w : World.

Lemma py_get_message (fields : list (string * json)) :
  py_get (JObj fields) "message" (JObj fields) = Return (message_of fields).
Proof. unfold py_get, message_of. destruct (assoc_get "message" fields); reflexivity. Qed.

(** The early return of line 68. *)
Lemma early_return (fields : list (string * json)) (h : list event) :
  truthy (message_of fields) = false \/ py_in "chat" (message_of fields) = Return false ->
  webhook_handler cfg w (Payload (JObj fields)) h
  = (Return (error_body "Invalid message format", 400%Z), []).
Proof.
  intros Hno. unfold webhook_handler, resolve_chat.
  cbn [request_get_json rbind]. rewrite py_get_message. cbn [rbind].
  destruct (truthy (message_of fields)) eqn:Htruthy; cbn [negb rbind]; [| reflexivity].
  destruct Hno as [Hfalsy | Hin]; [discriminate |].
  rewrite Hin. reflexivity.
Qed.

(** What lines 64-70 raise is worded by the interpreter or by Flask. *)
Lemma resolve_chat_plain (req : request) (e : exn) :
  resolve_chat req = Raise e -> remote_text e = None.
Proof.
  unfold resolve_chat, rbind.
  destruct req as [msg | update]; cbn [request_get_json].
  - intros Heq. injection Heq as <-. reflexivity.
  - destruct (py_get update "message" update) as [message | e1] eqn:Hmsg;
      [| intros Heq; injection Heq as <-; eapply py_get_plain; exact Hmsg].
    destruct (truthy message); cbn [negb]; [| discriminate].
    destruct (py_in "chat" message) as [present | e2] eqn:Hin;
      [| intros Heq; injection Heq as <-; eapply py_in_plain; exact Hin].
    destruct present; cbn [negb]; [| discriminate].
    destruct (py_getitem message "chat") as [chat | e3] eqn:Hchat;
      [| intros Heq; injection Heq as <-; eapply py_getitem_plain; exact Hchat].
    destruct (py_getitem chat "id") as [chat_id | e4] eqn:Hid; [discriminate |].
    intros Heq. injection Heq as <-. eapply py_getitem_plain. exact Hid.
Qed.

(** Whenever no chat id is settled, by the early return or by an exception
    before line 70 completes, nothing is sent. *)
Lemma unresolved_sends_nothing (req : request) (h : list event) :
  (forall chat_id message, resolve_chat req <> Return (Some (chat_id, message))) ->
  outbound (snd (webhook_handler cfg w req h)) = [].
Proof.
  intros Hno. unfold webhook_handler.
  destruct (resolve_chat req) as [[[chat_id message] |] | e] eqn:Hres.
  - exfalso. eapply Hno. reflexivity.
  - reflexivity.
  - rewrite (on_error_unresolved cfg w e h
               (plain_prints e (resolve_chat_plain req e Hres))).
    reflexivity.
Qed.

End NoChat.

(** ** Determinism in the remote content *)

Section Agreement.
Context {L : PyLib}.
Variable cfg : Config.
Variables w1 w2 : World.
Hypothesis Hcontent : same_content w1 w2.

Lemma agree_refl_pure {A} (r : result A) : agree (lift r) (lift r).
Proof. intros h1 h2. split; reflexivity. Qed.

Lemma agree_ret {A} (a : A) : agree (ret a) (ret a).
Proof. intros h1 h2. split; reflexivity. Qed.

Lemma agree_print (line : string) : agree (py_print line) (py_print line).
Proof. intros h1 h2. split; reflexivity. Qed.

Lemma agree_bind {A B} (m1 m2 : M A) (k1 k2 : A -> M B) :
  agree m1 m2 -> (forall a, agree (k1 a) (k2 a)) -> agree (bind m1 k1) (bind m2 k2).
Proof.
  intros Hm Hk h1 h2. unfold bind.
  destruct (Hm h1 h2) as [Hres Hout].
  destruct (m1 h1) as [[a1 | e1] evs1]; destruct (m2 h2) as [[a2 | e2] evs2];
    cbn [fst snd] in *; try discriminate.
  - injection Hres as <-.
    destruct (Hk a1 (h1 ++ evs1) (h2 ++ evs2)) as [Hres' Hout'].
    destruct (k1 a1 (h1 ++ evs1)) as [r1 evs1'].
    destruct (k2 a1 (h2 ++ evs2)) as [r2 evs2']. cbn [fst snd] in *.
    split; [exact Hres' |]. rewrite !outbound_app. congruence.
  - injection Hres as <-. split; [reflexivity | exact Hout].
Qed.

Lemma agree_try {A} (m1 m2 : M A) (catches : exn -> bool) (k1 k2 : exn -> M A) :
  agree m1 m2 -> (forall e, agree (k1 e) (k2 e)) ->
  agree (try_except m1 catches k1) (try_except m2 catches k2).
Proof.
  intros Hm Hk h1 h2. unfold try_except.
  destruct (Hm h1 h2) as [Hres Hout].
  destruct (m1 h1) as [[a1 | e1] evs1]; destruct (m2 h2) as [[a2 | e2] evs2];
    cbn [fst snd] in *; try discriminate.
  - split; assumption.
  - injection Hres as <-. destruct (catches e1).
    + destruct (Hk e1 (h1 ++ evs1) (h2 ++ evs2)) as [Hres' Hout'].
      destruct (k1 e1 (h1 ++ evs1)) as [r1 evs1'].
      destruct (k2 e1 (h2 ++ evs2)) as [r2 evs2']. cbn [fst snd] in *.
      split; [exact Hres' |]. rewrite !outbound_app. congruence.
    + split; [reflexivity | exact Hout].
Qed.

(** The notifier may answer differently in the two runs; what follows it
    does not look at the answer. *)
Lemma agree_send_then {B} (chat_id : json) (text : string) (k1 k2 : M B) :
  agree k1 k2 ->
  agree (bind (send_to_telegram cfg w1 chat_id text) (fun _ => k1))
        (bind (send_to_telegram cfg w2 chat_id text) (fun _ => k2)).
Proof.
  intros Hk h1 h2.
  destruct (send_run cfg w1 chat_id text h1) as (b1 & log1 & Hsend1 & Hlog1).
  destruct (send_run cfg w2 chat_id text h2) as (b2 & log2 & Hsend2 & Hlog2).
  rewrite (bind_Return _ _ _ _ _ Hsend1), (bind_Return _ _ _ _ _ Hsend2).
  cbn [fst snd].
  destruct (Hk (h1 ++ notification cfg chat_id text :: log1)
               (h2 ++ notification cfg chat_id text :: log2)) as [Hres Hout].
  split; [exact Hres |].
  rewrite !outbound_app, !outbound_notification, Hlog1, Hlog2, Hout. reflexivity.
Qed.

Lemma agree_search (keyword : string) (exact_match : bool) :
  agree (search_blogger_posts cfg w1 keyword exact_match)
        (search_blogger_posts cfg w2 keyword exact_match).
Proof.
  intros h1 h2. rewrite !search_run. cbv zeta.
  rewrite (Hcontent h1 h2 (search_url cfg keyword exact_match)).
  destruct (http_get w2 h2 _) as [msg | r]; [split; reflexivity |].
  destruct (body r) as [msg | v]; [split; reflexivity |].
  destruct (search_items keyword exact_match v) as [posts | e]; [split; reflexivity |].
  destruct (is_RequestException e); split; reflexivity.
Qed.

Lemma agree_send_each (chat_id : json) (posts : list json) :
  agree (send_each cfg w1 chat_id posts) (send_each cfg w2 chat_id posts).
Proof.
  induction posts as [| post rest IH]; cbn [send_each].
  - apply agree_ret.
  - apply agree_bind; [apply agree_refl_pure |]. intros text.
    apply agree_send_then. exact IH.
Qed.

Lemma agree_deliver (chat_id posts : json) :
  agree (deliver cfg w1 chat_id posts) (deliver cfg w2 chat_id posts).
Proof.
  unfold deliver.
  apply agree_bind; [apply agree_refl_pure |]. intros first.
  apply agree_bind; [apply agree_refl_pure |]. intros items.
  apply agree_bind; [apply agree_send_each |]. intros _. apply agree_ret.
Qed.

Lemma agree_fallback (chat_id : json) (keyword : string) :
  agree (fallback cfg w1 chat_id keyword) (fallback cfg w2 chat_id keyword).
Proof.
  unfold fallback. apply agree_bind; [apply agree_search |]. intros posts.
  destruct (truthy posts).
  - apply agree_bind; [apply agree_refl_pure |]. intros n.
    apply agree_send_then, agree_deliver.
  - apply agree_send_then, agree_ret.
Qed.

Lemma agree_answer (chat_id message : json) :
  agree (answer cfg w1 chat_id message) (answer cfg w2 chat_id message).
Proof.
  unfold answer. apply agree_bind; [apply agree_refl_pure |]. intros keyword.
  destruct (String.eqb keyword EmptyString).
  - apply agree_send_then, agree_ret.
  - unfold search_and_reply. apply agree_bind; [apply agree_search |]. intros posts.
    destruct (negb (truthy posts)).
    + apply agree_fallback.
    + apply agree_bind; [apply agree_refl_pure |]. intros n.
      apply agree_send_then, agree_deliver.
Qed.

Lemma agree_print_error (e : exn) : agree (print_error e) (print_error e).
Proof.
  unfold print_error. destruct (print_failure e) as [failure |].
  - intros h1 h2. split; reflexivity.
  - apply agree_print.
Qed.

Lemma agree_on_error (chat_id : option json) (e : exn) :
  agree (on_error cfg w1 chat_id e) (on_error cfg w2 chat_id e).
Proof.
  unfold on_error. apply agree_bind; [apply agree_print_error |]. intros _.
  apply agree_bind; [| intros _; apply agree_ret].
  destruct chat_id as [c |]; [apply agree_send_then |]; apply agree_ret.
Qed.

Lemma agree_handler (req : request) :
  agree (webhook_handler cfg w1 req) (webhook_handler cfg w2 req).
Proof.
  unfold webhook_handler.
  destruct (resolve_chat req) as [[[chat_id message] |] | e].
  - apply agree_try; [apply agree_answer | intros e; apply agree_on_error].
  - apply agree_ret.
  - apply agree_on_error.
Qed.

End Agreement.

(** C9: two invocations on the same payload, against content queries that
    are answered the same way in both (the remote content set is unchanged),
    make the same sequence of outbound notifications and give the same
    response.  The histories before the two invocations and the behaviour of
    the messaging platform in them may differ. *)
Theorem handler_deterministic
        {L : PyLib} (cfg : Config) (w1 w2 : World) (req : request) (h1 h2 : list event) :
  same_content w1 w2 ->
  outbound (snd (webhook_handler cfg w1 req h1))
  = outbound (snd (webhook_handler cfg w2 req h2))
  /\ fst (webhook_handler cfg w1 req h1) = fst (webhook_handler cfg w2 req h2).
Proof.
  intros Hcontent.
  destruct (agree_handler cfg w1 w2 Hcontent req h1 h2) as [Hres Hout].
  split; assumption.
Qed.

(** The same blog, once with Telegram up and once with Telegram down. *)
Lemma handler_deterministic_witness :
  outbound (snd (@webhook_handler ascii_lib Demo.cfg Demo.slow_blog
                   (Demo.update 7 "python") []))
  = outbound (snd (@webhook_handler ascii_lib Demo.cfg
                     (Demo.world [(all_posts_url Demo.cfg,
                                   Demo.answer_with 200 (Demo.items [Demo.p1; Demo.p2; Demo.p4]))]
                                 Demo.telegram_ok)
                     (Demo.update 7 "python") [EvPrint "earlier"])).
Proof.
  apply (@handler_deterministic ascii_lib).
  intros h1 h2 url. reflexivity.
Defined.

(** ** Deduplication by url *)

Lemma key_eqb_refl (a : json) : hashable a = true -> key_eqb a a = true.
Proof.
  destruct a as [| b | n | s | items | fields]; cbn; intros H; try discriminate.
  - reflexivity.
  - destruct b; reflexivity.
  - apply Z.eqb_refl.
  - apply String.eqb_refl.
Qed.

Lemma key_eqb_sym (a b : json) : key_eqb a b = key_eqb b a.
Proof.
  destruct a as [| x | x | x | x | x]; destruct b as [| y | y | y | y | y]; cbn;
    try reflexivity.
  - destruct x, y; reflexivity.
  - apply Z.eqb_sym.
  - apply Z.eqb_sym.
  - apply Z.eqb_sym.
  - apply String.eqb_sym.
Qed.

Lemma key_eqb_trans (a b c : json) :
  key_eqb a b = true -> key_eqb b c = true -> key_eqb a c = true.
Proof.
  destruct a as [| x | x | x | x | x]; destruct b as [| y | y | y | y | y];
    destruct c as [| z | z | z | z | z]; cbn; try discriminate; try reflexivity;
    rewrite ?Z.eqb_eq, ?String.eqb_eq;
    try (destruct x); try (destruct y); try (destruct z); cbn;
    try discriminate; try reflexivity; try lia; congruence.
Qed.

Section Dedup.
Context {L : PyLib}.

Lemma dict_set_keys (Q : json -> Prop) (d : list (json * json)) (k v : json) :
  Forall (fun kv => Q (fst kv)) d -> Q k ->
  Forall (fun kv => Q (fst kv)) (dict_set d k v).
Proof.
  intros Hd Hk. induction d as [| [k' v'] rest IH]; cbn [dict_set].
  - constructor; [exact Hk | constructor].
  - inversion Hd as [| ? ? Hhead Hrest]; subst.
    destruct (key_eqb k' k).
    + constructor; assumption.
    + constructor; [exact Hhead | apply IH; exact Hrest].
Qed.

Lemma dict_set_distinct (d : list (json * json)) (k v : json) :
  keys_distinct d -> keys_distinct (dict_set d k v).
Proof.
  induction d as [| [k' v'] rest IH]; cbn [dict_set keys_distinct].
  - intros _. split; [constructor | exact I].
  - intros [Hhead Hrest]. destruct (key_eqb k' k) eqn:Hk; cbn [keys_distinct].
    + split; assumption.
    + split; [| apply IH; exact Hrest].
      apply (dict_set_keys (fun x => key_eqb k' x = false)); assumption.
Qed.

Lemma dict_set_filed (d : list (json * json)) (post url : json) :
  filed_by_url d ->
  hashable url = true ->
  py_getitem post "url" = Return url ->
  filed_by_url (dict_set d url post).
Proof.
  intros Hd Hhash Hurl. unfold filed_by_url in *.
  induction d as [| [k' v'] rest IH]; cbn [dict_set].
  - constructor; [| constructor]. cbn [fst snd]. split; [exact Hhash |].
    exists url. split; [exact Hurl | apply key_eqb_refl; exact Hhash].
  - inversion Hd as [| ? ? Hhead Hrest]; subst.
    destruct (key_eqb k' url) eqn:Hk.
    + constructor; [| exact Hrest]. cbn [fst snd] in *.
      split; [apply Hhead |]. exists url. split; assumption.
    + constructor; [exact Hhead | apply IH; exact Hrest].
Qed.

Lemma dict_by_url_invariant (posts : list json) :
  forall d d',
    keys_distinct d -> filed_by_url d ->
    dict_by_url d posts = Return d' ->
    keys_distinct d' /\ filed_by_url d'.
Proof.
  induction posts as [| post rest IH]; intros d d' Hdist Hfiled; cbn [dict_by_url].
  - intros Heq. injection Heq as <-. split; assumption.
  - unfold rbind. destruct (py_getitem post "url") as [url | e] eqn:Hurl; [| discriminate].
    destruct (hashable url) eqn:Hhash; [| discriminate].
    apply IH.
    + apply dict_set_distinct. exact Hdist.
    + apply dict_set_filed; assumption.
Qed.

(** In a dict with distinct keys whose values are filed under their own
    urls, no two values have the same url. *)
Lemma dict_values_distinct (d : list (json * json)) :
  keys_distinct d -> filed_by_url d ->
  Forall (fun post => exists url, py_getitem post "url" = Return url) (dict_values d)
  /\ NoDup (map (fun post => py_getitem post "url") (dict_values d)).
Proof.
  unfold filed_by_url, dict_values.
  induction d as [| [k v] rest IH]; cbn [keys_distinct map].
  - intros _ _. split; constructor.
  - intros [Hhead Hdist] Hfiled.
    inversion Hfiled as [| ? ? [Hhash (url & Hurl & Hkey)] Hrest]; subst.
    cbn [fst snd] in *.
    destruct (IH Hdist Hrest) as [Hall Hnodup].
    split.
    + constructor; [exists url; exact Hurl | exact Hall].
    + constructor; [| exact Hnodup].
      intros Hin. rewrite map_map in Hin. apply in_map_iff in Hin.
      destruct Hin as ([k2 v2] & Hsame & Hin2). cbn [snd] in Hsame.
      rewrite Forall_forall in Hhead, Hrest.
      specialize (Hhead _ Hin2). cbn [fst] in Hhead.
      destruct (Hrest _ Hin2) as [_ (url2 & Hurl2 & Hkey2)]. cbn [fst snd] in *.
      assert (url2 = url) by congruence. subst url2.
      rewrite key_eqb_sym in Hkey2.
      rewrite (key_eqb_trans _ _ _ Hkey Hkey2) in Hhead. discriminate.
Qed.

Lemma fuzzy_items_distinct (keyword : string) (response result : json) :
  fuzzy_items keyword response = Return result ->
  exists posts,
    result = JArr posts
    /\ Forall (fun post => exists url, py_getitem post "url" = Return url) posts
    /\ NoDup (map (fun post => py_getitem post "url") posts).
Proof.
  unfold fuzzy_items, rbind.
  destruct (py_get response "items" (JArr [])) as [items | e]; [| discriminate].
  destruct (py_iter items) as [all_posts | e]; [| discriminate].
  destruct (match_posts keyword all_posts) as [matched | e]; [| discriminate].
  destruct (dict_by_url [] matched) as [d | e] eqn:Hd; [| discriminate].
  intros Heq. injection Heq as <-.
  destruct (dict_by_url_invariant matched [] d I (Forall_nil _) Hd) as [Hdist Hfiled].
  exists (dict_values d). split; [reflexivity |].
  apply dict_values_distinct; assumption.
Qed.

Lemma In_firstn {A} (x : A) (n : nat) (l : list A) : In x (firstn n l) -> In x l.
Proof.
  revert n. induction l as [| y l IH]; intros [| n]; cbn; try contradiction.
  intros [-> | Hin]; [left; reflexivity | right; eapply IH; exact Hin].
Qed.

Lemma NoDup_firstn {A} (n : nat) (l : list A) : NoDup l -> NoDup (firstn n l).
Proof.
  intros Hl. revert n. induction Hl as [| x l Hx Hl IH]; intros [| n]; cbn;
    try constructor.
  - intros Hin. apply Hx. eapply In_firstn. exact Hin.
  - apply IH.
Qed.

End Dedup.

Section FuzzyResults.
Context {L : PyLib}.
Variable cfg : Config.
Variable w : World.

(** C4: whatever the fuzzy search returns is a list of posts that each
    have a url, no two of them the same one; so it is for the first five
    of them, which are the ones the handler delivers. *)
Theorem fuzzy_results_distinct_urls
        (keyword : string) (h : list event) (result : json) (evs : list event) :
  search_blogger_posts cfg w keyword false h = (Return result, evs) ->
  exists posts,
    result = JArr posts
    /\ Forall (fun post => exists url, py_getitem post "url" = Return url) posts
    /\ NoDup (map (fun post => py_getitem post "url") posts)
    /\ NoDup (map (fun post => py_getitem post "url") (firstn 5 posts)).
Proof.
  rewrite search_run. cbv zeta.
  assert (Hempty : exists posts : list json,
             JArr [] = JArr posts
             /\ Forall (fun post => exists url, py_getitem post "url" = Return url) posts
             /\ NoDup (map (fun post => py_getitem post "url") posts)
             /\ NoDup (map (fun post => py_getitem post "url") (firstn 5 posts))).
  { exists []. repeat split; constructor. }
  destruct (http_get w h _) as [msg | r].
  { intros Heq. injection Heq as <- <-. exact Hempty. }
  destruct (body r) as [msg | v].
  { intros Heq. injection Heq as <- <-. exact Hempty. }
  cbn [search_items].
  destruct (fuzzy_items keyword v) as [found | e] eqn:Hitems.
  - intros Heq. injection Heq as <- <-.
    destruct (fuzzy_items_distinct keyword v found Hitems) as (posts & -> & Hall & Hnodup).
    exists posts. repeat split; try assumption.
    rewrite <- firstn_map. apply NoDup_firstn. exact Hnodup.
  - destruct (is_RequestException e); [| discriminate].
    intros Heq. injection Heq as <- <-. exact Hempty.
Qed.

End FuzzyResults.

(** Two of the three posts about python share a url; the later one stays,
    in the place of the earlier. *)
Lemma fuzzy_results_distinct_urls_witness :
  exists posts,
    JArr [Demo.p3; Demo.p2] = JArr posts
    /\ Forall (fun post => exists url, @py_getitem post "url" = Return url) posts
    /\ NoDup (map (fun post => @py_getitem post "url") posts)
    /\ NoDup (map (fun post => @py_getitem post "url") (firstn 5 posts)).
Proof.
  apply (@fuzzy_results_distinct_urls ascii_lib Demo.cfg Demo.typo_blog "pythn"
           [EvGet (exact_url Demo.cfg "pythn")] (JArr [Demo.p3; Demo.p2])
           [EvGet (all_posts_url Demo.cfg)]).
  reflexivity.
Defined.

(** ** The fuzzy condition *)

Lemma insert_desc_not_nil (x : Q * string) (l : list (Q * string)) :
  insert_desc x l <> [].
Proof. destruct l as [| y rest]; cbn; [| destruct (score_leb y x)]; discriminate. Qed.

Lemma nlargest_one_nil (l : list (Q * string)) : nlargest 1 l = [] <-> l = [].
Proof.
  unfold nlargest. split.
  - destruct l as [| x rest]; [reflexivity |]. cbn [fold_right].
    pose proof (insert_desc_not_nil x (fold_right insert_desc [] rest)) as Hne.
    destruct (insert_desc x (fold_right insert_desc [] rest)); [contradiction |].
    discriminate.
  - intros ->. reflexivity.
Qed.

Lemma prefix_split (a b : string) :
  prefix a b = true <-> exists rest, b = (a ++ rest)%string.
Proof.
  revert b. induction a as [| c a IH]; intros b.
  - split; [intros _; exists b; reflexivity | intros _; destruct b; reflexivity].
  - destruct b as [| d b]; cbn [prefix].
    + split; [discriminate | intros [rest Hrest]; discriminate].
    + destruct (ascii_dec c d) as [-> | Hne].
      * rewrite IH. split; intros [rest Hrest]; exists rest.
        -- cbn. now rewrite Hrest.
        -- cbn in Hrest. now injection Hrest.
      * split; [discriminate |].
        intros [rest Hrest]. cbn in Hrest. injection Hrest as Hcd _. congruence.
Qed.

(** [needle in hay]: the needle occurs somewhere in the hay. *)
Lemma contains_split (needle hay : string) :
  contains needle hay = true
  <-> exists before after, hay = (before ++ needle ++ after)%string.
Proof.
  induction hay as [| c hay IH]; cbn [contains].
  - rewrite orb_false_r, prefix_split. split.
    + intros [rest Hrest]. exists EmptyString, rest. exact Hrest.
    + intros (before & after & Heq).
      destruct before as [| d before]; [exists after; exact Heq | discriminate].
  - rewrite orb_true_iff, prefix_split, IH. split.
    + intros [[rest Hrest] | (before & after & Heq)].
      * exists EmptyString, rest. exact Hrest.
      * exists (String c before), after. cbn. now rewrite Heq.
    + intros (before & after & Heq). destruct before as [| d before].
      * left. exists after. exact Heq.
      * right. cbn in Heq. injection Heq as _ Heq. eauto.
Qed.

Section FuzzyCondition.
Context {L : PyLib}.

(** get_close_matches with n=1 finds something exactly when some
    possibility scores at least the cutoff against the word. *)
Lemma get_close_matches_found (word : string) (possibilities : list string) (cutoff : Q) :
  get_close_matches word possibilities 1 cutoff <> []
  <-> exists x, In x possibilities /\ (cutoff <= seq_ratio x word)%Q.
Proof.
  unfold get_close_matches. split.
  - intros Hne.
    destruct (filter (close_enough cutoff word) possibilities) as [| x rest] eqn:Hfilter.
    + exfalso. apply Hne. reflexivity.
    + assert (Hin : In x (filter (close_enough cutoff word) possibilities))
        by (rewrite Hfilter; left; reflexivity).
      apply filter_In in Hin. destruct Hin as [Hin Hclose].
      exists x. split; [exact Hin |]. apply Qle_bool_iff. exact Hclose.
  - intros (x & Hin & Hle) Hnil.
    apply map_eq_nil in Hnil. apply (proj1 (nlargest_one_nil _)) in Hnil.
    apply map_eq_nil in Hnil.
    assert (Hfil : In x (filter (close_enough cutoff word) possibilities)).
    { apply filter_In. split; [exact Hin |]. apply Qle_bool_iff. exact Hle. }
    rewrite Hnil in Hfil. contradiction.
Qed.

Lemma label_match_iff (keyword : string) (labels : list string) :
  label_match keyword labels = true
  <-> contains keyword (String.concat " " labels) = true
      \/ exists label, In label labels /\ (cutoff_06 <= seq_ratio label keyword)%Q.
Proof.
  unfold label_match. rewrite orb_true_iff.
  rewrite <- (get_close_matches_found keyword labels cutoff_06).
  destruct (get_close_matches keyword labels 1 cutoff_06) as [| x rest].
  - split; (intros [H | H]; [left; exact H |]).
    + discriminate H.
    + exfalso. apply H. reflexivity.
  - split; intros _; right; [discriminate | reflexivity].
Qed.

Lemma normalize_labels_strs (raw : list string) :
  normalize_labels (map JStr raw) = Return (map (fun s => str_strip (str_lower s)) raw).
Proof.
  induction raw as [| s rest IH]; cbn [map normalize_labels]; [reflexivity |].
  cbn [normalize_label rbind]. rewrite IH. reflexivity.
Qed.

(** The labels of a post whose "labels" member is a list of strs. *)
Lemma post_labels_listed (fields : list (string * json)) (raw : list string) :
  assoc_get "labels" fields = Some (JArr (map JStr raw)) ->
  post_labels (JObj fields) = Return (map (fun s => str_strip (str_lower s)) raw).
Proof.
  intros Hlabels. unfold post_labels. cbn [py_get]. rewrite Hlabels.
  cbn [rbind py_iter]. apply normalize_labels_strs.
Qed.

Lemma match_posts_In (keyword : string) (all_posts : list json) :
  forall matched,
    match_posts keyword all_posts = Return matched ->
    forall post,
      In post matched
      <-> In post all_posts
          /\ exists labels, post_labels post = Return labels
                            /\ label_match keyword labels = true.
Proof.
  induction all_posts as [| p rest IH]; cbn [match_posts]; intros matched.
  - intros Heq. injection Heq as <-. intros post. split; [contradiction | intros [[] _]].
  - unfold rbind. destruct (post_labels p) as [labels | e] eqn:Hlabels; [| discriminate].
    destruct (match_posts keyword rest) as [matched' | e]; [| discriminate].
    specialize (IH matched' eq_refl).
    intros Heq. injection Heq as <-. intros post.
    destruct (label_match keyword labels) eqn:Hmatch.
    + cbn [In]. rewrite IH. split.
      * intros [<- | [Hin Hex]]; [| split; [right; exact Hin | exact Hex]].
        split; [left; reflexivity | eauto].
      * intros [[<- | Hin] Hex]; [left; reflexivity | right; split; assumption].
    + rewrite IH. split.
      * intros [Hin Hex]. split; [right; exact Hin | exact Hex].
      * intros [[<- | Hin] Hex]; [| split; assumption].
        destruct Hex as (labels' & Hlabels' & Hmatch').
        rewrite Hlabels in Hlabels'. injection Hlabels' as <-.
        rewrite Hmatch in Hmatch'. discriminate.
Qed.

Lemma match_posts_total (keyword : string) (all_posts : list json) :
  (forall post, In post all_posts -> exists labels, post_labels post = Return labels) ->
  exists matched, match_posts keyword all_posts = Return matched.
Proof.
  induction all_posts as [| p rest IH]; intros Hall; cbn [match_posts].
  - eexists; reflexivity.
  - destruct (Hall p (or_introl eq_refl)) as [labels Hlabels]. rewrite Hlabels.
    destruct IH as [matched Hmatched]; [intros q Hq; apply Hall; right; exact Hq |].
    rewrite Hmatched. cbn [rbind]. eexists; reflexivity.
Qed.

(** C3, with line 50 read as its indentation and line 51 have it, the
    parenthesis it leaves open closed before the colon: when the loop of the
    fuzzy search completes, an item of the fetched collection is among the
    matched posts if and only if (a) the labels joined by single spaces are
    some text, then the keyword, then some text, or (b) the keyword's
    similarity to one of the labels is at least 0.6; the labels are the
    item's labels, each lower-cased and then stripped.  The loop completes
    whenever every item has labels that can be read. *)
Theorem fuzzy_match_condition (keyword : string) (all_posts : list json) :
  (forall matched,
      match_posts keyword all_posts = Return matched ->
      forall post,
        In post all_posts ->
        (In post matched
         <-> exists labels,
               post_labels post = Return labels
               /\ ((exists before after,
                       String.concat " " labels = (before ++ keyword ++ after)%string)
                   \/ exists label,
                       In label labels /\ (6 # 10 <= seq_ratio label keyword)%Q)))
  /\ (forall fields raw,
         assoc_get "labels" fields = Some (JArr (map JStr raw)) ->
         post_labels (JObj fields)
         = Return (map (fun label => str_strip (str_lower label)) raw))
  /\ ((forall post, In post all_posts -> exists labels, post_labels post = Return labels) ->
      exists matched, match_posts keyword all_posts = Return matched).
Proof.
  split; [| split].
  - intros matched Hrun post Hin.
    rewrite (match_posts_In keyword all_posts matched Hrun post).
    split.
    + intros [_ (labels & Hlabels & Hmatch)]. exists labels. split; [exact Hlabels |].
      rewrite <- contains_split. apply label_match_iff. exact Hmatch.
    + intros (labels & Hlabels & Hcond). split; [exact Hin |].
      exists labels. split; [exact Hlabels |]. apply label_match_iff.
      rewrite contains_split. exact Hcond.
  - apply post_labels_listed.
  - apply match_posts_total.
Qed.

End FuzzyCondition.

(** py is inside the label python of p2 and too short to resemble it
    (ratio 1/2): p2 is matched by (a) alone.  pythn is inside no label of
    p2, yet close enough to python (ratio 10/11): (b) alone. *)
Lemma fuzzy_match_condition_witness :
  (@match_posts ascii_lib "py" [Demo.p2; Demo.p4] = Return [Demo.p2]
   /\ @post_labels ascii_lib Demo.p2 = Return ["python"]
   /\ ~ (6 # 10 <= @seq_ratio ascii_lib "python" "py")%Q
   /\ In Demo.p2 [Demo.p2])
  /\ (contains "pythn" "python" = false
      /\ exists labels,
          @post_labels ascii_lib Demo.p2 = Return labels
          /\ ((exists before after,
                  String.concat " " labels = (before ++ "pythn" ++ after)%string)
              \/ exists label,
                  In label labels /\ (6 # 10 <= @seq_ratio ascii_lib label "pythn")%Q)).
Proof.
  split.
  - split; [reflexivity |]. split; [reflexivity |].
    split; [intros Hle; vm_compute in Hle; apply Hle; reflexivity |].
    apply (proj1 (@fuzzy_match_condition ascii_lib "py" [Demo.p2; Demo.p4])
                 [Demo.p2] eq_refl Demo.p2).
    + left. reflexivity.
    + exists ["python"]. split; [reflexivity |].
      left. exists EmptyString, "thon". reflexivity.
  - split; [reflexivity |].
    apply (proj1 (@fuzzy_match_condition ascii_lib "pythn"
                    [Demo.p1; Demo.p2; Demo.p3; Demo.p4; Demo.p5; Demo.p6; Demo.p7])
                 [Demo.p1; Demo.p2; Demo.p3] eq_refl Demo.p2).
    + right. left. reflexivity.
    + right. left. reflexivity.
Defined.

(** * Further properties of the code *)

(** ** Substring test *)

(** X1 (line 50): the test [keyword in joined] holds exactly when the
    joined string is some text, then the keyword, then some text. *)
Theorem contains_iff_split (needle hay : string) :
  contains needle hay = true
  <-> exists before after, hay = (before ++ needle ++ after)%string.
Proof. exact (contains_split needle hay). Qed.

(** ** Searches on answers without the expected members *)

Section SearchEdges.
Context {L : PyLib}.
Variable cfg : Config.
Variable w : World.

(** X2 (lines 36-41): an exact search whose answer is a JSON object without
    an "error" member returns the "items" member as it is, whatever JSON
    value that is and with any repeated posts kept, or the empty list when
    there is no such member; it prints nothing. *)
Theorem exact_search_verbatim
        (keyword : string) (h : list event) (r : response) (fields : list (string * json)) :
  http_get w h (exact_url cfg keyword) = NetResponse r ->
  body r = inr (JObj fields) ->
  assoc_get "error" fields = None ->
  search_blogger_posts cfg w keyword true h
  = (Return match assoc_get "items" fields with
            | Some items => items
            | None => JArr []
            end,
     [EvGet (exact_url cfg keyword)]).
Proof.
  intros Hget Hbody Herr. rewrite search_run. cbv zeta.
  unfold search_url, search_items. rewrite Hget, Hbody.
  unfold exact_items. cbn [py_in rbind]. rewrite Herr. cbn [py_get].
  destruct (assoc_get "items" fields); reflexivity.
Qed.

(** X3 (lines 44-54): the fuzzy search does not look for an "error" member.
    An answer that is a JSON object without "items", an error report for
    one, gives the empty list: nothing is raised and nothing is printed. *)
Theorem fuzzy_search_without_items
        (keyword : string) (h : list event) (r : response) (fields : list (string * json)) :
  http_get w h (all_posts_url cfg) = NetResponse r ->
  body r = inr (JObj fields) ->
  assoc_get "items" fields = None ->
  search_blogger_posts cfg w keyword false h
  = (Return (JArr []), [EvGet (all_posts_url cfg)]).
Proof.
  intros Hget Hbody Hitems. rewrite search_run. cbv zeta.
  unfold search_url, search_items. rewrite Hget, Hbody.
  unfold fuzzy_items. cbn [py_get]. rewrite Hitems. reflexivity.
Qed.


End SearchEdges.

Lemma exact_search_verbatim_witness :
  @search_blogger_posts ascii_lib Demo.cfg Demo.big_blog "python" true []
  = (Return (JArr [Demo.p1; Demo.p2; Demo.p3; Demo.p4; Demo.p5; Demo.p6; Demo.p7]),
     [EvGet (exact_url Demo.cfg "python")]).
Proof.
  apply (@exact_search_verbatim ascii_lib Demo.cfg Demo.big_blog "python" [] _
           [("items", JArr [Demo.p1; Demo.p2; Demo.p3; Demo.p4; Demo.p5; Demo.p6; Demo.p7])]
           eq_refl eq_refl eq_refl).
Defined.

Lemma fuzzy_search_without_items_witness :
  @search_blogger_posts ascii_lib Demo.cfg Demo.refused_listing "python" false []
  = (Return (JArr []), [EvGet (all_posts_url Demo.cfg)]).
Proof.
  apply (@fuzzy_search_without_items ascii_lib Demo.cfg Demo.refused_listing "python" [] _
           [("error", JObj [("message", JStr "API key not valid")])]
           eq_refl eq_refl eq_refl).
Defined.

(** ** The handler on any update *)

Lemma queries_app (a b : list event) : queries (a ++ b) = queries a ++ queries b.
Proof. apply filter_app. Qed.

Lemma queries_notification (cfg : Config) (chat_id : json) (text : string)
      (evs : list event) :
  queries (notification cfg chat_id text :: evs) = queries evs.
Proof. reflexivity. Qed.

Section HandlerShape.
Context {L : PyLib}.
Variable cfg : Config.
Variable w : World.

(** The notifier makes no content query. *)
Lemma send_log (chat_id : json) (text : string) (h : list event) :
  exists b log,
    send_to_telegram cfg w chat_id text h = (Return b, notification cfg chat_id text :: log)
    /\ outbound log = [] /\ queries log = [].
Proof.
  unfold send_to_telegram, try_except, bind, requests_post, notification.
  destruct (http_post w h _ _) as [msg | r]; cbn.
  - exists false. eexists. repeat split; reflexivity.
  - unfold lift. destruct (raise_for_status_cases r) as [Hok | [msg Hbad]].
    + rewrite Hok. cbn. exists true, []. repeat split; reflexivity.
    + rewrite Hbad. cbn. exists false. eexists. repeat split; reflexivity.
Qed.

Lemma search_queries (keyword : string) (exact_match : bool) (h : list event) :
  queries (snd (search_blogger_posts cfg w keyword exact_match h))
  = [EvGet (search_url cfg keyword exact_match)].
Proof.
  rewrite search_run. cbv zeta.
  destruct (http_get w h _) as [msg | r]; [reflexivity |].
  destruct (body r) as [msg | v]; [reflexivity |].
  destruct (search_items keyword exact_match v) as [posts | e]; [reflexivity |].
  destruct (is_RequestException e); reflexivity.
Qed.

Lemma send_each_full (chat_id : json) (posts : list json) :
  forall h, exists evs,
    send_each cfg w chat_id posts h
    = (match snd (item_messages posts) with
       | None => Return tt
       | Some e => Raise e
       end, evs)
    /\ outbound evs = map (notification cfg chat_id) (fst (item_messages posts))
    /\ queries evs = [].
Proof.
  induction posts as [| post rest IH]; intros h.
  - exists []. repeat split; reflexivity.
  - cbn [send_each item_messages].
    destruct (item_message post) as [text | e].
    + rewrite bind_lift_Return.
      destruct (send_log chat_id text h) as (b & log & Hsend & Hlog & Hq).
      rewrite (bind_Return _ _ _ _ _ Hsend).
      destruct (IH (h ++ notification cfg chat_id text :: log)) as (evs & Hrest & Hout & Hq').
      rewrite Hrest. cbn [fst snd].
      destruct (item_messages rest) as [texts stop]. cbn [fst snd] in *.
      eexists. split; [reflexivity |]. split.
      * rewrite outbound_app, outbound_notification, Hlog, Hout. reflexivity.
      * rewrite queries_app, queries_notification, Hq, Hq'. reflexivity.
    + rewrite bind_lift_Raise. exists []. repeat split; reflexivity.
Qed.

Lemma item_messages_strs (chars : list string) :
  fst (item_messages (map JStr chars)) = [].
Proof. destruct chars as [| c rest]; reflexivity. Qed.

Lemma item_messages_stopped (posts : list json) (e : exn) :
  snd (item_messages posts) = Some e ->
  length (fst (item_messages posts)) < length posts.
Proof.
  induction posts as [| post rest IH]; cbn [item_messages]; [discriminate |].
  destruct (item_message post) as [text | e'].
  - destruct (item_messages rest) as [texts stop]. cbn [fst snd length] in *.
    intros Hstop. specialize (IH Hstop). lia.
  - intros _. cbn. lia.
Qed.

(** What a run sent to one chat: [n] bounds the texts of a run that
    returned, and a run that raised sent fewer. *)
Lemma deliver_any (chat_id posts : json) (h : list event) :
  exists texts,
    outbound (snd (deliver cfg w chat_id posts h)) = map (notification cfg chat_id) texts
    /\ queries (snd (deliver cfg w chat_id posts h)) = []
    /\ match fst (deliver cfg w chat_id posts h) with
       | Return a => a = (success_body, 200%Z) /\ length texts <= 5
       | Raise _ => length texts <= 4
       end.
Proof.
  assert (Hitems : forall items,
             length (fst (item_messages items)) <= 5 ->
             (forall e, snd (item_messages items) = Some e ->
                        length (fst (item_messages items)) <= 4) ->
             exists texts,
               outbound (snd (bind (send_each cfg w chat_id items)
                                   (fun _ => ret (success_body, 200%Z)) h))
               = map (notification cfg chat_id) texts
               /\ queries (snd (bind (send_each cfg w chat_id items)
                                     (fun _ => ret (success_body, 200%Z)) h)) = []
               /\ match fst (bind (send_each cfg w chat_id items)
                                  (fun _ => ret (success_body, 200%Z)) h) with
                  | Return a => a = (success_body, 200%Z) /\ length texts <= 5
                  | Raise _ => length texts <= 4
                  end).
  { intros items Hlen Hstop.
    destruct (send_each_full chat_id items h) as (evs & Hrun & Hout & Hq).
    exists (fst (item_messages items)).
    destruct (snd (item_messages items)) as [e |].
    - rewrite (bind_Raise _ _ _ _ _ Hrun). cbn [fst snd].
      repeat split; [exact Hout | exact Hq | eapply Hstop; reflexivity].
    - rewrite (bind_Return _ _ _ _ _ Hrun). cbn [fst snd ret].
      rewrite app_nil_r. repeat split; [exact Hout | exact Hq | exact Hlen]. }
  unfold deliver.
  destruct posts as [| b | n | s | posts | fields]; cbn [py_slice_to];
    try (rewrite bind_lift_Raise; exists []; cbn; repeat split; lia).
  - rewrite bind_lift_Return. cbn [py_iter]. rewrite bind_lift_Return.
    apply Hitems; rewrite item_messages_strs; cbn; intros; lia.
  - rewrite bind_lift_Return. cbn [py_iter]. rewrite bind_lift_Return.
    assert (Hlen : length (firstn 5 posts) <= 5) by apply firstn_le_length.
    apply Hitems.
    + etransitivity; [apply item_messages_length | exact Hlen].
    + intros e He. apply item_messages_stopped in He. lia.
Qed.

(** The header, then the delivery, for any value a search may return. *)
Lemma announce_any (chat_id : json) (header : nat -> string) (posts : json)
      (h : list event) :
  let run := bind (lift (py_len posts))
                  (fun n => bind (send_to_telegram cfg w chat_id (header n))
                                 (fun _ => deliver cfg w chat_id posts)) h in
  exists texts,
    outbound (snd run) = map (notification cfg chat_id) texts
    /\ queries (snd run) = []
    /\ match fst run with
       | Return a => a = (success_body, 200%Z) /\ length texts <= 6
       | Raise _ => length texts <= 5
       end.
Proof.
  cbv zeta. destruct (py_len posts) as [n | e].
  - rewrite bind_lift_Return.
    destruct (send_log chat_id (header n) h) as (b & log & Hsend & Hlog & Hq).
    rewrite (bind_Return _ _ _ _ _ Hsend). cbn [fst snd].
    destruct (deliver_any chat_id posts (h ++ notification cfg chat_id (header n) :: log))
      as (texts & Hout & Hq' & Hres).
    exists (header n :: texts). split; [| split].
    + rewrite outbound_app, outbound_notification, Hlog, Hout. reflexivity.
    + rewrite queries_app, queries_notification, Hq, Hq'. reflexivity.
    + destruct (fst (deliver cfg w chat_id posts _)); cbn [length]; [destruct Hres |];
        repeat split; try assumption; lia.
  - rewrite bind_lift_Raise. exists []. cbn. repeat split. lia.
Qed.

Lemma fallback_any (chat_id : json) (keyword : string) (h : list event) :
  exists texts,
    outbound (snd (fallback cfg w chat_id keyword h)) = map (notification cfg chat_id) texts
    /\ queries (snd (fallback cfg w chat_id keyword h)) = [EvGet (all_posts_url cfg)]
    /\ match fst (fallback cfg w chat_id keyword h) with
       | Return a => a = (success_body, 200%Z) /\ length texts <= 6
       | Raise _ => length texts <= 5
       end.
Proof.
  unfold fallback.
  pose proof (search_queries keyword false h) as Hq.
  pose proof (search_outbound cfg w keyword false h) as Ho.
  destruct (search_blogger_posts cfg w keyword false h) as [[posts | e] evs] eqn:Hsearch;
    cbn [fst snd search_url] in Hq, Ho.
  - rewrite (bind_Return _ _ _ _ _ Hsearch). cbn [fst snd].
    destruct (truthy posts).
    + destruct (announce_any chat_id related_header posts (h ++ evs))
        as (texts & Hout & Hq' & Hres).
      exists texts. rewrite outbound_app, queries_app, Ho, Hq, Hout, Hq'.
      repeat split. exact Hres.
    + destruct (send_log chat_id no_matches_text (h ++ evs)) as (b & log & Hsend & Hlog & Hq').
      rewrite (bind_Return _ _ _ _ _ Hsend). cbn [fst snd ret].
      exists [no_matches_text].
      rewrite !outbound_app, !queries_app, outbound_notification, queries_notification,
        Ho, Hq, Hlog, Hq'.
      cbn. repeat split. lia.
  - rewrite (bind_Raise _ _ _ _ _ Hsearch). cbn [fst snd].
    exists []. rewrite Ho, Hq. cbn. repeat split. lia.
Qed.

Lemma reply_any (chat_id : json) (keyword : string) (h : list event) :
  exists texts,
    outbound (snd (search_and_reply cfg w chat_id keyword h))
    = map (notification cfg chat_id) texts
    /\ queries (snd (search_and_reply cfg w chat_id keyword h))
       = EvGet (exact_url cfg keyword)
           :: match fst (search_blogger_posts cfg w keyword true h) with
              | Return posts => if truthy posts then [] else [EvGet (all_posts_url cfg)]
              | Raise _ => []
              end
    /\ match fst (search_and_reply cfg w chat_id keyword h) with
       | Return a => a = (success_body, 200%Z) /\ length texts <= 6
       | Raise _ => length texts <= 5
       end.
Proof.
  unfold search_and_reply.
  pose proof (search_queries keyword true h) as Hq.
  pose proof (search_outbound cfg w keyword true h) as Ho.
  destruct (search_blogger_posts cfg w keyword true h) as [[posts | e] evs] eqn:Hsearch;
    cbn [fst snd search_url] in Hq, Ho |- *.
  - rewrite (bind_Return _ _ _ _ _ Hsearch). cbn [fst snd].
    destruct (truthy posts); cbn [negb].
    + destruct (announce_any chat_id exact_header posts (h ++ evs))
        as (texts & Hout & Hq' & Hres).
      exists texts. rewrite outbound_app, queries_app, Ho, Hq, Hout, Hq'.
      repeat split. exact Hres.
    + destruct (fallback_any chat_id keyword (h ++ evs)) as (texts & Hout & Hq' & Hres).
      exists texts. rewrite outbound_app, queries_app, Ho, Hq, Hout, Hq'.
      repeat split. exact Hres.
  - rewrite (bind_Raise _ _ _ _ _ Hsearch). cbn [fst snd].
    exists []. rewrite Ho, Hq. cbn. repeat split. lia.
Qed.

Lemma answer_any (chat_id message : json) (h : list event) :
  exists texts,
    outbound (snd (answer cfg w chat_id message h)) = map (notification cfg chat_id) texts
    /\ queries (snd (answer cfg w chat_id message h))
       = match keyword_of message with
         | Return keyword =>
             if String.eqb keyword EmptyString then []
             else EvGet (exact_url cfg keyword)
                    :: match fst (search_blogger_posts cfg w keyword true h) with
                       | Return posts =>
                           if truthy posts then [] else [EvGet (all_posts_url cfg)]
                       | Raise _ => []
                       end
         | Raise _ => []
         end
    /\ match fst (answer cfg w chat_id message h) with
       | Return a => a = (success_body, 200%Z) /\ length texts <= 6
       | Raise _ => length texts <= 5
       end.
Proof.
  unfold answer. destruct (keyword_of message) as [keyword | e].
  - rewrite bind_lift_Return. destruct (String.eqb keyword EmptyString).
    + destruct (send_log chat_id prompt_text h) as (b & log & Hsend & Hlog & Hq).
      rewrite (bind_Return _ _ _ _ _ Hsend). cbn [fst snd ret].
      exists [prompt_text].
      rewrite !outbound_app, !queries_app, outbound_notification, queries_notification,
        Hlog, Hq.
      cbn. repeat split. lia.
    + apply reply_any.
  - rewrite bind_lift_Raise. exists []. cbn. repeat split. lia.
Qed.

Lemma on_error_full (chat_id : json) (e : exn) (h : list event) :
  print_failure e = None ->
  exists log,
    on_error cfg w (Some chat_id) e h
    = (Return (error_body (exn_str e), 500%Z),
       [EvPrint (error_text e); notification cfg chat_id (error_text e)] ++ log)
    /\ outbound log = [] /\ queries log = [].
Proof.
  intros Hprint. unfold on_error, print_error. rewrite Hprint. unfold py_print.
  destruct (send_log chat_id (error_text e) (h ++ [EvPrint (error_text e)]))
    as (b & log & Hsend & Hlog & Hq).
  unfold bind at 1. cbn.
  unfold bind at 1.
  erewrite (bind_Return _ _ _ _ _ Hsend). cbn.
  exists log. split; [| split; assumption].
  rewrite !app_nil_r. reflexivity.
Qed.

(** The except clause with a chat id: when the error text is printed, one
    more notification and a 500; when the print fails, the exception of the
    print and nothing more.  No query either way. *)
Lemma caught_full (chat_id : json) (m : M (json * Z)) (h : list event) :
  let run := try_except m is_Exception (on_error cfg w (Some chat_id)) h in
  fst run = match fst (m h) with
            | Return a => Return a
            | Raise e =>
                match print_failure e with
                | Some failure => Raise (UnicodeEncodeError failure)
                | None => Return (error_body (exn_str e), 500%Z)
                end
            end
  /\ outbound (snd run)
     = outbound (snd (m h))
         ++ match fst (m h) with
            | Return _ => []
            | Raise e =>
                match print_failure e with
                | Some _ => []
                | None => [notification cfg chat_id (error_text e)]
                end
            end
  /\ queries (snd run) = queries (snd (m h)).
Proof.
  cbv zeta. unfold try_except. destruct (m h) as [[a | e] evs]; cbn [fst snd is_Exception].
  - rewrite app_nil_r. repeat split.
  - destruct (print_failure e) as [failure |] eqn:Hprint.
    + rewrite (on_error_print_fails cfg w (Some chat_id) e failure _ Hprint).
      cbn [fst snd]. rewrite !app_nil_r. repeat split.
    + destruct (on_error_full chat_id e (h ++ evs) Hprint) as (log & Hrun & Hlog & Hq).
      rewrite Hrun. cbn [fst snd app].
      rewrite outbound_app, queries_app.
      change (outbound (EvPrint (error_text e)
                          :: notification cfg chat_id (error_text e) :: log))
        with (notification cfg chat_id (error_text e) :: outbound log).
      change (queries (EvPrint (error_text e)
                         :: notification cfg chat_id (error_text e) :: log))
        with (queries log).
      rewrite Hlog, Hq, app_nil_r. repeat split.
Qed.

(** *** Where the ValueError of line 40 can come from

    Only from the exact search: whatever else the handler raises is a
    KeyError or a fault of the interpreter. *)

Lemma normalize_labels_plain (labels : list json) (e : exn) :
  normalize_labels labels = Raise e -> remote_text e = None.
Proof.
  induction labels as [| label rest IH]; cbn [normalize_labels]; [discriminate |].
  unfold rbind, normalize_label.
  destruct label; try (intros Heq; injection Heq as <-; reflexivity).
  destruct (normalize_labels rest); [discriminate |].
  intros Heq. injection Heq as <-. apply IH. reflexivity.
Qed.

Lemma post_labels_plain (post : json) (e : exn) :
  post_labels post = Raise e -> remote_text e = None.
Proof.
  unfold post_labels, rbind.
  destruct (py_get post "labels" (JArr [])) as [labels | e1] eqn:Hget;
    [| intros Heq; injection Heq as <-; eapply py_get_plain; exact Hget].
  destruct (py_iter labels) as [items | e2] eqn:Hiter;
    [| intros Heq; injection Heq as <-; eapply py_iter_plain; exact Hiter].
  apply normalize_labels_plain.
Qed.

Lemma match_posts_plain (keyword : string) (all_posts : list json) (e : exn) :
  match_posts keyword all_posts = Raise e -> remote_text e = None.
Proof.
  induction all_posts as [| post rest IH]; cbn [match_posts]; [discriminate |].
  unfold rbind. destruct (post_labels post) as [labels | e'] eqn:Hlabels.
  - destruct (match_posts keyword rest); [discriminate |].
    intros Heq. injection Heq as <-. apply IH. reflexivity.
  - intros Heq. injection Heq as <-. eapply post_labels_plain. exact Hlabels.
Qed.

Lemma dict_by_url_plain (posts : list json) (e : exn) :
  forall d, dict_by_url d posts = Raise e -> remote_text e = None.
Proof.
  induction posts as [| post rest IH]; intros d; cbn [dict_by_url]; [discriminate |].
  unfold rbind. destruct (py_getitem post "url") as [url | e1] eqn:Hurl;
    [| intros Heq; injection Heq as <-; eapply py_getitem_plain; exact Hurl].
  destruct (hashable url); [apply IH | intros Heq; injection Heq as <-; reflexivity].
Qed.

Lemma fuzzy_items_plain (keyword : string) (response : json) (e : exn) :
  fuzzy_items keyword response = Raise e -> remote_text e = None.
Proof.
  unfold fuzzy_items, rbind.
  destruct (py_get response "items" (JArr [])) as [items | e1] eqn:Hget;
    [| intros Heq; injection Heq as <-; eapply py_get_plain; exact Hget].
  destruct (py_iter items) as [all_posts | e2] eqn:Hiter;
    [| intros Heq; injection Heq as <-; eapply py_iter_plain; exact Hiter].
  destruct (match_posts keyword all_posts) as [matched | e3] eqn:Hmatch;
    [| intros Heq; injection Heq as <-; eapply match_posts_plain; exact Hmatch].
  destruct (dict_by_url [] matched) as [d | e4] eqn:Hd; [discriminate |].
  intros Heq. injection Heq as <-. eapply dict_by_url_plain. exact Hd.
Qed.

(** A search that raises has made its query and nothing else. *)
Lemma search_raises (keyword : string) (exact_match : bool) (h : list event) (e : exn) :
  fst (search_blogger_posts cfg w keyword exact_match h) = Raise e ->
  search_blogger_posts cfg w keyword exact_match h
  = (Raise e, [EvGet (search_url cfg keyword exact_match)])
  /\ (exact_match = false -> remote_text e = None).
Proof.
  rewrite search_run. cbv zeta.
  destruct (http_get w h _) as [msg | r]; [discriminate |].
  destruct (body r) as [msg | v]; [discriminate |].
  destruct (search_items keyword exact_match v) as [posts | e'] eqn:Hitems; [discriminate |].
  destruct (is_RequestException e'); [discriminate |].
  cbn [fst]. intros Heq. injection Heq as <-. split; [reflexivity |].
  intros ->. cbn [search_items] in Hitems. eapply fuzzy_items_plain. exact Hitems.
Qed.

Lemma deliver_raises (chat_id posts : json) (h : list event) (e : exn) :
  fst (deliver cfg w chat_id posts h) = Raise e -> remote_text e = None.
Proof.
  unfold deliver.
  destruct (py_slice_to posts 5) as [first | e1] eqn:Hslice.
  - rewrite bind_lift_Return.
    destruct (py_iter first) as [items | e2] eqn:Hiter.
    + rewrite bind_lift_Return.
      destruct (send_each_full chat_id items h) as (evs & Hrun & _ & _).
      destruct (snd (item_messages items)) as [e3 |] eqn:Hstop.
      * rewrite (bind_Raise _ _ _ _ _ Hrun). cbn [fst].
        intros Heq. injection Heq as <-. eapply item_messages_plain. exact Hstop.
      * rewrite (bind_Return _ _ _ _ _ Hrun). discriminate.
    + rewrite bind_lift_Raise. cbn [fst].
      intros Heq. injection Heq as <-. eapply py_iter_plain. exact Hiter.
  - rewrite bind_lift_Raise. cbn [fst].
    intros Heq. injection Heq as <-. eapply py_slice_plain. exact Hslice.
Qed.

Lemma announce_raises (chat_id : json) (header : nat -> string) (posts : json)
      (h : list event) (e : exn) :
  fst (bind (lift (py_len posts))
            (fun n => bind (send_to_telegram cfg w chat_id (header n))
                           (fun _ => deliver cfg w chat_id posts)) h) = Raise e ->
  remote_text e = None.
Proof.
  destruct (py_len posts) as [n | e1] eqn:Hlen.
  - rewrite bind_lift_Return.
    destruct (send_log chat_id (header n) h) as (b & log & Hsend & _ & _).
    rewrite (bind_Return _ _ _ _ _ Hsend). cbn [fst]. apply deliver_raises.
  - rewrite bind_lift_Raise. cbn [fst].
    intros Heq. injection Heq as <-. eapply py_len_plain. exact Hlen.
Qed.

Lemma fallback_raises (chat_id : json) (keyword : string) (h : list event) (e : exn) :
  fst (fallback cfg w chat_id keyword h) = Raise e -> remote_text e = None.
Proof.
  unfold fallback.
  destruct (search_blogger_posts cfg w keyword false h) as [[posts | e1] evs] eqn:Hsearch.
  - rewrite (bind_Return _ _ _ _ _ Hsearch). cbn [fst].
    destruct (truthy posts).
    + apply announce_raises.
    + destruct (send_log chat_id no_matches_text (h ++ evs)) as (b & log & Hsend & _ & _).
      rewrite (bind_Return _ _ _ _ _ Hsend). discriminate.
  - rewrite (bind_Raise _ _ _ _ _ Hsearch). cbn [fst].
    intros Heq. injection Heq as <-.
    apply (search_raises keyword false h e1); [rewrite Hsearch |]; reflexivity.
Qed.

Lemma answer_raises (chat_id message : json) (h : list event) (e : exn) :
  fst (answer cfg w chat_id message h) = Raise e ->
  remote_text e = None
  \/ exists keyword,
       fst (search_blogger_posts cfg w keyword true h) = Raise e
       /\ answer cfg w chat_id message h = (Raise e, [EvGet (exact_url cfg keyword)]).
Proof.
  unfold answer.
  destruct (keyword_of message) as [keyword | e1] eqn:Hkw.
  - rewrite bind_lift_Return. destruct (String.eqb keyword EmptyString).
    + destruct (send_log chat_id prompt_text h) as (b & log & Hsend & _ & _).
      rewrite (bind_Return _ _ _ _ _ Hsend). discriminate.
    + unfold search_and_reply.
      destruct (search_blogger_posts cfg w keyword true h) as [[posts | e2] evs]
        eqn:Hsearch.
      * rewrite (bind_Return _ _ _ _ _ Hsearch). cbn [fst].
        destruct (truthy posts); cbn [negb]; intros Hraise; left.
        -- eapply announce_raises. exact Hraise.
        -- eapply fallback_raises. exact Hraise.
      * rewrite (bind_Raise _ _ _ _ _ Hsearch). cbn [fst].
        intros Heq. injection Heq as <-. right. exists keyword.
        destruct (search_raises keyword true h e2) as [Hrun _];
          [rewrite Hsearch; reflexivity |].
        rewrite Hsearch in Hrun. injection Hrun as ->.
        split; [rewrite Hsearch |]; reflexivity.
  - rewrite bind_lift_Raise. cbn [fst]. intros Heq. injection Heq as <-. left.
    unfold keyword_of, rbind in Hkw.
    destruct (py_get message "text" (JStr EmptyString)) as [text | e3] eqn:Hget;
      [| injection Hkw as <-; eapply py_get_plain; exact Hget].
    destruct text; try discriminate; injection Hkw as <-; reflexivity.
Qed.

End HandlerShape.

Section HandlerTotal.
Context {L : PyLib}.
Variable cfg : Config.
Variable w : World.

(** The ways a call of the handler can end. *)
Lemma handler_cases (req : request) (h : list event) :
  match resolve_chat req with
  | Raise e =>
      webhook_handler cfg w req h
      = (Return (error_body (exn_str e), 500%Z), [EvPrint (error_text e)])
  | Return None =>
      webhook_handler cfg w req h
      = (Return (error_body "Invalid message format", 400%Z), [])
  | Return (Some (chat_id, message)) =>
      fst (webhook_handler cfg w req h) = Return (success_body, 200%Z)
      \/ (exists e, fst (webhook_handler cfg w req h)
                    = Return (error_body (exn_str e), 500%Z))
      \/ (exists keyword s failure,
            fst (search_blogger_posts cfg w keyword true h) = Raise (ValueError (JStr s))
            /\ stdout_error ("⚠️ Error: " ++ s) = Some failure
            /\ webhook_handler cfg w req h
               = (Raise (UnicodeEncodeError failure), [EvGet (exact_url cfg keyword)]))
  end.
Proof.
  unfold webhook_handler.
  destruct (resolve_chat req) as [[[chat_id message] |] | e] eqn:Hres.
  - pose proof (answer_any cfg w chat_id message h) as (texts & _ & _ & Hshape).
    pose proof (answer_raises cfg w chat_id message h) as Hraises.
    unfold try_except.
    destruct (answer cfg w chat_id message h) as [[a | e] evs] eqn:Hanswer;
      cbn [fst snd is_Exception] in *.
    + destruct Hshape as [-> _]. left. reflexivity.
    + destruct (print_failure e) as [failure |] eqn:Hprint.
      * right. right.
        destruct (Hraises e eq_refl) as [Hplain | (keyword & Hsearch & Hrun)].
        { rewrite (plain_prints e Hplain) in Hprint. discriminate. }
        injection Hrun as ->.
        unfold print_failure in Hprint.
        destruct e as [| | [| | | s | |] | | |]; try discriminate Hprint.
        cbn [remote_text] in Hprint.
        exists keyword, s, failure. split; [exact Hsearch |]. split; [exact Hprint |].
        rewrite (on_error_print_fails cfg w (Some chat_id) (ValueError (JStr s)) failure).
        -- reflexivity.
        -- unfold print_failure. cbn [remote_text]. exact Hprint.
      * right. left. exists e.
        destruct (on_error_full cfg w chat_id e (h ++ evs) Hprint) as (log & Hrun & _ & _).
        rewrite Hrun. reflexivity.
  - reflexivity.
  - apply on_error_unresolved. apply plain_prints. eapply resolve_chat_plain. exact Hres.
Qed.

(** X5 (lines 61-102): the handler lets one exception out and no other.
    Its response is the success body with 200, the invalid-format body with
    400, or an error body carrying the text of the exception with 500;
    unless the exact search raised the ValueError of line 40 with a str that
    standard output cannot encode: then the print of line 99 raises
    UnicodeEncodeError inside the except clause and that exception leaves
    the handler, the content query being the only event. *)
Theorem handler_outcomes (req : request) (h : list event) :
  fst (webhook_handler cfg w req h) = Return (JObj [("status", JStr "success")], 200%Z)
  \/ fst (webhook_handler cfg w req h)
     = Return (JObj [("status", JStr "error"); ("message", JStr "Invalid message format")],
               400%Z)
  \/ (exists e,
        fst (webhook_handler cfg w req h)
        = Return (JObj [("status", JStr "error"); ("message", JStr (exn_str e))], 500%Z))
  \/ (exists keyword s failure,
        fst (search_blogger_posts cfg w keyword true h) = Raise (ValueError (JStr s))
        /\ stdout_error ("⚠️ Error: " ++ s) = Some failure
        /\ webhook_handler cfg w req h
           = (Raise (UnicodeEncodeError failure), [EvGet (exact_url cfg keyword)])).
Proof.
  pose proof (handler_cases req h) as Hcases.
  destruct (resolve_chat req) as [[[chat_id message] |] | e].
  - destruct Hcases as [Hok | [Herr | Hraise]]; auto.
  - rewrite Hcases. right. left. reflexivity.
  - rewrite Hcases. right. right. left. exists e. reflexivity.
Qed.

(** X6 (lines 61-102): one update causes at most six outbound calls, the
    header, five items at most and, in their place or after fewer items,
    one error text; every one of them is a POST to the send-message URL
    whose payload names the chat id read from the update. *)
Theorem handler_notification_budget (req : request) (h : list event) :
  length (outbound (snd (webhook_handler cfg w req h))) <= 6
  /\ forall chat_id message,
      resolve_chat req = Return (Some (chat_id, message)) ->
      exists texts,
        outbound (snd (webhook_handler cfg w req h))
        = map (fun text : string =>
                 EvPost ("https://api.telegram.org/bot"
                     ++ match TELEGRAM_TOKEN cfg with Some token => token | None => "None" end
                     ++ "/sendMessage")
                  (JObj [("chat_id", chat_id); ("text", JStr text);
                         ("parse_mode", JStr "Markdown");
                         ("disable_web_page_preview", JBool true)])) texts.
Proof.
  unfold webhook_handler.
  destruct (resolve_chat req) as [[[chat_id message] |] | e] eqn:Hres.
  - destruct (caught_full cfg w chat_id (answer cfg w chat_id message) h) as (_ & Hout & _).
    cbv zeta in Hout.
    destruct (answer_any cfg w chat_id message h) as (texts & Hsent & _ & Hshape).
    rewrite Hsent in Hout.
    assert (Hall : outbound (snd (try_except (answer cfg w chat_id message) is_Exception
                                    (on_error cfg w (Some chat_id)) h))
                   = map (notification cfg chat_id)
                         (texts ++ match fst (answer cfg w chat_id message h) with
                                   | Return _ => []
                                   | Raise e =>
                                       match print_failure e with
                                       | Some _ => []
                                       | None => [error_text e]
                                       end
                                   end)).
    { rewrite Hout, map_app.
      destruct (fst (answer cfg w chat_id message h)) as [a | e];
        [| destruct (print_failure e)]; reflexivity. }
    split.
    + rewrite Hall, length_map, length_app.
      destruct (fst (answer cfg w chat_id message h)) as [a | e];
        [destruct Hshape | destruct (print_failure e)]; cbn [length]; lia.
    + intros c m Heq. injection Heq as <- <-. eexists. exact Hall.
  - split; [cbn; lia | discriminate].
  - rewrite (on_error_unresolved cfg w e h
               (plain_prints e (resolve_chat_plain req e Hres))).
    split; [cbn; lia | discriminate].
Qed.

(** X7 (lines 73-82): the content API is queried at most twice for one
    update.  With a chat and a non-empty keyword the first query is the
    exact one, and the whole collection is fetched after it only when the
    exact search returned a false (empty) value: not when it found posts,
    and not when it raised. *)
Theorem content_queries (req : request) (h : list event) :
  length (queries (snd (webhook_handler cfg w req h))) <= 2
  /\ forall chat_id message keyword,
      resolve_chat req = Return (Some (chat_id, message)) ->
      keyword_of message = Return keyword ->
      keyword <> EmptyString ->
      queries (snd (webhook_handler cfg w req h))
      = EvGet (exact_url cfg keyword)
          :: match fst (search_blogger_posts cfg w keyword true h) with
             | Return posts => if truthy posts then [] else [EvGet (all_posts_url cfg)]
             | Raise _ => []
             end.
Proof.
  unfold webhook_handler.
  destruct (resolve_chat req) as [[[chat_id message] |] | e] eqn:Hres.
  - destruct (caught_full cfg w chat_id (answer cfg w chat_id message) h) as (_ & _ & Hq).
    cbv zeta in Hq. rewrite Hq.
    destruct (answer_any cfg w chat_id message h) as (texts & _ & Hq' & _).
    rewrite Hq'. split.
    + destruct (keyword_of message) as [keyword | e]; [| cbn; lia].
      destruct (String.eqb keyword EmptyString); [cbn; lia |].
      destruct (fst (search_blogger_posts cfg w keyword true h)) as [posts | e];
        [destruct (truthy posts) |]; cbn; lia.
    + intros c m keyword Heq Hkw Hne. injection Heq as <- <-. rewrite Hkw.
      destruct (String.eqb_spec keyword EmptyString); [contradiction | reflexivity].
  - split; [cbn; lia | discriminate].
  - rewrite (on_error_unresolved cfg w e h
               (plain_prints e (resolve_chat_plain req e Hres))).
    split; [cbn; lia | discriminate].
Qed.

(** X8 (lines 71-75): when the keyword comes out empty (the message has
    no text, or only white space), the handler makes one outbound call, the
    send-message call that carries the prompt to the chat of the update,
    answers 200, and does not contact the content API. *)
Theorem empty_keyword_prompts
        (req : request) (chat_id message : json) (h : list event) :
  resolve_chat req = Return (Some (chat_id, message)) ->
  keyword_of message = Return EmptyString ->
  fst (webhook_handler cfg w req h) = Return (JObj [("status", JStr "success")], 200%Z)
  /\ outbound (snd (webhook_handler cfg w req h))
     = [(fun text : string =>
           EvPost ("https://api.telegram.org/bot"
                     ++ match TELEGRAM_TOKEN cfg with Some token => token | None => "None" end
                     ++ "/sendMessage")
                  (JObj [("chat_id", chat_id); ("text", JStr text);
                         ("parse_mode", JStr "Markdown");
                         ("disable_web_page_preview", JBool true)])) "ℹ️ Please send a search keyword"]
  /\ queries (snd (webhook_handler cfg w req h)) = [].
Proof.
  intros Hchat Hkw. unfold webhook_handler. rewrite Hchat.
  destruct (caught_full cfg w chat_id (answer cfg w chat_id message) h) as (Hres & Hout & Hq).
  cbv zeta in Hres, Hout, Hq. rewrite Hres, Hout, Hq.
  unfold answer. rewrite Hkw, bind_lift_Return. cbn [String.eqb].
  destruct (send_log cfg w chat_id prompt_text h) as (b & log & Hsend & Hlog & Hq').
  rewrite (bind_Return _ _ _ _ _ Hsend). cbn [fst snd ret].
  rewrite !app_nil_r, outbound_notification, queries_notification, Hlog, Hq'.
  repeat split.
Qed.

(** X9 (lines 67-70, 97-102): an update whose message has a "chat" member
    from which no id can be read (the chat is an object without "id", or
    is not an object) is not rejected with 400: reading the id raises before
    chat_id is bound, so the handler prints the error, sends nothing and
    answers 500. *)
Theorem chat_without_id
        (fields mfields : list (string * json)) (chat : json) (e : exn) (h : list event) :
  message_of fields = JObj mfields ->
  assoc_get "chat" mfields = Some chat ->
  py_getitem chat "id" = Raise e ->
  webhook_handler cfg w (Payload (JObj fields)) h
  = (Return (error_body (exn_str e), 500%Z), [EvPrint ("⚠️ Error: " ++ exn_str e)]).
Proof.
  intros Hmsg Hchat Hid.
  assert (Hres : resolve_chat (Payload (JObj fields)) = Raise e).
  { unfold resolve_chat. cbn [request_get_json rbind]. rewrite py_get_message, Hmsg.
    cbn [rbind].
    assert (Htruthy : truthy (JObj mfields) = true).
    { destruct mfields; [discriminate Hchat | reflexivity]. }
    rewrite Htruthy. cbn [negb py_in rbind]. rewrite Hchat. cbn [negb rbind py_getitem].
    rewrite Hchat. cbn [rbind]. rewrite Hid. reflexivity. }
  unfold webhook_handler. rewrite Hres.
  apply on_error_unresolved. apply plain_prints. eapply py_getitem_plain. exact Hid.
Qed.

(** X10 (lines 70-71, 97-102): when the chat id is known and the message's
    "text" member is not a str, taking the keyword raises (the value has
    no strip method); the handler prints the error, makes one outbound
    call, the send-message call that carries the error text to the chat of
    the update, queries nothing and answers 500. *)
Theorem text_not_a_string
        (req : request) (chat_id : json) (mfields : list (string * json)) (text : json)
        (h : list event) :
  resolve_chat req = Return (Some (chat_id, JObj mfields)) ->
  assoc_get "text" mfields = Some text ->
  (forall s, text <> JStr s) ->
  let problem := fault_str (NoAttribute text "strip") in
  fst (webhook_handler cfg w req h)
  = Return (JObj [("status", JStr "error"); ("message", JStr problem)], 500%Z)
  /\ outbound (snd (webhook_handler cfg w req h))
     = [(fun text : string =>
           EvPost ("https://api.telegram.org/bot"
                     ++ match TELEGRAM_TOKEN cfg with Some token => token | None => "None" end
                     ++ "/sendMessage")
                  (JObj [("chat_id", chat_id); ("text", JStr text);
                         ("parse_mode", JStr "Markdown");
                         ("disable_web_page_preview", JBool true)])) ("⚠️ Error: " ++ problem)%string]
  /\ queries (snd (webhook_handler cfg w req h)) = []
  /\ In (EvPrint ("⚠️ Error: " ++ problem)) (snd (webhook_handler cfg w req h)).
Proof.
  intros Hchat Htext Hnot problem.
  set (e := Fault (NoAttribute text "strip")).
  assert (Hkw : keyword_of (JObj mfields) = Raise e).
  { unfold keyword_of. cbn [py_get]. rewrite Htext. cbn [rbind].
    destruct text; try reflexivity. exfalso. eapply Hnot. reflexivity. }
  assert (Hanswer : answer cfg w chat_id (JObj mfields) h = (Raise e, [])).
  { unfold answer. rewrite Hkw. apply bind_lift_Raise. }
  unfold webhook_handler. rewrite Hchat.
  rewrite (try_caught _ _ _ _ _ _ Hanswer eq_refl).
  destruct (on_error_full cfg w chat_id e (h ++ []) eq_refl) as (log & Hrun & Hlog & Hq).
  rewrite Hrun. cbn [fst snd app].
  repeat split.
  - change (outbound (EvPrint (error_text e) :: notification cfg chat_id (error_text e) :: log))
      with (notification cfg chat_id (error_text e) :: outbound log).
    rewrite Hlog. reflexivity.
  - change (queries (EvPrint (error_text e) :: notification cfg chat_id (error_text e) :: log))
      with (queries log).
    exact Hq.
  - left. reflexivity.
Qed.

(** X11 (line 65): the two accepted shapes are handled alike.  An update
    that wraps a message object in a "message" member is handled exactly as
    the bare message object sent as the update (which must not itself have
    a "message" member). *)
Theorem nested_and_bare_message
        (fields mfields : list (string * json)) (h : list event) :
  assoc_get "message" fields = Some (JObj mfields) ->
  assoc_get "message" mfields = None ->
  webhook_handler cfg w (Payload (JObj fields)) h
  = webhook_handler cfg w (Payload (JObj mfields)) h.
Proof.
  intros Hnested Hbare.
  assert (Hsame : resolve_chat (Payload (JObj fields))
                  = resolve_chat (Payload (JObj mfields))).
  { unfold resolve_chat. cbn [request_get_json rbind py_get].
    rewrite Hnested, Hbare. reflexivity. }
  unfold webhook_handler. rewrite Hsame. reflexivity.
Qed.

End HandlerTotal.

(** The error message holds a lone surrogate: the print raises and the
    exception leaves the handler. *)
Lemma handler_outcomes_witness :
  @webhook_handler ascii_lib Demo.cfg Demo.garbled_blog (Demo.update 7 "python") []
  = (Raise (UnicodeEncodeError
              "'utf-8' codec can't encode character: surrogates not allowed"),
     [EvGet (exact_url Demo.cfg "python")])
  /\ (fst (@webhook_handler ascii_lib Demo.cfg Demo.big_blog (Demo.update 7 "python") [])
      = Return (JObj [("status", JStr "success")], 200%Z)
      \/ fst (@webhook_handler ascii_lib Demo.cfg Demo.big_blog (Demo.update 7 "python") [])
         = Return (JObj [("status", JStr "error");
                         ("message", JStr "Invalid message format")], 400%Z)
      \/ (exists e,
            fst (@webhook_handler ascii_lib Demo.cfg Demo.big_blog
                   (Demo.update 7 "python") [])
            = Return (JObj [("status", JStr "error");
                            ("message", JStr (@exn_str ascii_lib e))], 500%Z))
      \/ (exists keyword s failure,
            fst (@search_blogger_posts ascii_lib Demo.cfg Demo.big_blog keyword true [])
            = Raise (ValueError (JStr s))
            /\ AsciiLib.encode_error ("⚠️ Error: " ++ s) = Some failure
            /\ @webhook_handler ascii_lib Demo.cfg Demo.big_blog (Demo.update 7 "python") []
               = (Raise (UnicodeEncodeError failure), [EvGet (exact_url Demo.cfg keyword)]))).
Proof.
  split; [reflexivity |].
  exact (@handler_outcomes ascii_lib Demo.cfg Demo.big_blog (Demo.update 7 "python") []).
Defined.

(** Seven posts found: six outbound calls, all to chat 7. *)
Lemma handler_notification_budget_witness :
  exists texts,
    outbound (snd (@webhook_handler ascii_lib Demo.cfg Demo.big_blog
                     (Demo.update 7 "python") []))
    = map (fun text : string =>
             EvPost "https://api.telegram.org/bottok/sendMessage"
                    (JObj [("chat_id", JNum 7); ("text", JStr text);
                           ("parse_mode", JStr "Markdown");
                           ("disable_web_page_preview", JBool true)])) texts.
Proof.
  apply (proj2 (@handler_notification_budget ascii_lib Demo.cfg Demo.big_blog
                  (Demo.update 7 "python") [])
               (JNum 7) (Demo.message 7 "python")).
  reflexivity.
Defined.

(** Posts found by the exact query: one query.  None found: two. *)
Lemma content_queries_witness :
  queries (snd (@webhook_handler ascii_lib Demo.cfg Demo.big_blog
                  (Demo.update 7 "python") []))
  = [EvGet (exact_url Demo.cfg "python")]
  /\ queries (snd (@webhook_handler ascii_lib Demo.cfg Demo.typo_blog
                     (Demo.update 7 "pythn") []))
     = [EvGet (exact_url Demo.cfg "pythn"); EvGet (all_posts_url Demo.cfg)].
Proof.
  split.
  - refine (proj2 (@content_queries ascii_lib Demo.cfg Demo.big_blog
                     (Demo.update 7 "python") [])
                  (JNum 7) (Demo.message 7 "python") "python" eq_refl eq_refl _).
    discriminate.
  - refine (proj2 (@content_queries ascii_lib Demo.cfg Demo.typo_blog
                     (Demo.update 7 "pythn") [])
                  (JNum 7) (Demo.message 7 "pythn") "pythn" eq_refl eq_refl _).
    discriminate.
Defined.

Lemma empty_keyword_prompts_witness :
  fst (@webhook_handler ascii_lib Demo.cfg Demo.big_blog (Demo.update 7 "   ") [])
  = Return (JObj [("status", JStr "success")], 200%Z)
  /\ outbound (snd (@webhook_handler ascii_lib Demo.cfg Demo.big_blog
                      (Demo.update 7 "   ") []))
     = [EvPost "https://api.telegram.org/bottok/sendMessage"
               (JObj [("chat_id", JNum 7);
                      ("text", JStr "ℹ️ Please send a search keyword");
                      ("parse_mode", JStr "Markdown");
                      ("disable_web_page_preview", JBool true)])]
  /\ queries (snd (@webhook_handler ascii_lib Demo.cfg Demo.big_blog
                     (Demo.update 7 "   ") [])) = [].
Proof.
  apply (@empty_keyword_prompts ascii_lib Demo.cfg Demo.big_blog
           (Demo.update 7 "   ") (JNum 7) (Demo.message 7 "   ") []).
  - reflexivity.
  - reflexivity.
Defined.

(** A chat object without an id: KeyError 'id', 500, nothing sent. *)
Lemma chat_without_id_witness :
  @webhook_handler ascii_lib Demo.cfg Demo.big_blog
    (Payload (JObj [("message", JObj [("chat", JObj [("type", JStr "private")]);
                                       ("text", JStr "python")])])) []
  = (Return (error_body "'id'", 500%Z), [EvPrint "⚠️ Error: 'id'"]).
Proof.
  apply (@chat_without_id ascii_lib Demo.cfg Demo.big_blog
           [("message", JObj [("chat", JObj [("type", JStr "private")]);
                              ("text", JStr "python")])]
           [("chat", JObj [("type", JStr "private")]); ("text", JStr "python")]
           (JObj [("type", JStr "private")]) (KeyError (JStr "id")) []).
  - reflexivity.
  - reflexivity.
  - reflexivity.
Defined.

(** The text is the number 5. *)
Lemma text_not_a_string_witness :
  outbound (snd (@webhook_handler ascii_lib Demo.cfg Demo.big_blog
                   (Payload (JObj [("chat", JObj [("id", JNum 7)]); ("text", JNum 5)])) []))
  = [EvPost "https://api.telegram.org/bottok/sendMessage"
            (JObj [("chat_id", JNum 7);
                   ("text", JStr "⚠️ Error: 'int' object has no attribute 'strip'");
                   ("parse_mode", JStr "Markdown");
                   ("disable_web_page_preview", JBool true)])].
Proof.
  apply (@text_not_a_string ascii_lib Demo.cfg Demo.big_blog
           (Payload (JObj [("chat", JObj [("id", JNum 7)]); ("text", JNum 5)]))
           (JNum 7) [("chat", JObj [("id", JNum 7)]); ("text", JNum 5)] (JNum 5) []).
  - reflexivity.
  - reflexivity.
  - intros s. discriminate.
Defined.

Lemma nested_and_bare_message_witness :
  @webhook_handler ascii_lib Demo.cfg Demo.big_blog (Demo.update 7 "python") []
  = @webhook_handler ascii_lib Demo.cfg Demo.big_blog (Payload (Demo.message 7 "python")) [].
Proof.
  apply (@nested_and_bare_message ascii_lib Demo.cfg Demo.big_blog
           [("message", Demo.message 7 "python")]
           [("chat", JObj [("id", JNum 7)]); ("text", JStr "python")] []).
  - reflexivity.
  - reflexivity.
Defined.

(** ** Updates without a chat, case by case *)

Lemma assoc_get_None (k : string) (fields : list (string * json)) :
  assoc_get k fields = None <-> ~ In k (map fst fields).
Proof.
  induction fields as [| [k' v] rest IH]; cbn [assoc_get map fst In].
  - split; [intros _ [] | reflexivity].
  - destruct (String.eqb_spec k' k) as [-> | Hne].
    + split; [discriminate | intros Hno; exfalso; apply Hno; left; reflexivity].
    + rewrite IH. split.
      * intros Hno [Heq | Hin]; [contradiction | exact (Hno Hin)].
      * intros Hno Hin. apply Hno. right. exact Hin.
Qed.

Lemma str_among (k : string) (items : list json) :
  existsb (key_eqb (JStr k)) items = false <-> ~ In (JStr k) items.
Proof.
  induction items as [| x rest IH]; cbn [existsb In].
  - split; [intros _ [] | reflexivity].
  - rewrite orb_false_iff, IH. split.
    + intros [Hx Hrest] [-> | Hin]; [| exact (Hrest Hin)].
      cbn [key_eqb] in Hx. rewrite String.eqb_refl in Hx. discriminate.
    + intros Hno. split; [| intros Hin; apply Hno; right; exact Hin].
      destruct x; try reflexivity. cbn [key_eqb].
      destruct (String.eqb_spec k s) as [-> | Hne]; [| reflexivity].
      exfalso. apply Hno. left. reflexivity.
Qed.

Section NoChatCases.
Context {L : PyLib}.
Variable cfg : Config.
Variable w : World.

(** Line 67 on a JSON object: the early return is taken exactly for a
    message that is false, or that is a dict, a list or a str without
    "chat" in it. *)
Lemma early_return_iff (fields : list (string * json)) :
  resolve_chat (Payload (JObj fields)) = Return None
  <-> In (message_of fields)
         [JNull; JBool false; JNum 0; JStr EmptyString; JArr []; JObj []]
      \/ (exists mfields, message_of fields = JObj mfields
                          /\ ~ In "chat" (map fst mfields))
      \/ (exists items, message_of fields = JArr items /\ ~ In (JStr "chat") items)
      \/ (exists s, message_of fields = JStr s
                    /\ ~ exists before after, s = (before ++ "chat" ++ after)%string).
Proof.
  unfold resolve_chat. cbn [request_get_json rbind]. rewrite py_get_message.
  cbn [rbind]. destruct (message_of fields) as [| b | n | s | items | mfields].
  - cbn. split; [intros _; left; left; reflexivity | reflexivity].
  - destruct b; cbn.
    + split; [discriminate |].
      intros [Hin | [(m & Heq & _) | [(m & Heq & _) | (m & Heq & _)]]];
        try discriminate Heq.
      repeat (destruct Hin as [Heq | Hin]; [discriminate Heq |]). destruct Hin.
    + split; [intros _; left; right; left; reflexivity | reflexivity].
  - cbn [truthy]. destruct (Z.eqb_spec n 0) as [-> | Hne]; cbn [negb rbind py_in].
    + split; [intros _; left; right; right; left; reflexivity | reflexivity].
    + split; [discriminate |].
      intros [Hin | [(m & Heq & _) | [(m & Heq & _) | (m & Heq & _)]]];
        try discriminate Heq.
      repeat (destruct Hin as [Heq | Hin];
              [try discriminate Heq; injection Heq as <-; contradiction |]).
      destruct Hin.
  - cbn [truthy]. destruct (String.eqb_spec s EmptyString) as [-> | Hne];
      cbn [negb rbind py_in].
    + split; [intros _; left; do 3 right; left; reflexivity | reflexivity].
    + destruct (contains "chat" s) eqn:Hin; cbn [negb rbind py_getitem].
      * split; [discriminate |].
        intros [Hfalse | [(m & Heq & _) | [(m & Heq & _) | (s' & Heq & Hno)]]];
          try discriminate Heq.
        -- repeat (destruct Hfalse as [Heq | Hfalse];
                   [try discriminate Heq; injection Heq as <-; contradiction |]).
           destruct Hfalse.
        -- injection Heq as <-. exfalso. apply Hno. apply contains_split. exact Hin.
      * split; [| reflexivity].
        intros _. do 3 right. exists s. split; [reflexivity |].
        intros Hsplit. apply contains_split in Hsplit. rewrite Hin in Hsplit.
        discriminate.
  - destruct items as [| x rest]; cbn [truthy negb rbind py_in].
    + split; [intros _; left; do 4 right; left; reflexivity | reflexivity].
    + destruct (existsb (key_eqb (JStr "chat")) (x :: rest)) eqn:Hin;
        cbn [negb rbind py_getitem].
      * split; [discriminate |].
        intros [Hfalse | [(m & Heq & _) | [(items & Heq & Hno) | (m & Heq & _)]]];
          try discriminate Heq.
        -- repeat (destruct Hfalse as [Heq | Hfalse]; [discriminate Heq |]).
           destruct Hfalse.
        -- injection Heq as <-. apply str_among in Hno. rewrite Hno in Hin.
           discriminate.
      * split; [| reflexivity].
        intros _. right. right. left. exists (x :: rest). split; [reflexivity |].
        apply str_among. exact Hin.
  - destruct mfields as [| kv rest]; cbn [truthy negb rbind py_in].
    + split; [intros _; left; do 5 right; left; reflexivity | reflexivity].
    + destruct (assoc_get "chat" (kv :: rest)) as [chat |] eqn:Hchat;
        cbn [negb rbind].
      * split.
        -- cbn [py_getitem]. rewrite Hchat. cbn [rbind].
           destruct (py_getitem chat "id"); discriminate.
        -- intros [Hfalse | [(m & Heq & Hno) | [(m & Heq & _) | (m & Heq & _)]]];
             try discriminate Heq.
           ++ repeat (destruct Hfalse as [Heq | Hfalse]; [discriminate Heq |]).
              destruct Hfalse.
           ++ injection Heq as <-. apply assoc_get_None in Hno. rewrite Hno in Hchat.
              discriminate.
      * split; [| reflexivity].
        intros _. right. left. exists (kv :: rest). split; [reflexivity |].
        apply assoc_get_None. exact Hchat.
Qed.

(** A chat id is read only from a message that is a JSON object with a
    "chat" member. *)
Lemma resolved_has_chat (req : request) (chat_id message : json) :
  resolve_chat req = Return (Some (chat_id, message)) ->
  exists fields mfields,
    req = Payload (JObj fields)
    /\ message_of fields = JObj mfields
    /\ In "chat" (map fst mfields).
Proof.
  destruct req as [msg | update]; [discriminate |].
  destruct update as [| b | n | s | items | fields]; try discriminate.
  unfold resolve_chat. cbn [request_get_json rbind]. rewrite py_get_message.
  cbn [rbind]. destruct (truthy (message_of fields)); cbn [negb rbind]; [| discriminate].
  destruct (py_in "chat" (message_of fields)) as [present | e] eqn:Hin; [| discriminate].
  cbn [rbind]. destruct present; cbn [negb]; [| discriminate].
  destruct (message_of fields) as [| b | n | s | items | mfields] eqn:Hmsg;
    cbn [py_in] in Hin; try discriminate Hin.
  - cbn [py_getitem rbind]. discriminate.
  - cbn [py_getitem rbind]. discriminate.
  - intros _. exists fields, mfields. split; [reflexivity |]. split; [exact Hmsg |].
    destruct (assoc_get "chat" mfields) as [chat |] eqn:Hchat;
      [| discriminate Hin].
    destruct (in_dec string_dec "chat" (map fst mfields)) as [Hyes | Hno];
      [exact Hyes |].
    apply assoc_get_None in Hno. rewrite Hno in Hchat. discriminate.
Qed.

(** C6, as the code has it: an update without a chat (no JSON object with
    a "chat" member as its message, the message being the update's "message"
    member or else the update itself) never causes an outbound call, but
    is answered 400 only in part.  The invalid-format body with 400 and no
    event at all is the answer exactly when the update is a JSON object
    whose message is false (null, false, 0, the empty str, list or dict),
    or is a dict, a list or a str that does not hold "chat".  Every other
    update without a chat (a body that is not JSON or not an object, a
    message that is a number other than 0 or true, a list or a str holding
    "chat") makes lines 64-70 raise: the error text is printed and the
    answer is the error body with 500. *)
Theorem missing_chat_rejected (req : request) (h : list event) :
  let message_is (m : json) :=
    exists fields,
      req = Payload (JObj fields)
      /\ m = match assoc_get "message" fields with Some m' => m' | None => JObj fields end in
  let has_chat :=
    exists mfields, message_is (JObj mfields) /\ In "chat" (map fst mfields) in
  let rejected :=
    exists m,
      message_is m
      /\ (In m [JNull; JBool false; JNum 0; JStr EmptyString; JArr []; JObj []]
          \/ (exists mfields, m = JObj mfields /\ ~ In "chat" (map fst mfields))
          \/ (exists items, m = JArr items /\ ~ In (JStr "chat") items)
          \/ (exists s, m = JStr s
                        /\ ~ exists before after, s = (before ++ "chat" ++ after)%string)) in
  (rejected
   <-> webhook_handler cfg w req h
       = (Return (JObj [("status", JStr "error");
                        ("message", JStr "Invalid message format")], 400%Z), []))
  /\ (~ has_chat ->
      outbound (snd (webhook_handler cfg w req h)) = []
      /\ (~ rejected ->
          exists e,
            webhook_handler cfg w req h
            = (Return (JObj [("status", JStr "error"); ("message", JStr (exn_str e))],
                       500%Z),
               [EvPrint ("⚠️ Error: " ++ exn_str e)]))).
Proof.
  intros message_is has_chat rejected.
  assert (Hrejected : rejected <-> resolve_chat req = Return None).
  { split.
    - intros (m & (fields & -> & ->) & Hcases). apply early_return_iff. exact Hcases.
    - intros Hres. destruct req as [msg | update]; [discriminate |].
      destruct update as [| b | n | s | items | fields]; try discriminate.
      exists (message_of fields). split; [exists fields; split; reflexivity |].
      apply early_return_iff. exact Hres. }
  pose proof (handler_cases cfg w req h) as Hcases.
  destruct (resolve_chat req) as [[[chat_id message] |] | e] eqn:Hres.
  - split.
    + split; [intros Hrej; apply Hrejected in Hrej; discriminate |].
      intros Hrun. exfalso.
      destruct Hcases as [Hok | [[e Herr] | (kw & s & failure & _ & _ & Hraise)]].
      * rewrite Hrun in Hok. discriminate.
      * rewrite Hrun in Herr. discriminate.
      * rewrite Hrun in Hraise. discriminate.
    + intros Hno. exfalso. apply Hno.
      destruct (resolved_has_chat req chat_id message Hres)
        as (fields & mfields & Hreq & Hmsg & Hin).
      exists mfields. split; [| exact Hin].
      exists fields. split; [exact Hreq |]. symmetry. exact Hmsg.
  - rewrite Hcases. split.
    + split; [reflexivity | intros _; apply Hrejected; reflexivity].
    + intros _. split; [reflexivity |].
      intros Hno. exfalso. apply Hno. apply Hrejected. reflexivity.
  - rewrite Hcases. split.
    + split; [intros Hrej; apply Hrejected in Hrej; discriminate | discriminate].
    + intros _. split; [reflexivity |]. intros _. exists e. reflexivity.
Qed.

End NoChatCases.

(** The message is the number 5: no chat, and yet not 400.  Line 67 raises
    on ["chat" not in 5]; the answer is 500. *)
Lemma missing_chat_counterexample :
  let req := Payload (JObj [("message", JNum 5)]) in
  (forall fields mfields,
      req = Payload (JObj fields) ->
      match assoc_get "message" fields with Some m => m | None => JObj fields end
      <> JObj mfields)
  /\ @webhook_handler ascii_lib Demo.cfg Demo.big_blog req []
     = (Return (JObj [("status", JStr "error");
                      ("message", JStr "argument of type 'int' is not iterable")],
                500%Z),
        [EvPrint "⚠️ Error: argument of type 'int' is not iterable"])
  /\ forall body,
       fst (@webhook_handler ascii_lib Demo.cfg Demo.big_blog req [])
       <> Return (body, 400%Z).
Proof.
  intros req. split; [| split].
  - intros fields mfields Heq. injection Heq as <-. discriminate.
  - reflexivity.
  - intros body. discriminate.
Qed.

(** A message with a text and no chat is answered 400; a body that is the
    JSON null has no chat either, is not rejected and is answered 500. *)
Lemma missing_chat_rejected_witness :
  @webhook_handler ascii_lib Demo.cfg Demo.big_blog
    (Payload (JObj [("message", JObj [("text", JStr "python")])])) []
  = (Return (JObj [("status", JStr "error");
                        ("message", JStr "Invalid message format")], 400%Z), [])
  /\ outbound (snd (@webhook_handler ascii_lib Demo.cfg Demo.big_blog (Payload JNull) []))
     = [].
Proof.
  split.
  - apply (proj1 (proj1 (@missing_chat_rejected ascii_lib Demo.cfg Demo.big_blog
                           (Payload (JObj [("message", JObj [("text", JStr "python")])]))
                           []))).
    exists (JObj [("text", JStr "python")]). split.
    + exists [("message", JObj [("text", JStr "python")])]. split; reflexivity.
    + right. left. exists [("text", JStr "python")]. split; [reflexivity |].
      cbn. intros [Heq | []]. discriminate Heq.
  - apply (proj2 (@missing_chat_rejected ascii_lib Demo.cfg Demo.big_blog
                    (Payload JNull) [])).
    intros (mfields & (fields & Heq & _) & _). discriminate Heq.
Defined.

(** ** The dict of matched posts *)

Section DedupMore.
Context {L : PyLib}.

Lemma dict_set_values (d : list (json * json)) (k v q : json) :
  In q (dict_values (dict_set d k v)) -> q = v \/ In q (dict_values d).
Proof.
  unfold dict_values. induction d as [| [k' v'] rest IH]; cbn [dict_set].
  - cbn. intros [<- | []]. left. reflexivity.
  - destruct (key_eqb k' k); cbn [map snd In].
    + intros [<- | Hin]; [left; reflexivity | right; right; exact Hin].
    + intros [<- | Hin]; [right; left; reflexivity |].
      destruct (IH Hin) as [-> | Hin']; [left; reflexivity | right; right; exact Hin'].
Qed.

Lemma dict_set_length (d : list (json * json)) (k v : json) :
  length (dict_set d k v) <= S (length d).
Proof.
  induction d as [| [k' v'] rest IH]; cbn [dict_set]; [cbn; lia |].
  destruct (key_eqb k' k); cbn [length] in *; lia.
Qed.

Lemma dict_by_url_values (posts : list json) :
  forall d d',
    dict_by_url d posts = Return d' ->
    (forall q, In q (dict_values d') -> In q (dict_values d) \/ In q posts)
    /\ length d' <= length d + length posts.
Proof.
  induction posts as [| post rest IH]; intros d d'; cbn [dict_by_url].
  - intros Heq. injection Heq as <-. split; [auto | lia].
  - unfold rbind. destruct (py_getitem post "url") as [url | e]; [| discriminate].
    destruct (hashable url); [| discriminate].
    intros Hrest. destruct (IH _ _ Hrest) as [Hin Hlen]. split.
    + intros q Hq. destruct (Hin q Hq) as [Hset | Hq']; [| right; right; exact Hq'].
      destruct (dict_set_values d url post q Hset) as [-> | Hold];
        [right; left; reflexivity | left; exact Hold].
    + pose proof (dict_set_length d url post). cbn [length]. lia.
Qed.

(** Every post that went through line 54 has a hashable url. *)
Lemma dict_by_url_urls (posts : list json) :
  forall d d',
    dict_by_url d posts = Return d' ->
    forall p, In p posts ->
              exists url, py_getitem p "url" = Return url /\ hashable url = true.
Proof.
  induction posts as [| post rest IH]; intros d d'; cbn [dict_by_url]; [contradiction |].
  unfold rbind. destruct (py_getitem post "url") as [url | e] eqn:Hurl; [| discriminate].
  destruct (hashable url) eqn:Hhash; [| discriminate].
  intros Hrest p [<- | Hin]; [eauto | eapply IH; eassumption].
Qed.

Lemma dict_set_keeps (d : list (json * json)) (k v k2 v2 : json) :
  In (k, v) d -> key_eqb k k2 = false -> In (k, v) (dict_set d k2 v2).
Proof.
  intros Hin Hne. induction d as [| [k' v'] rest IH]; [contradiction |].
  cbn [dict_set]. destruct Hin as [Heq | Hin].
  - injection Heq as -> ->. rewrite Hne. left. reflexivity.
  - destruct (key_eqb k' k2); right; [exact Hin | apply IH; exact Hin].
Qed.

Lemma dict_set_entry (d : list (json * json)) (k v : json) :
  hashable k = true ->
  exists k', In (k', v) (dict_set d k v) /\ key_eqb k' k = true.
Proof.
  intros Hhash. induction d as [| [k' v'] rest IH]; cbn [dict_set].
  - exists k. split; [left; reflexivity | apply key_eqb_refl; exact Hhash].
  - destruct (key_eqb k' k) eqn:Hk.
    + exists k'. split; [left; reflexivity | exact Hk].
    + destruct IH as (k'' & Hin & Heq). exists k''. split; [right; exact Hin | exact Heq].
Qed.

(** An entry stays as it is while no later post has its key as url. *)
Lemma dict_by_url_keeps (posts : list json) :
  forall d d' k v,
    dict_by_url d posts = Return d' ->
    In (k, v) d ->
    (forall r ur, In r posts -> py_getitem r "url" = Return ur -> key_eqb k ur = false) ->
    In (k, v) d'.
Proof.
  induction posts as [| post rest IH]; intros d d' k v; cbn [dict_by_url].
  - intros Heq Hin _. injection Heq as <-. exact Hin.
  - unfold rbind. destruct (py_getitem post "url") as [url | e] eqn:Hurl; [| discriminate].
    destruct (hashable url); [| discriminate].
    intros Hrest Hin Hlater. eapply IH; [exact Hrest | |].
    + apply dict_set_keeps; [exact Hin |]. eapply Hlater; [left; reflexivity | exact Hurl].
    + intros r ur Hr Hur. eapply Hlater; [right; exact Hr | exact Hur].
Qed.

(** whether some post of the list has a url equal, as a key, to [u] *)
Lemma url_later_dec (u : json) (posts : list json) :
  (exists r ur, In r posts /\ py_getitem r "url" = Return ur /\ key_eqb u ur = true)
  \/ (forall r ur, In r posts -> py_getitem r "url" = Return ur -> key_eqb u ur = false).
Proof.
  induction posts as [| post rest IH].
  - right. intros r ur [].
  - destruct IH as [(r & ur & Hr & Hur & Heq) | Hnone].
    + left. exists r, ur. split; [right; exact Hr | split; assumption].
    + destruct (py_getitem post "url") as [url | e] eqn:Hurl.
      * destruct (key_eqb u url) eqn:Heq.
        -- left. exists post, url. split; [left; reflexivity | split; assumption].
        -- right. intros r ur [<- | Hr] Hur; [congruence | eapply Hnone; eassumption].
      * right. intros r ur [<- | Hr] Hur; [congruence | eapply Hnone; eassumption].
Qed.

Lemma dict_by_url_last (posts : list json) :
  forall d d',
    dict_by_url d posts = Return d' ->
    forall p u,
      In p posts -> py_getitem p "url" = Return u ->
      exists before q after uq,
        posts = before ++ q :: after
        /\ py_getitem q "url" = Return uq
        /\ key_eqb u uq = true
        /\ (forall r ur, In r after -> py_getitem r "url" = Return ur ->
                         key_eqb u ur = false)
        /\ In q (dict_values d').
Proof.
  induction posts as [| post rest IH]; intros d d' Hrun p u Hp Hu; [contradiction |].
  pose proof (dict_by_url_urls _ _ _ Hrun) as Hurls.
  cbn [dict_by_url] in Hrun. unfold rbind in Hrun.
  destruct (py_getitem post "url") as [url | e] eqn:Hurl; [| discriminate].
  destruct (hashable url) eqn:Hhash; [| discriminate].
  destruct (url_later_dec u rest) as [(r & ur & Hr & Hur & Heq) | Hnone].
  - destruct (IH _ _ Hrun r ur Hr Hur)
      as (before & q & after & uq & -> & Hq & Heq' & Hafter & Hin).
    exists (post :: before), q, after, uq. split; [reflexivity |].
    split; [exact Hq |]. split; [eapply key_eqb_trans; eassumption |].
    split; [| exact Hin].
    intros r' ur' Hr' Hur'. specialize (Hafter r' ur' Hr' Hur').
    destruct (key_eqb u ur') eqn:Hcase; [| reflexivity].
    rewrite key_eqb_sym in Heq.
    rewrite (key_eqb_trans _ _ _ Heq Hcase) in Hafter. discriminate.
  - assert (Hpost : p = post).
    { destruct Hp as [<- | Hp]; [reflexivity |]. exfalso.
      destruct (Hurls p (or_intror Hp)) as (u' & Hu' & Hhash').
      assert (u' = u) by congruence. subst u'.
      pose proof (key_eqb_refl u Hhash') as Hrefl.
      rewrite (Hnone p u Hp Hu) in Hrefl. discriminate. }
    subst p. assert (url = u) by congruence. subst url.
    exists [], post, rest, u. split; [reflexivity |]. split; [exact Hu |].
    split; [apply key_eqb_refl; exact Hhash |]. split; [exact Hnone |].
    destruct (dict_set_entry d u post Hhash) as (k' & Hentry & Hk').
    assert (Hkept : In (k', post) d').
    { eapply dict_by_url_keeps; [exact Hrun | exact Hentry |].
      intros r ur Hr Hur. specialize (Hnone r ur Hr Hur).
      destruct (key_eqb k' ur) eqn:Hcase; [| reflexivity].
      rewrite key_eqb_sym in Hk'.
      rewrite (key_eqb_trans _ _ _ Hk' Hcase) in Hnone. discriminate. }
    unfold dict_values. apply in_map_iff. exists (k', post). split; [reflexivity | exact Hkept].
Qed.

(** X12 (line 54): the deduplication invents nothing and loses no url.
    Every post it returns is one of the matched posts, there are no more of
    them than matched posts, and every matched post's url is carried by a
    returned post: by the last matched post with that url (last seen
    wins). *)
Theorem dedup_last_seen_wins (matched : list json) (d : list (json * json)) :
  dict_by_url [] matched = Return d ->
  (forall q, In q (dict_values d) -> In q matched)
  /\ length (dict_values d) <= length matched
  /\ forall p u,
      In p matched -> py_getitem p "url" = Return u ->
      exists before q after uq,
        matched = before ++ q :: after
        /\ py_getitem q "url" = Return uq
        /\ key_eqb u uq = true
        /\ (forall r ur, In r after -> py_getitem r "url" = Return ur ->
                         key_eqb u ur = false)
        /\ In q (dict_values d).
Proof.
  intros Hrun. destruct (dict_by_url_values _ _ _ Hrun) as [Hin Hlen].
  split; [| split].
  - intros q Hq. destruct (Hin q Hq) as [[] | Hq']. exact Hq'.
  - unfold dict_values. rewrite length_map. cbn in Hlen. exact Hlen.
  - apply (dict_by_url_last matched [] d Hrun).
Qed.

End DedupMore.

(** p1 and p3 share a url; p3, the later one, is returned. *)
Lemma dedup_last_seen_wins_witness :
  exists before q after uq,
    [Demo.p1; Demo.p2; Demo.p3] = before ++ q :: after
    /\ py_getitem q "url" = Return uq
    /\ key_eqb (JStr "https://b.example/1") uq = true
    /\ (forall r ur, In r after -> py_getitem r "url" = Return ur ->
                     key_eqb (JStr "https://b.example/1") ur = false)
    /\ In q [Demo.p3; Demo.p2].
Proof.
  apply (proj2 (proj2 (dedup_last_seen_wins [Demo.p1; Demo.p2; Demo.p3]
                         [(JStr "https://b.example/1", Demo.p3);
                          (JStr "https://b.example/2", Demo.p2)] eq_refl))
               Demo.p1 (JStr "https://b.example/1")).
  - left. reflexivity.
  - reflexivity.
Defined.

Section DedupShape.
Context {L : PyLib}.

Lemma dict_set_fresh (d : list (json * json)) (k v : json) :
  Forall (fun kv => key_eqb (fst kv) k = false) d ->
  dict_set d k v = d ++ [(k, v)].
Proof.
  induction d as [| [k' v'] rest IH]; intros Hfresh; cbn [dict_set app]; [reflexivity |].
  inversion Hfresh as [| ? ? Hhead Hrest]; subst. cbn [fst] in Hhead.
  rewrite Hhead, (IH Hrest). reflexivity.
Qed.

(** Posts whose urls differ pairwise are filed one after the other. *)
Lemma dict_by_url_distinct (posts : list json) :
  forall urls d,
    Forall2 (fun p u => py_getitem p "url" = Return u /\ hashable u = true) posts urls ->
    ForallOrdPairs (fun a b => key_eqb a b = false) urls ->
    Forall (fun kv => Forall (fun u => key_eqb (fst kv) u = false) urls) d ->
    dict_by_url d posts = Return (d ++ combine urls posts).
Proof.
  induction posts as [| post rest IH]; intros urls d Hurls Hdist Hfresh.
  - inversion Hurls; subst. cbn. now rewrite app_nil_r.
  - inversion Hurls as [| ? u ? urls' [Hurl Hhash] Hrest]; subst.
    inversion Hdist as [| ? ? Hhead Htail]; subst.
    cbn [dict_by_url rbind combine]. rewrite Hurl. cbn [rbind]. rewrite Hhash.
    rewrite dict_set_fresh.
    + rewrite (IH urls' (d ++ [(u, post)]) Hrest Htail).
      * rewrite <- app_assoc. reflexivity.
      * apply Forall_app. split.
        -- eapply Forall_impl; [| exact Hfresh]. intros kv Hkv.
           inversion Hkv; assumption.
        -- constructor; [exact Hhead | constructor].
    + eapply Forall_impl; [| exact Hfresh]. intros kv Hkv. inversion Hkv; assumption.
Qed.

Lemma combine_values (urls posts : list json) :
  length urls = length posts -> dict_values (combine urls posts) = posts.
Proof.
  unfold dict_values. revert posts.
  induction urls as [| u urls IH]; intros [| p posts] Hlen; try discriminate; cbn.
  - reflexivity.
  - f_equal. apply IH. now injection Hlen.
Qed.

(** X13 (line 54): posts whose urls already differ pairwise go through the
    deduplication unchanged, in the same order. *)
Theorem dedup_distinct_unchanged (posts urls : list json) :
  Forall2 (fun p u => py_getitem p "url" = Return u /\ hashable u = true) posts urls ->
  ForallOrdPairs (fun a b => key_eqb a b = false) urls ->
  exists d, dict_by_url [] posts = Return d /\ dict_values d = posts.
Proof.
  intros Hurls Hdist. exists (combine urls posts). split.
  - apply (dict_by_url_distinct posts urls [] Hurls Hdist). constructor.
  - apply combine_values. symmetry. eapply Forall2_length. exact Hurls.
Qed.

Lemma key_eqb_hashable (a b : json) : key_eqb a b = true -> hashable b = true.
Proof. destruct a, b; cbn; try discriminate; reflexivity. Qed.

(** The urls of the values of a dict that line 54 built. *)
Lemma dict_urls (d : list (json * json)) :
  keys_distinct d -> filed_by_url d ->
  exists urls,
    Forall2 (fun p u => py_getitem p "url" = Return u /\ hashable u = true)
            (dict_values d) urls
    /\ Forall2 (fun kv u => key_eqb (fst kv) u = true) d urls
    /\ ForallOrdPairs (fun a b => key_eqb a b = false) urls.
Proof.
  unfold filed_by_url, dict_values.
  induction d as [| [k v] rest IH]; cbn [keys_distinct map].
  - intros _ _. exists []. repeat split; constructor.
  - intros [Hhead Hdist] Hfiled.
    inversion Hfiled as [| ? ? [Hhash (u & Hu & Hku)] Hrest]; subst. cbn [fst snd] in *.
    destruct (IH Hdist Hrest) as (urls & Hvals & Hkeys & Hpairs).
    exists (u :: urls). split; [| split].
    + constructor; [| exact Hvals]. split; [exact Hu | eapply key_eqb_hashable; exact Hku].
    + constructor; assumption.
    + constructor; [| exact Hpairs].
      clear - Hhead Hkeys Hku. induction Hkeys as [| [k2 v2] u2 rest urls Hk2 Hkeys IH].
      * constructor.
      * inversion Hhead as [| ? ? Hne Hhead']; subst. cbn [fst] in *.
        constructor; [| apply IH; exact Hhead'].
        destruct (key_eqb u u2) eqn:Hcase; [| reflexivity].
        rewrite key_eqb_sym in Hk2.
        rewrite (key_eqb_trans _ _ _ (key_eqb_trans _ _ _ Hku Hcase) Hk2) in Hne.
        discriminate.
Qed.

(** X14 (line 54): deduplicating a second time changes nothing. *)
Theorem dedup_idempotent (matched : list json) (d : list (json * json)) :
  dict_by_url [] matched = Return d ->
  exists d', dict_by_url [] (dict_values d) = Return d' /\ dict_values d' = dict_values d.
Proof.
  intros Hrun.
  destruct (dict_by_url_invariant matched [] d I (Forall_nil _) Hrun) as [Hdist Hfiled].
  destruct (dict_urls d Hdist Hfiled) as (urls & Hvals & _ & Hpairs).
  exists (combine urls (dict_values d)). split.
  - apply (dict_by_url_distinct (dict_values d) urls [] Hvals Hpairs). constructor.
  - apply combine_values. symmetry. eapply Forall2_length. exact Hvals.
Qed.

(** X15 (line 54): the deduplication completes exactly when every matched
    post has a url that can be a dict key (a str, a number, a boolean or
    null); a matched post without a url, or with a list or an object as
    url, makes it raise. *)
Theorem dedup_completes_iff (matched : list json) :
  (exists d, dict_by_url [] matched = Return d)
  <-> forall p, In p matched ->
                exists url, py_getitem p "url" = Return url /\ hashable url = true.
Proof.
  split.
  - intros [d Hrun]. eapply dict_by_url_urls. exact Hrun.
  - generalize (@nil (json * json)).
    induction matched as [| post rest IH]; intros d Hall; cbn [dict_by_url].
    + eexists; reflexivity.
    + destruct (Hall post (or_introl eq_refl)) as (url & Hurl & Hhash).
      rewrite Hurl. cbn [rbind]. rewrite Hhash.
      apply IH. intros p Hp. apply Hall. right. exact Hp.
Qed.

End DedupShape.

Lemma dedup_distinct_unchanged_witness :
  exists d, dict_by_url [] [Demo.p2; Demo.p4; Demo.p1] = Return d
            /\ dict_values d = [Demo.p2; Demo.p4; Demo.p1].
Proof.
  apply (dedup_distinct_unchanged [Demo.p2; Demo.p4; Demo.p1]
           [JStr "https://b.example/2"; JStr "https://b.example/4";
            JStr "https://b.example/1"]).
  - repeat constructor.
  - repeat constructor.
Defined.

Lemma dedup_idempotent_witness :
  exists d', dict_by_url [] [Demo.p3; Demo.p2] = Return d'
             /\ dict_values d' = [Demo.p3; Demo.p2].
Proof.
  apply (dedup_idempotent [Demo.p1; Demo.p2; Demo.p3]
           [(JStr "https://b.example/1", Demo.p3); (JStr "https://b.example/2", Demo.p2)]).
  reflexivity.
Defined.

(** Every post has a str as url: the deduplication completes. *)
Lemma dedup_completes_iff_witness :
  exists d, dict_by_url [] [Demo.p1; Demo.p2; Demo.p3] = Return d.
Proof.
  apply (proj2 (dedup_completes_iff [Demo.p1; Demo.p2; Demo.p3])).
  intros p Hp. cbn in Hp.
  destruct Hp as [<- | [<- | [<- | []]]]; eexists; split; reflexivity.
Defined.

(** ** What the fuzzy search returns *)

Section FuzzySound.
Context {L : PyLib}.
Variable cfg : Config.
Variable w : World.

Lemma normalize_labels_fault (labels : list json) (e : exn) :
  normalize_labels labels = Raise e -> is_RequestException e = false.
Proof.
  induction labels as [| label rest IH]; cbn [normalize_labels]; [discriminate |].
  unfold rbind, normalize_label.
  destruct label; try (intros Heq; injection Heq as <-; reflexivity).
  destruct (normalize_labels rest); [discriminate |].
  intros Heq. injection Heq as <-. apply IH. reflexivity.
Qed.

Lemma post_labels_fault (post : json) (e : exn) :
  post_labels post = Raise e -> is_RequestException e = false.
Proof.
  unfold post_labels, rbind, py_get, py_iter.
  destruct post; try (intros Heq; injection Heq as <-; reflexivity).
  destruct (assoc_get "labels" fields) as [labels |];
    [| cbn; discriminate].
  destruct labels; try (intros Heq; injection Heq as <-; reflexivity);
    apply normalize_labels_fault.
Qed.

Lemma match_posts_fault (keyword : string) (all_posts : list json) (e : exn) :
  match_posts keyword all_posts = Raise e -> is_RequestException e = false.
Proof.
  induction all_posts as [| post rest IH]; cbn [match_posts]; [discriminate |].
  unfold rbind. destruct (post_labels post) as [labels | e'] eqn:Hlabels.
  - destruct (match_posts keyword rest); [discriminate |].
    intros Heq. injection Heq as <-. apply IH. reflexivity.
  - intros Heq. injection Heq as <-. eapply post_labels_fault. exact Hlabels.
Qed.

Lemma dict_by_url_fault (posts : list json) (e : exn) :
  forall d, dict_by_url d posts = Raise e -> is_RequestException e = false.
Proof.
  induction posts as [| post rest IH]; intros d; cbn [dict_by_url]; [discriminate |].
  unfold rbind, py_getitem.
  destruct post; try (intros Heq; injection Heq as <-; reflexivity).
  destruct (assoc_get "url" fields) as [url |];
    [| intros Heq; injection Heq as <-; reflexivity].
  destruct (hashable url); [apply IH | intros Heq; injection Heq as <-; reflexivity].
Qed.

(** X16 (lines 44-54): what the fuzzy search returns for a collection.
    Every returned post is a post of the collection that meets the condition
    of line 50, there are no more of them than posts in the collection, and
    every post of the collection that meets the condition has its url
    carried by a returned post. *)
Theorem fuzzy_search_sound
        (keyword : string) (h : list event) (r : response)
        (fields : list (string * json)) (all_posts : list json)
        (result : json) (evs : list event) :
  http_get w h (all_posts_url cfg) = NetResponse r ->
  body r = inr (JObj fields) ->
  assoc_get "items" fields = Some (JArr all_posts) ->
  search_blogger_posts cfg w keyword false h = (Return result, evs) ->
  exists posts,
    result = JArr posts
    /\ length posts <= length all_posts
    /\ (forall post,
          In post posts ->
          In post all_posts
          /\ exists labels,
              post_labels post = Return labels /\ label_match keyword labels = true)
    /\ (forall post labels url,
          In post all_posts ->
          post_labels post = Return labels ->
          label_match keyword labels = true ->
          py_getitem post "url" = Return url ->
          exists kept kept_url,
            In kept posts
            /\ py_getitem kept "url" = Return kept_url
            /\ key_eqb url kept_url = true).
Proof.
  intros Hget Hbody Hitems Hrun.
  rewrite search_run in Hrun. cbv zeta in Hrun.
  cbn [search_url search_items] in Hrun. rewrite Hget, Hbody in Hrun.
  unfold fuzzy_items in Hrun. cbn [py_get] in Hrun. rewrite Hitems in Hrun.
  cbn [rbind py_iter] in Hrun.
  destruct (match_posts keyword all_posts) as [matched | e] eqn:Hmatched.
  - cbn [rbind] in Hrun.
    destruct (dict_by_url [] matched) as [d | e] eqn:Hd.
    + cbn [rbind] in Hrun. injection Hrun as <- <-.
      destruct (dict_by_url_values _ _ _ Hd) as [Hin Hlen].
      pose proof (match_posts_In keyword all_posts matched Hmatched) as Hmatch.
      exists (dict_values d). split; [reflexivity |]. split; [| split].
      * unfold dict_values. rewrite length_map. cbn in Hlen.
        etransitivity; [exact Hlen |].
        clear - Hmatched. revert matched Hmatched.
        induction all_posts as [| p rest IH]; intros matched; cbn [match_posts].
        -- intros Heq. injection Heq as <-. reflexivity.
        -- unfold rbind. destruct (post_labels p) as [plabels |]; [| discriminate].
           destruct (match_posts keyword rest) as [m |]; [| discriminate].
           specialize (IH m eq_refl). intros Heq. injection Heq as <-.
           destruct (label_match keyword plabels); cbn [length]; lia.
      * intros post Hpost. destruct (Hin post Hpost) as [[] | Hm].
        apply Hmatch. exact Hm.
      * intros post labels url Hpost Hlabels Hcond Hurl.
        assert (Hm : In post matched) by (apply Hmatch; eauto).
        destruct (dict_by_url_last matched [] d Hd post url Hm Hurl)
          as (before & q & after & uq & _ & Hq & Heq & _ & Hkept).
        exists q, uq. repeat split; assumption.
    + cbn [rbind] in Hrun. rewrite (dict_by_url_fault _ _ _ Hd) in Hrun. discriminate.
  - cbn [rbind] in Hrun. rewrite (match_posts_fault _ _ _ Hmatched) in Hrun. discriminate.
Qed.

End FuzzySound.

Lemma fuzzy_search_sound_witness :
  exists posts,
    JArr [Demo.p3; Demo.p2] = JArr posts
    /\ length posts <= 7
    /\ forall post,
        In post posts ->
        In post [Demo.p1; Demo.p2; Demo.p3; Demo.p4; Demo.p5; Demo.p6; Demo.p7]
        /\ exists labels,
            @post_labels ascii_lib post = Return labels
            /\ @label_match ascii_lib "pythn" labels = true.
Proof.
  destruct (@fuzzy_search_sound ascii_lib Demo.cfg Demo.typo_blog "pythn"
              [EvGet (exact_url Demo.cfg "pythn")] _
              [("items", JArr [Demo.p1; Demo.p2; Demo.p3; Demo.p4; Demo.p5; Demo.p6; Demo.p7])]
              [Demo.p1; Demo.p2; Demo.p3; Demo.p4; Demo.p5; Demo.p6; Demo.p7]
              (JArr [Demo.p3; Demo.p2]) [EvGet (all_posts_url Demo.cfg)]
              eq_refl eq_refl eq_refl eq_refl)
    as (posts & Hres & Hlen & Hsound & _).
  exists posts. split; [exact Hres |]. split; [exact Hlen | exact Hsound].
Defined.

Section MatchLoop.
Context {L : PyLib}.

(** X17 (lines 47-51): the loop over the collection completes exactly when
    the labels of every post can be read.  One post that is not an object,
    or whose labels cannot be iterated or hold something other than strs,
    makes the whole loop raise, whether or not that post or any other would
    match. *)
Theorem match_loop_completes_iff (keyword : string) (all_posts : list json) :
  (exists matched, match_posts keyword all_posts = Return matched)
  <-> forall post, In post all_posts -> exists labels, post_labels post = Return labels.
Proof.
  split; [| apply match_posts_total].
  induction all_posts as [| p rest IH]; cbn [match_posts]; [intros _ post [] |].
  unfold rbind. intros [matched Hrun].
  destruct (post_labels p) as [labels |] eqn:Hlabels; [| discriminate].
  destruct (match_posts keyword rest) as [m |]; [| discriminate].
  intros post [<- | Hin]; [eauto | apply IH; eauto].
Qed.

End MatchLoop.

(** Three posts with lists of strs as labels: the loop completes. *)
Lemma match_loop_completes_iff_witness :
  exists matched,
    @match_posts ascii_lib "python" [Demo.p1; Demo.p4; Demo.p2] = Return matched.
Proof.
  apply (proj2 (@match_loop_completes_iff ascii_lib "python" [Demo.p1; Demo.p4; Demo.p2])).
  intros post Hpost. cbn in Hpost.
  destruct Hpost as [<- | [<- | [<- | []]]]; eexists; reflexivity.
Defined.

(** th is in python. *)
Lemma contains_iff_split_witness : contains "th" "python" = true.
Proof.
  apply (proj2 (contains_iff_split "th" "python")).
  exists "py", "on". reflexivity.
Defined.
